(** * neural_machine_translation: dataset, seq2seq network and epoch drivers

    A shallow embedding of [dataset.py], [network.py] and [train.py].

    Conventions of the embedding:
    - a [LongTensor] of token ids of shape (batch x seq_len) is a
      [list (list Z)], one inner list per row;
    - floating-point values are kept abstract (a type [scalar]); no theorem
      depends on their arithmetic;
    - Python exceptions are the constructors of [exn]; code that may raise
      returns a [result];
    - PyTorch primitives ([nn.Embedding], [nn.GRU], [nn.Linear],
      [pack_padded_sequence]) are embedded down to their documented shape
      checks, their numeric kernels are section variables. *)

From stdpp Require Import gmap strings list fin_maps.

Open Scope Z_scope.

(** ** Exceptions and the error monad *)

Inductive exn : Type :=
| AssertionError
| IndexError
| ZeroDivisionError
| RuntimeError
| ValueError
| OSError.

Inductive result (A : Type) : Type :=
| Ok (a : A)
| Raise (e : exn).
Arguments Ok {A} a.
Arguments Raise {A} e.

Definition rbind {A B : Type} (r : result A) (k : A -> result B) : result B :=
  match r with
  | Ok a => k a
  | Raise e => Raise e
  end.

Declare Scope result_scope.
Delimit Scope result_scope with result.
Notation "'let?' x ':=' r 'in' k" := (rbind r (fun x => k))
  (at level 10, x pattern, r at level 100, k at level 200) : result_scope.
Open Scope result_scope.

Definition is_ok {A : Type} (r : result A) : bool :=
  match r with Ok _ => true | Raise _ => false end.

(** ** Python list primitives *)

Module Py.

(** [l[idx]]: negative indices count from the end, out of range raises. *)
Definition getitem {A : Type} (l : list A) (idx : Z) : result A :=
  let n := Z.of_nat (length l) in
  let j := if idx <? 0 then idx + n else idx in
  if (j <? 0) || (n <=? j) then Raise IndexError
  else match l !! Z.to_nat j with
       | Some a => Ok a
       | None => Raise IndexError
       end.

(** [l[start:]] for any integer [start]. *)
Definition slice_from {A : Type} (start : Z) (l : list A) : list A :=
  let n := Z.of_nat (length l) in
  let s := if start <? 0 then Z.max (start + n) 0 else Z.min start n in
  drop (Z.to_nat s) l.

(** [l[:-1]] *)
Definition all_but_last {A : Type} (l : list A) : list A := removelast l.

(** [l[1:]] *)
Definition all_but_first {A : Type} (l : list A) : list A := tail l.

(** [a % b] on Python ints: the sign follows the divisor, as [Z.modulo];
    a zero divisor raises. *)
Definition mod_ (a b : Z) : result Z :=
  if b =? 0 then Raise ZeroDivisionError else Ok (a mod b).

(** [tqdm(iterable)] only decorates the iteration with a progress bar. *)
Definition tqdm {A : Type} (it : list A) : list A := it.

(** [range(n)]: empty when [n] is not positive. *)
Definition range (n : Z) : list Z := map Z.of_nat (seq 0 (Z.to_nat n)).

End Py.

(** ** utils.py *)

Module Utils.

(** Modelled from the spec: [utils.infer_length] is imported by
    [network.py] but is not among the sources.  Section 4.1, step 2:
    "For each sequence, compute its true length as the index of the first
    pad id, or the full length if no pad id is present." *)
Fixpoint infer_length_row (pad_id : Z) (row : list Z) : nat :=
  match row with
  | [] => 0%nat
  | t :: rest =>
      if t =? pad_id then 0%nat else S (infer_length_row pad_id rest)
  end.

Definition infer_length (seq : list (list Z)) (pad_id : Z) : list nat :=
  map (infer_length_row pad_id) seq.

(** Modelled from the spec: [utils.to_numpy] is imported by [train.py] but
    is not among the sources.  Sections 4.4 (step 5) and 9 describe the
    extraction as "indexing a fixed first row" of the tensor, so the
    conversion keeps the contents and the shape. *)
Definition to_numpy {A : Type} (t : list A) : list A := t.

End Utils.

(** ** dataset.py *)

Module Dataset.

Section WithTokenizer.

(** [spm.SentencePieceProcessor] and the file system are external. *)
Context {SentencePieceProcessor : Type}.
Variable new_processor : string -> result SentencePieceProcessor.
Variable encode : SentencePieceProcessor -> string -> bool -> bool -> list Z.
Variable open_lines : string -> result (list string).

Definition load_data (data_path : string)
    (tokenizer : SentencePieceProcessor)
    (add_bos add_eos verbose : bool) : result (list (list Z)) :=
  let? fp := open_lines data_path in
  let fp := if verbose then Py.tqdm fp else fp in
  Ok (map (fun line => encode tokenizer line add_bos add_eos) fp).

Record WMTDataset : Type := {
  from_lang_data_path : string;
  to_lang_data_path : string;
  from_lang_tokenizer_path : string;
  to_lang_tokenizer_path : string;
  from_lang_tokenizer : SentencePieceProcessor;
  to_lang_tokenizer : SentencePieceProcessor;
  from_lang_list : list (list Z);
  to_lang_list : list (list Z)
}.

(** [WMTDataset.__init__] *)
Definition init (from_path to_path from_tok_path to_tok_path : string)
    (verbose : bool) : result WMTDataset :=
  let? from_tok := new_processor from_tok_path in
  let? to_tok := new_processor to_tok_path in
  let? from_list := load_data from_path from_tok false false verbose in
  let? to_list := load_data to_path to_tok true true verbose in
  Ok {| from_lang_data_path := from_path;
        to_lang_data_path := to_path;
        from_lang_tokenizer_path := from_tok_path;
        to_lang_tokenizer_path := to_tok_path;
        from_lang_tokenizer := from_tok;
        to_lang_tokenizer := to_tok;
        from_lang_list := from_list;
        to_lang_list := to_list |}.

(** [WMTDataset.__len__] *)
Definition len (self : WMTDataset) : result nat :=
  if bool_decide (length (from_lang_list self) = length (to_lang_list self))
  then Ok (length (from_lang_list self))
  else Raise AssertionError.

(** [WMTDataset.__getitem__] *)
Definition getitem (self : WMTDataset) (idx : Z)
    : result (list Z * list Z) :=
  let? a := Py.getitem (from_lang_list self) idx in
  let? b := Py.getitem (to_lang_list self) idx in
  Ok (a, b).

End WithTokenizer.

End Dataset.

(** ** network.py *)

(** [mapM f l]: apply a fallible function to every element, left to right;
    the first exception wins. *)
Fixpoint mapM {A B : Type} (f : A -> result B) (l : list A) : result (list B) :=
  match l with
  | [] => Ok []
  | a :: rest =>
      let? b := f a in
      let? bs := mapM f rest in
      Ok (b :: bs)
  end.

Module Network.

Section WithKernels.

(** Floating-point values and the generator of random draws. *)
Context {scalar : Type} (szero : scalar) (sadd : scalar -> scalar -> scalar).
Context {Generator : Type}.
(** The dropout probability, [Union[int, float]] in the source: a number
    between 0 and 1, the values [nn.GRU] accepts. *)
Context {prob : Type}.

(** A batch of vectors per position: (batch x seq_len x features). *)
Abbreviation tensor3 := (list (list (list scalar))).

(** *** nn.Embedding *)

Record Embedding : Type := {
  num_embeddings : Z;
  embedding_dim : Z;
  padding_idx : option Z;
  weight : list (list scalar)
}.

(** The values [init.normal_] draws for entry (row, column). *)
Variable normal_ : nat -> nat -> scalar.

Definition zeros (n : nat) : list scalar := replicate n szero.

(** [nn.Embedding(num_embeddings, embedding_dim, padding_idx)]: the
    padding index is validated and normalised, the weight is drawn and
    the row at the padding index is filled with zeros. *)
Definition nn_Embedding (num dim : Z) (pad : option Z) : result Embedding :=
  let? pad' :=
    match pad with
    | None => Ok None
    | Some p =>
        if 0 <? p then
          if p <? num then Ok (Some p) else Raise AssertionError
        else if p <? 0 then
          if - num <=? p then Ok (Some (num + p)) else Raise AssertionError
        else Ok (Some p)
    end in
  if (num <? 0) || (dim <? 0) then Raise RuntimeError
  else
    let row (i : nat) : list scalar :=
      if bool_decide (pad' = Some (Z.of_nat i)) then zeros (Z.to_nat dim)
      else map (normal_ i) (seq 0 (Z.to_nat dim)) in
    Ok {| num_embeddings := num;
          embedding_dim := dim;
          padding_idx := pad';
          weight := map row (seq 0 (Z.to_nat num)) |}.

(** [F.embedding]: row lookup, an id outside the table raises. *)
Definition embedding_lookup (self : Embedding) (id : Z)
    : result (list scalar) :=
  if id <? 0 then Raise IndexError
  else match weight self !! Z.to_nat id with
       | Some v => Ok v
       | None => Raise IndexError
       end.

Definition Embedding_forward (self : Embedding) (x : list (list Z))
    : result tensor3 :=
  mapM (mapM (embedding_lookup self)) x.

Definition vadd (u v : list scalar) : list scalar := zip_with sadd u v.

(** The gradient of the weight for an upstream gradient [gout] given
    per position: every position adds its upstream vector to the row of
    its id, except the positions holding the padding index. *)
Definition Embedding_backward (self : Embedding) (x : list (list Z))
    (gout : tensor3) : list (list scalar) :=
  fold_left
    (fun gw '(id, g) =>
       if bool_decide (padding_idx self = Some id) then gw
       else alter (fun r => vadd r g) (Z.to_nat id) gw)
    (zip (concat x) (concat gout))
    (replicate (Z.to_nat (num_embeddings self))
               (zeros (Z.to_nat (embedding_dim self)))).

(** *** nn.GRU *)

Context {GRUWeights : Type}.
Variable gru_init : Z -> Z -> Z -> GRUWeights.

Record GRU : Type := {
  input_size : Z;
  hidden_size : Z;
  num_layers : Z;
  dropout : prob;
  bidirectional : bool;
  batch_first : bool;
  gru_training : bool;
  gru_weights : GRUWeights
}.

(** [nn.GRU(input_size, hidden_size, num_layers, dropout, bidirectional,
    batch_first)]: a hidden size or a number of layers that is not
    positive raises [ValueError]. *)
Definition nn_GRU (input_size hidden_size num_layers : Z) (dropout : prob)
    (bidirectional batch_first : bool) : result GRU :=
  if hidden_size <=? 0 then Raise ValueError
  else if num_layers <=? 0 then Raise ValueError
  else
    Ok {| input_size := input_size;
          hidden_size := hidden_size;
          num_layers := num_layers;
          dropout := dropout;
          bidirectional := bidirectional;
          batch_first := batch_first;
          gru_training := true;
          gru_weights := gru_init input_size hidden_size num_layers |}.

(** The recurrent kernel ([_VF.gru]): weights, layer count, dropout
    probability, training flag, generator state, the rows of input
    vectors (each row as long as its own sequence) and the initial
    hidden state (layers x batch x hidden); returns the outputs per row
    and position, the final hidden state (layers x batch x hidden) and
    the generator state its dropout draws leave behind. *)
Variable vf_gru :
  GRUWeights -> Z -> prob -> bool -> Generator ->
  tensor3 -> tensor3 -> tensor3 * tensor3 * Generator.

(** [hidden] has shape (layers x batch x hidden_size). *)
Definition hidden_shape_ok (hidden : tensor3) (layers batch hsize : Z)
    : bool :=
  (Z.of_nat (length hidden) =? layers)
  && forallb (fun layer =>
       (Z.of_nat (length layer) =? batch)
       && forallb (fun h => Z.of_nat (length h) =? hsize) layer) hidden.

(** A tensor of shape (batch x seq_len x features) has no element: it
    has no row, no position in its rows or no feature in its vectors. *)
Definition no_element (input : tensor3) : bool :=
  match input with
  | [] => true
  | [] :: _ => true
  | ([] :: _) :: _ => true
  | _ => false
  end.

(** [torch.nn.utils.rnn.pack_padded_sequence(input, lengths,
    batch_first=True, enforce_sorted=False)].  A packed sequence is kept
    as its content: every row cut to its own length, rows and lengths
    paired in order.  A tensor without any element cannot be packed, and
    every length must be positive; a length beyond the padded length
    keeps the whole row. *)
Definition pack_padded_sequence (input : tensor3) (lengths : list nat)
    : result tensor3 :=
  if no_element input then Raise RuntimeError
  else if existsb (fun n => bool_decide (n = 0%nat)) lengths
  then Raise RuntimeError
  else Ok (zip_with take lengths input).

(** [GRU.forward(packed)] without an initial state: the hidden state
    starts at zero. *)
Definition GRU_forward_packed (self : GRU) (g : Generator)
    (packed : tensor3) : tensor3 * tensor3 * Generator :=
  let h0 :=
    replicate (Z.to_nat (num_layers self))
      (replicate (length packed) (zeros (Z.to_nat (hidden_size self)))) in
  vf_gru (gru_weights self) (num_layers self) (dropout self)
         (gru_training self) g packed h0.

(** [GRU.forward(input, hx)] on a padded batch: the initial state must
    have exactly the shape (num_layers x batch x hidden_size) and the
    rows must have a position to read, else [RuntimeError]; the state is
    handed to the kernel as it is. *)
Definition GRU_forward (self : GRU) (g : Generator)
    (input hx : tensor3) : result (tensor3 * tensor3 * Generator) :=
  if hidden_shape_ok hx (num_layers self) (Z.of_nat (length input))
                     (hidden_size self)
  then
    if existsb (fun row => match row with [] => true | _ => false end) input
    then Raise RuntimeError
    else Ok (vf_gru (gru_weights self) (num_layers self) (dropout self)
                    (gru_training self) g input hx)
  else Raise RuntimeError.

(** *** nn.Linear *)

Context {LinearWeights : Type}.
Variable linear_init : Z -> Z -> LinearWeights.
Variable F_linear : LinearWeights -> list scalar -> list scalar.

Record Linear : Type := {
  in_features : Z;
  out_features : Z;
  linear_weights : LinearWeights
}.

Definition nn_Linear (in_features out_features : Z) : Linear :=
  {| in_features := in_features;
     out_features := out_features;
     linear_weights := linear_init in_features out_features |}.

Definition Linear_forward (self : Linear) (input : tensor3) : tensor3 :=
  map (map (F_linear (linear_weights self))) input.

(** *** Seq2SeqRNNEncoder *)

Record Seq2SeqRNNEncoder : Type := {
  encoder_embedding : Embedding;
  encoder : GRU
}.

Definition Seq2SeqRNNEncoder_init
    (encoder_num_embeddings encoder_embedding_dim encoder_hidden_size
     encoder_num_layers : Z) (encoder_dropout : prob)
    : result Seq2SeqRNNEncoder :=
  let? emb := nn_Embedding encoder_num_embeddings encoder_embedding_dim
                           (Some 3) (* hardcoded *) in
  let? gru := nn_GRU encoder_embedding_dim encoder_hidden_size
                     encoder_num_layers encoder_dropout false true in
  Ok {| encoder_embedding := emb; encoder := gru |}.

(** The lengths [Seq2SeqRNNEncoder.forward] infers for a batch. *)
Definition Seq2SeqRNNEncoder_lengths (x : list (list Z)) : list nat :=
  Utils.infer_length x 3.

Definition Seq2SeqRNNEncoder_forward (self : Seq2SeqRNNEncoder)
    (g : Generator) (x : list (list Z)) : result (tensor3 * Generator) :=
  let? enc_emb := Embedding_forward (encoder_embedding self) x in
  (* select last hidden before <PAD> *)
  let lengths := Seq2SeqRNNEncoder_lengths x in
  let? packed_enc_emb := pack_padded_sequence enc_emb lengths in
  let '(_, context_vector, g') :=
    GRU_forward_packed (encoder self) g packed_enc_emb in
  Ok (context_vector, g').

(** *** Seq2SeqRNNDecoder *)

Record Seq2SeqRNNDecoder : Type := {
  decoder_embedding : Embedding;
  decoder : GRU;
  linear : Linear
}.

Definition Seq2SeqRNNDecoder_init
    (decoder_num_embeddings decoder_embedding_dim decoder_hidden_size
     decoder_num_layers : Z) (decoder_dropout : prob)
    : result Seq2SeqRNNDecoder :=
  let? emb := nn_Embedding decoder_num_embeddings decoder_embedding_dim
                           (Some 3) (* hardcoded *) in
  let? gru := nn_GRU decoder_embedding_dim decoder_hidden_size
                     decoder_num_layers decoder_dropout false true in
  Ok {| decoder_embedding := emb;
        decoder := gru;
        linear := nn_Linear decoder_hidden_size decoder_num_embeddings |}.

Definition Seq2SeqRNNDecoder_forward (self : Seq2SeqRNNDecoder)
    (g : Generator) (x : list (list Z)) (context_vector : tensor3)
    : result (tensor3 * Generator) :=
  let? dec_emb := Embedding_forward (decoder_embedding self) x in
  let? (dec_out, _, g') :=
    GRU_forward (decoder self) g dec_emb context_vector in
  let logits := Linear_forward (linear self) dec_out in
  Ok (logits, g').

(** *** Seq2SeqRNN *)

Record Seq2SeqRNN : Type := {
  s2s_encoder : Seq2SeqRNNEncoder;
  s2s_decoder : Seq2SeqRNNDecoder
}.

Definition Seq2SeqRNN_init
    (encoder_num_embeddings encoder_embedding_dim encoder_hidden_size
     encoder_num_layers : Z) (encoder_dropout : prob)
    (decoder_num_embeddings decoder_embedding_dim decoder_hidden_size
     decoder_num_layers : Z) (decoder_dropout : prob)
    : result Seq2SeqRNN :=
  let? enc := Seq2SeqRNNEncoder_init encoder_num_embeddings
                encoder_embedding_dim encoder_hidden_size
                encoder_num_layers encoder_dropout in
  let? dec := Seq2SeqRNNDecoder_init decoder_num_embeddings
                decoder_embedding_dim decoder_hidden_size
                decoder_num_layers decoder_dropout in
  Ok {| s2s_encoder := enc; s2s_decoder := dec |}.

(** The generator of random draws is global to the process, not a
    field of the module: it is threaded through the two calls. *)
Definition Seq2SeqRNN_forward (self : Seq2SeqRNN) (g : Generator)
    (from_seq to_seq : list (list Z)) : result (tensor3 * Generator) :=
  let? (context_vector, g1) :=
    Seq2SeqRNNEncoder_forward (s2s_encoder self) g from_seq in
  let? (logits, g2) :=
    Seq2SeqRNNDecoder_forward (s2s_decoder self) g1 to_seq context_vector in
  Ok (logits, g2).

(** [model.train(mode)]: sets the training flag of every submodule that
    reads it (the two recurrent networks). *)
Definition GRU_train (mode : bool) (self : GRU) : GRU :=
  {| input_size := input_size self;
     hidden_size := hidden_size self;
     num_layers := num_layers self;
     dropout := dropout self;
     bidirectional := bidirectional self;
     batch_first := batch_first self;
     gru_training := mode;
     gru_weights := gru_weights self |}.

Definition Seq2SeqRNN_train (mode : bool) (self : Seq2SeqRNN) : Seq2SeqRNN :=
  {| s2s_encoder :=
       {| encoder_embedding := encoder_embedding (s2s_encoder self);
          encoder := GRU_train mode (encoder (s2s_encoder self)) |};
     s2s_decoder :=
       {| decoder_embedding := decoder_embedding (s2s_decoder self);
          decoder := GRU_train mode (decoder (s2s_decoder self));
          linear := linear (s2s_decoder self) |} |}.

End WithKernels.

End Network.

(** ** train.py *)

Module Train.

Section WithCollaborators.

Context {scalar : Type}.
(** Parameter tensors of the model, their gradients, the optimizer's own
    state and the process-wide generator of random draws. *)
Context {Params Grad OptState Generator : Type}.

Abbreviation batch := (list (list Z)).
Abbreviation logits := (list (list (list scalar))).
Abbreviation accumulator := (gmap string (list scalar)).

(** the call of [model] on the inputs: reads the parameters, the training flag and the
    generator; may raise. *)
Variable model :
  Params -> bool -> Generator -> batch -> batch ->
  result (logits * Generator).
(** [outputs.transpose(1, 2)] *)
Variable transpose_1_2 : logits -> logits.
(** [criterion(outputs, targets)] followed by [loss.item()]. *)
Variable criterion : logits -> batch -> result scalar.
(** What [loss.backward()] computes for the parameters: the gradient of
    the loss of the forward pass made with these parameters, training
    flag, generator state, inputs and targets. *)
Variable autograd :
  Params -> bool -> Generator -> batch * batch -> batch -> Grad.
(** Accumulation of a new gradient onto one already stored. *)
Variable accumulate : Grad -> Grad -> Grad.
(** [optimizer.step()] on the stored gradient ([None]: cleared). *)
Variable optimizer_step :
  OptState -> Params -> option Grad -> OptState * Params.
(** Index of the largest entry of a vector ([argmax] over one row of
    class scores). *)
Variable argmax : list scalar -> Z.
(** The formula of every tracked metric, by name. *)
Variable tracked : gmap string (scalar -> list Z -> list Z -> scalar).

(** What the run does to its collaborators, in order. *)
Inductive event : Type :=
| EvMode (training : bool)
| EvForward (grad_enabled training : bool) (from_seq to_seq : batch)
            (outputs : logits)
| EvCriterion (grad_enabled : bool) (outputs : logits) (targets : batch)
              (loss : scalar)
| EvBackward (g : Grad)
| EvStep (stored : option Grad)
| EvZeroGrad
| EvMetrics (loss : scalar) (y_true y_pred : list Z)
| EvPrintMean (windows : accumulator).

Record state : Type := {
  params : Params;
  grads : option Grad;
  opt_state : OptState;
  training : bool;
  gen : Generator;
  trace : list event
}.

(** Code of the drivers: state passing with exceptions. *)
Definition D (A : Type) : Type := state -> result A * state.

Definition ret {A : Type} (a : A) : D A := fun s => (Ok a, s).

Definition bind {A B : Type} (c : D A) (k : A -> D B) : D B :=
  fun s =>
    match c s with
    | (Ok a, s') => k a s'
    | (Raise e, s') => (Raise e, s')
    end.

Definition lift {A : Type} (r : result A) : D A := fun s => (r, s).

Definition emit (e : event) : D unit :=
  fun s =>
    (Ok tt, {| params := params s; grads := grads s;
               opt_state := opt_state s; training := training s;
               gen := gen s; trace := trace s ++ [e] |}).

Notation "x <- c ;; k" := (bind c (fun x => k))
  (at level 100, c at next level, right associativity).
Notation "c ;;; k" := (bind c (fun _ => k))
  (at level 100, right associativity).

(** [model.train()] and [model.eval()] *)
Definition model_train (mode : bool) : D unit :=
  fun s =>
    (Ok tt, {| params := params s; grads := grads s;
               opt_state := opt_state s; training := mode;
               gen := gen s; trace := trace s ++ [EvMode mode] |}).

(** The call of [model] on the inputs, with autograd recording on or off. *)
Definition call_model (grad_enabled : bool) (inputs : batch * batch)
    : D logits :=
  fun s =>
    match model (params s) (training s) (gen s) inputs.1 inputs.2 with
    | Ok (outputs, g') =>
        (Ok outputs,
         {| params := params s; grads := grads s;
            opt_state := opt_state s; training := training s;
            gen := g';
            trace := trace s ++ [EvForward grad_enabled (training s)
                                   inputs.1 inputs.2 outputs] |})
    | Raise e => (Raise e, s)
    end.

Definition call_criterion (grad_enabled : bool) (outputs : logits)
    (targets : batch) : D scalar :=
  loss <- lift (criterion outputs targets) ;;
  emit (EvCriterion grad_enabled outputs targets loss) ;;;
  ret loss.

(** [loss.backward()] on a loss the criterion returned: the gradient [g]
    of this loss is added to what is stored. *)
Definition loss_backward (g : Grad) : D unit :=
  fun s =>
    (Ok tt, {| params := params s;
               grads := Some (match grads s with
                              | None => g
                              | Some g0 => accumulate g0 g
                              end);
               opt_state := opt_state s; training := training s;
               gen := gen s; trace := trace s ++ [EvBackward g] |}).

(** [optimizer.step()], for an optimizer whose update returns. *)
Definition optimizer_step_ : D unit :=
  fun s =>
    let '(o, p) := optimizer_step (opt_state s) (params s) (grads s) in
    (Ok tt, {| params := p; grads := grads s;
               opt_state := o; training := training s;
               gen := gen s; trace := trace s ++ [EvStep (grads s)] |}).

(** [optimizer.zero_grad()] *)
Definition optimizer_zero_grad : D unit :=
  fun s =>
    (Ok tt, {| params := params s; grads := None;
               opt_state := opt_state s; training := training s;
               gen := gen s; trace := trace s ++ [EvZeroGrad] |}).

(** [tensor.to(device)] moves the data, the values stay. *)
Definition to_device {A : Type} (t : A) : A := t.

(** [outputs.argmax(dim=-1)] *)
Definition argmax_last (outputs : logits) : batch :=
  map (map argmax) outputs.

(** Modelled from the spec: [metrics.calculate_metrics] is imported by
    [train.py] but is not among the sources.  Section 3: the accumulator
    is a "mapping from metric name to an append-only ordered sequence of
    scalar values; one entry appended per processed batch per metric";
    section 6: [update(accumulator, loss_value, true_labels,
    predicted_labels) -> accumulator'], "exact formulas out of scope":
    the formulas are the section variable [tracked]. *)
Definition calculate_metrics (metrics : accumulator) (loss : scalar)
    (y_true y_pred : list Z) : accumulator :=
  union_with (fun old new => Some (old ++ new)) metrics
             ((fun f => [f loss y_true y_pred]) <$> tracked).

Definition call_metrics (metrics : accumulator) (loss : scalar)
    (y_true y_pred : list Z) : D accumulator :=
  emit (EvMetrics loss y_true y_pred) ;;;
  ret (calculate_metrics metrics loss y_true y_pred).

(** The lists [np.mean] is applied to by the periodic report:
    [metric_list[-train_eval_freq:]] for every metric. *)
Definition report_windows (train_eval_freq : Z) (metrics : accumulator)
    : accumulator :=
  Py.slice_from (- train_eval_freq) <$> metrics.

(** Body of the loop of [train_epoch]. *)
Definition train_body (train_eval_freq : Z) (verbose : bool)
    (i : Z) (b : batch * batch) (metrics : accumulator) : D accumulator :=
  let '(from_seq, to_seq) := b in
  let '(from_seq, to_seq) := (to_device from_seq, to_device to_seq) in
  let inputs := (from_seq, map Py.all_but_last to_seq) in
  let targets := map Py.all_but_first to_seq in
  (* forward pass *)
  fun s0 =>
  (outputs <- call_model true inputs ;;
   loss <- call_criterion true (transpose_1_2 outputs) targets ;;
   (* backward pass *)
   loss_backward
     (autograd (params s0) (training s0) (gen s0) inputs targets) ;;;
   optimizer_step_ ;;;
   optimizer_zero_grad ;;;
   (* make predictions; batch_size = 1 hardcoded *)
   y_true <- lift (Py.getitem (Utils.to_numpy targets) 0) ;;
   y_pred <- lift (Py.getitem (Utils.to_numpy (argmax_last outputs)) 0) ;;
   (* calculate metrics *)
   metrics <- call_metrics metrics loss y_true y_pred ;;
   (if verbose then
      r <- lift (Py.mod_ i train_eval_freq) ;;
      if r =? 0
      then emit (EvPrintMean (report_windows train_eval_freq metrics))
      else ret tt
    else ret tt) ;;;
   ret metrics) s0.

(** [for i, batch in enumerate(dataloader)] *)
Fixpoint train_loop (train_eval_freq : Z) (verbose : bool) (i : Z)
    (dataloader : list (batch * batch)) (metrics : accumulator)
    : D accumulator :=
  match dataloader with
  | [] => ret metrics
  | b :: rest =>
      metrics <- train_body train_eval_freq verbose i b metrics ;;
      train_loop train_eval_freq verbose (i + 1) rest metrics
  end.

Definition train_epoch (dataloader : list (batch * batch))
    (train_eval_freq : Z) (verbose : bool) : D accumulator :=
  let metrics : accumulator := ∅ in
  let dataloader := if verbose then Py.tqdm dataloader else dataloader in
  model_train true ;;;
  train_loop train_eval_freq verbose 0 dataloader metrics.

(** Body of the loop of [validate_epoch]. *)
Definition validate_body (b : batch * batch) (metrics : accumulator)
    : D accumulator :=
  let '(from_seq, to_seq) := b in
  let '(from_seq, to_seq) := (to_device from_seq, to_device to_seq) in
  let inputs := (from_seq, map Py.all_but_last to_seq) in
  let targets := map Py.all_but_first to_seq in
  (* forward pass, under torch.no_grad() *)
  outputs <- call_model false inputs ;;
  loss <- call_criterion false (transpose_1_2 outputs) targets ;;
  (* make predictions; batch_size = 1 hardcoded *)
  y_true <- lift (Py.getitem (Utils.to_numpy targets) 0) ;;
  y_pred <- lift (Py.getitem (Utils.to_numpy (argmax_last outputs)) 0) ;;
  (* calculate metrics *)
  call_metrics metrics loss y_true y_pred.

Fixpoint validate_loop (dataloader : list (batch * batch))
    (metrics : accumulator) : D accumulator :=
  match dataloader with
  | [] => ret metrics
  | b :: rest =>
      metrics <- validate_body b metrics ;;
      validate_loop rest metrics
  end.

Definition validate_epoch (dataloader : list (batch * batch))
    (verbose : bool) : D accumulator :=
  let metrics : accumulator := ∅ in
  let dataloader := if verbose then Py.tqdm dataloader else dataloader in
  model_train false ;;;
  validate_loop dataloader metrics.

(** *** Projections of a trace *)

Definition forward_calls (tr : list event)
    : list (bool * bool * batch * batch) :=
  omap (fun e => match e with
                 | EvForward ge t f x _ => Some (ge, t, f, x)
                 | _ => None
                 end) tr.

Definition forward_returns (tr : list event) : list logits :=
  omap (fun e => match e with
                 | EvForward _ _ _ _ o => Some o
                 | _ => None
                 end) tr.

Definition criterion_calls (tr : list event)
    : list (bool * logits * batch) :=
  omap (fun e => match e with
                 | EvCriterion ge o t _ => Some (ge, o, t)
                 | _ => None
                 end) tr.

Definition metric_calls (tr : list event)
    : list (scalar * list Z * list Z) :=
  omap (fun e => match e with
                 | EvMetrics l yt yp => Some (l, yt, yp)
                 | _ => None
                 end) tr.

Definition printed (tr : list event) : list accumulator :=
  omap (fun e => match e with
                 | EvPrintMean w => Some w
                 | _ => None
                 end) tr.

Inductive grad_event : Type :=
| Backward (g : Grad)
| Step (stored : option Grad)
| ZeroGrad.

Definition grad_events (tr : list event) : list grad_event :=
  omap (fun e => match e with
                 | EvBackward g => Some (Backward g)
                 | EvStep st => Some (Step st)
                 | EvZeroGrad => Some ZeroGrad
                 | _ => None
                 end) tr.

(** The gradient events of consecutive batches whose backward passes
    computed the gradients [gs], starting from the stored gradient
    [entry]: every batch is backward, step, zero_grad; every step but
    the first sees the gradient of its own batch only. *)
Fixpoint grad_blocks (entry : option Grad) (gs : list Grad)
    : list grad_event :=
  match gs with
  | [] => []
  | g :: rest =>
      Backward g
      :: Step (Some (match entry with
                     | None => g
                     | Some g0 => accumulate g0 g
                     end))
      :: ZeroGrad
      :: grad_blocks None rest
  end.

(** The accumulator rebuilt from the calls of the metrics collaborator. *)
Definition replay (calls : list (scalar * list Z * list Z))
    (metrics : accumulator) : accumulator :=
  fold_left (fun m '(l, yt, yp) => calculate_metrics m l yt yp)
            calls metrics.

(** The values one metric formula gives for the calls. *)
Definition raw_values (f : scalar -> list Z -> list Z -> scalar)
    (calls : list (scalar * list Z * list Z)) : list scalar :=
  map (fun '(l, yt, yp) => f l yt yp) calls.

(** Teacher forcing: what a batch hands to the model and to the loss. *)
Definition teacher_inputs (b : batch * batch) : batch * batch :=
  (b.1, map Py.all_but_last b.2).

Definition teacher_targets (b : batch * batch) : batch :=
  map Py.all_but_first b.2.

(** *** Properties of the events of one batch *)

(** The model is fed the batch with the last target position dropped; the
    loss and the true labels come from the batch with the first target
    position dropped. *)
Definition teacher_forced (b : batch * batch) (e : event) : Prop :=
  match e with
  | EvForward _ _ from_seq to_seq _ => (from_seq, to_seq) = teacher_inputs b
  | EvCriterion _ _ targets _ => targets = teacher_targets b
  | EvMetrics _ y_true _ => head (teacher_targets b) = Some y_true
  | _ => True
  end.

(** Whatever the metrics collaborator is called with: the true labels are
    the first target row without its first position, the predicted labels
    are the per-position argmax of the first row of the outputs of the only
    forward pass of the batch, and the loss is the value the criterion gave
    for the outputs and targets of all rows. *)
Definition labels_from_first_row (b : batch * batch) (evs : list event)
    : Prop :=
  forall loss y_true y_pred,
    EvMetrics loss y_true y_pred ∈ evs ->
    (exists row0,
       head b.2 = Some row0 /\ y_true = Py.all_but_first row0)
    /\ (exists outputs out0,
          forward_returns evs = [outputs]
          /\ head outputs = Some out0 /\ y_pred = map argmax out0
          /\ criterion (transpose_1_2 outputs) (teacher_targets b) = Ok loss
          /\ exists grad_enabled,
               EvCriterion grad_enabled (transpose_1_2 outputs)
                           (teacher_targets b) loss ∈ evs).

(** An event that computes no gradient, updates no parameter and runs the
    model with the training flag off. *)
Definition inference_only (e : event) : Prop :=
  match e with
  | EvMode mode => mode = false
  | EvForward grad_enabled training _ _ _ =>
      grad_enabled = false /\ training = false
  | EvCriterion grad_enabled _ _ _ => grad_enabled = false
  | EvBackward _ | EvStep _ | EvZeroGrad => False
  | EvMetrics _ _ _ => True
  | EvPrintMean _ => False
  end.



(** *** train *)

(** What [train] prints when [verbose]: the header of an epoch,
    [epoch [k/n_epoch]], and after a pass over a loader the mean of every
    metric of the returned accumulator, labelled with the stage; kept are
    the lists [np.mean] is applied to. *)
Inductive report : Type :=
| ReportEpoch (k n_epoch : Z)
| ReportMeans (stage : string) (metrics : accumulator).

(** [for epoch in range(n_epoch)]: the body runs [train_epoch] and then
    [validate_epoch]; an exception of either ends the loop. *)
Fixpoint train_epochs (epochs : list Z) (n_epoch : Z)
    (trainloader valloader : list (batch * batch)) (train_eval_freq : Z)
    (verbose : bool) (log : list report) (s : state)
    : result unit * list report * state :=
  match epochs with
  | [] => (Ok tt, log, s)
  | epoch :: rest =>
      let log :=
        if verbose then log ++ [ReportEpoch (epoch + 1) n_epoch] else log in
      match train_epoch trainloader train_eval_freq verbose s with
      | (Raise e, s) => (Raise e, log, s)
      | (Ok train_metrics, s) =>
          let log :=
            if verbose then log ++ [ReportMeans "train" train_metrics]
            else log in
          match validate_epoch valloader verbose s with
          | (Raise e, s) => (Raise e, log, s)
          | (Ok val_metrics, s) =>
              let log :=
                if verbose then log ++ [ReportMeans "val" val_metrics]
                else log in
              train_epochs rest n_epoch trainloader valloader
                           train_eval_freq verbose log s
          end
      end
  end.

Definition train (trainloader valloader : list (batch * batch))
    (n_epoch : Z) (testloader : option (list (batch * batch)))
    (train_eval_freq : Z) (verbose : bool) (s : state)
    : result unit * list report * state :=
  match train_epochs (Py.range n_epoch) n_epoch trainloader valloader
                     train_eval_freq verbose [] s with
  | (Raise e, log, s) => (Raise e, log, s)
  | (Ok _, log, s) =>
      match testloader with
      | None => (Ok tt, log, s)
      | Some testloader =>
          match validate_epoch testloader verbose s with
          | (Raise e, s) => (Raise e, log, s)
          | (Ok test_metrics, s) =>
              (Ok tt,
               if verbose then log ++ [ReportMeans "test" test_metrics]
               else log,
               s)
          end
      end
  end.

(** Projections of the log of [train]: the kind of every entry, the
    epoch headers, and the accumulators whose means are reported. *)
Definition report_stage (r : report) : string :=
  match r with
  | ReportEpoch _ _ => "epoch"
  | ReportMeans stage _ => stage
  end.

Definition report_headers (log : list report) : list (Z * Z) :=
  omap (fun r => match r with
                 | ReportEpoch k n_epoch => Some (k, n_epoch)
                 | ReportMeans _ _ => None
                 end) log.

Definition reported_means (log : list report)
    : list (string * accumulator) :=
  omap (fun r => match r with
                 | ReportEpoch _ _ => None
                 | ReportMeans stage metrics => Some (stage, metrics)
                 end) log.

(** An event of a pass in training mode: the model runs with the training
    flag on and autograd records. *)
Definition in_training_mode (e : event) : Prop :=
  match e with
  | EvMode mode => mode = true
  | EvForward grad_enabled training _ _ _ =>
      grad_enabled = true /\ training = true
  | EvCriterion grad_enabled _ _ _ => grad_enabled = true
  | _ => True
  end.

(** The switches of mode and the optimizer steps of a trace. *)
Definition mode_switches (tr : list event) : list bool :=
  omap (fun e => match e with
                 | EvMode mode => Some mode
                 | _ => None
                 end) tr.

Definition optimizer_steps (tr : list event) : list (option Grad) :=
  omap (fun e => match e with
                 | EvStep stored => Some stored
                 | _ => None
                 end) tr.

End WithCollaborators.

End Train.
(** ** Concrete collaborators

    Small instances of the external parts, used to run the definitions on
    concrete inputs. *)

Module Demo.

(** A tokenizer that answers the length of the line, between the begin
    marker 1 and the end marker 2 when asked for them; two corpus files of
    two and of one line. *)
Definition new_processor (model_file : string) : result unit := Ok tt.

Definition encode (_ : unit) (line : string) (add_bos add_eos : bool)
    : list Z :=
  (if add_bos then [1] else [])
  ++ [Z.of_nat (String.length line) + 4]
  ++ (if add_eos then [2] else []).

Definition open_lines (path : string) : result (list string) :=
  if String.eqb path "train.de" then Ok ["ein Haus"%string; "zwei"%string]
  else if String.eqb path "train.en" then Ok ["a house"%string]
  else Raise OSError.

(** Integer scalars, a counter as generator, kernels that only keep the
    shapes. *)
Definition normal_ (i j : nat) : Z := Z.of_nat (i + j) + 1.

Definition gru_init (input_size hidden_size num_layers : Z) : unit := tt.

Definition vf_gru (_ : unit) (num_layers : Z) (_ : Z) (_ : bool) (g : nat)
    (input h0 : list (list (list Z)))
    : list (list (list Z)) * list (list (list Z)) * nat :=
  (map (map (fun _ => [0])) input,
   replicate (Z.to_nat num_layers) (map (fun _ => [0]) input),
   S g).

Definition linear_init (in_features out_features : Z) : Z := out_features.

Definition F_linear (w : Z) (v : list Z) : list Z :=
  replicate (Z.to_nat w) (foldr Z.add 0 v).

(** A model with one integer parameter whose scores for a position are the
    parameter and the token fed at that position; the loss adds up all
    target ids; plain gradient descent; the only tracked metric is the
    loss. *)
Definition model (p : Z) (training : bool) (g : nat)
    (from_seq to_seq : list (list Z))
    : result (list (list (list Z)) * nat) :=
  Ok (map (map (fun t => [p; t])) to_seq, S g).

Definition transpose_1_2 (outputs : list (list (list Z)))
    : list (list (list Z)) := outputs.

Definition criterion (outputs : list (list (list Z)))
    (targets : list (list Z)) : result Z :=
  Ok (foldr Z.add 0 (concat targets)).

Definition autograd (p : Z) (training : bool) (g : nat)
    (inputs : list (list Z) * list (list Z)) (targets : list (list Z)) : Z :=
  foldr Z.add 0 (concat targets).

Definition optimizer_step (o : unit) (p : Z) (stored : option Z) : unit * Z :=
  (o, p - default 0 stored).

Definition argmax (v : list Z) : Z :=
  match v with
  | [a; b] => if a <? b then 1 else 0
  | _ => 0
  end.

Definition tracked : gmap string (Z -> list Z -> list Z -> Z) :=
  {[ "loss"%string := fun loss _ _ => loss ]}.



Definition initial_state : @Train.state Z Z Z unit nat :=
  {| Train.params := 5; Train.grads := None; Train.opt_state := tt;
     Train.training := false; Train.gen := 0%nat; Train.trace := [] |}.

(** Source [4,5,6,3,3,3] with target [1,7,8,9,2], as one batch of one row
    and as a batch with a second row. *)
Definition batch1 : list (list Z) * list (list Z) :=
  ([[4; 5; 6; 3; 3; 3]], [[1; 7; 8; 9; 2]]).

Definition batch2 : list (list Z) * list (list Z) :=
  ([[4; 5; 6; 3; 3; 3]; [4; 4; 4; 4; 4; 4]],
   [[1; 7; 8; 9; 2]; [1; 5; 5; 5; 2]]).

Definition batch2' : list (list Z) * list (list Z) :=
  ([[4; 5; 6; 3; 3; 3]; [4; 4; 4; 4; 4; 4]],
   [[1; 7; 8; 9; 2]; [1; 6; 6; 6; 2]]).

Definition train_epoch :=
  Train.train_epoch model transpose_1_2 criterion autograd Z.add
                    optimizer_step argmax tracked.

Definition validate_epoch :=
  Train.validate_epoch (Grad := Z) (OptState := unit)
                       model transpose_1_2 criterion argmax tracked.

Definition train :=
  Train.train model transpose_1_2 criterion autograd Z.add optimizer_step
              argmax tracked.



(** The dataset of the two corpus files above, and the one that reads the
    two-line file on both sides. *)
Definition dataset : @Dataset.WMTDataset unit :=
  {| Dataset.from_lang_data_path := "train.de";
     Dataset.to_lang_data_path := "train.en";
     Dataset.from_lang_tokenizer_path := "de.model";
     Dataset.to_lang_tokenizer_path := "en.model";
     Dataset.from_lang_tokenizer := tt;
     Dataset.to_lang_tokenizer := tt;
     Dataset.from_lang_list := [[12]; [8]];
     Dataset.to_lang_list := [[1; 11; 2]] |}.

Definition paired : @Dataset.WMTDataset unit :=
  {| Dataset.from_lang_data_path := "train.de";
     Dataset.to_lang_data_path := "train.de";
     Dataset.from_lang_tokenizer_path := "de.model";
     Dataset.to_lang_tokenizer_path := "en.model";
     Dataset.from_lang_tokenizer := tt;
     Dataset.to_lang_tokenizer := tt;
     Dataset.from_lang_list := [[12]; [8]];
     Dataset.to_lang_list := [[1; 12; 2]; [1; 8; 2]] |}.

(** A recurrent kernel with dropout: in training mode the state of the
    generator is added to what the kernel computes and advances by one;
    in inference mode it is neither read nor changed.  Outputs and hidden
    vectors have one entry: the sum of the input vector, or of the inputs
    of the row, and of the initial hidden state. *)
Definition vf_gru_dropout (_ : unit) (num_layers : Z) (_ : Z)
    (training : bool) (g : nat) (input h0 : list (list (list Z)))
    : list (list (list Z)) * list (list (list Z)) * nat :=
  let noise := if training then Z.of_nat g else 0 in
  let carried := foldr Z.add noise (concat (concat h0)) in
  (map (map (fun v => [foldr Z.add carried v])) input,
   replicate (Z.to_nat num_layers)
             (map (fun row => [foldr Z.add carried (concat row)]) input),
   if training then S g else g).

(** The logits of a forward pass, when it returned. *)
Definition returned_logits (r : result (list (list (list Z)) * nat))
    : option (list (list (list Z))) :=
  match r with
  | Ok (logits, _) => Some logits
  | Raise _ => None
  end.

(** What a run recorded under a metric name, when it returned. *)
Definition recorded (name : string)
    (run : result (gmap string (list Z)) * @Train.state Z Z Z unit nat)
    : option (list Z) :=
  match run.1 with
  | Ok m => m !! name
  | Raise _ => None
  end.

End Demo.
(** * Properties *)

(** ** Generic facts on the error monad and the Python primitives *)

Lemma mapM_lookup {A B : Type} (f : A -> result B) (l : list A) (l' : list B)
    (i : nat) (a : A) :
  mapM f l = Ok l' -> l !! i = Some a ->
  exists b, l' !! i = Some b /\ f a = Ok b.
Proof.
  revert l' i. induction l as [|x l IH]; intros l' i Hm Hi; [done|].
  simpl in Hm. destruct (f x) as [b|e] eqn:Hfx; [|done]. simpl in Hm.
  destruct (mapM f l) as [bs|e] eqn:Hl; [|done]. simpl in Hm.
  injection Hm as <-. destruct i as [|i]; simpl in *.
  - exists b. by simplify_eq.
  - by apply IH.
Qed.

Lemma mapM_length {A B : Type} (f : A -> result B) (l : list A) (l' : list B) :
  mapM f l = Ok l' -> length l' = length l.
Proof.
  revert l'. induction l as [|x l IH]; intros l' Hm; simpl in Hm.
  - by injection Hm as <-.
  - destruct (f x) as [b|e]; [|done]. simpl in Hm.
    destruct (mapM f l) as [bs|e]; [|done]. simpl in Hm.
    injection Hm as <-. simpl. f_equal. by apply IH.
Qed.

Lemma getitem_0 {A : Type} (l : list A) :
  Py.getitem l 0 = match l with [] => Raise IndexError | a :: _ => Ok a end.
Proof.
  unfold Py.getitem. destruct l as [|a l]; [done|].
  replace (Z.of_nat (length (a :: l)) <=? 0) with false; [done|].
  symmetry. apply Z.leb_gt. simpl. lia.
Qed.

(** ** dataset.py *)

Section DatasetFacts.

Context {SentencePieceProcessor : Type}.
Variable new_processor : string -> result SentencePieceProcessor.
Variable encode : SentencePieceProcessor -> string -> bool -> bool -> list Z.
Variable open_lines : string -> result (list string).

Local Abbreviation init := (Dataset.init new_processor encode open_lines).

Lemma load_data_ok (path : string) (tok : SentencePieceProcessor)
    (bos eos verbose : bool) (lines : list string) :
  open_lines path = Ok lines ->
  Dataset.load_data encode open_lines path tok bos eos verbose
  = Ok (map (fun line => encode tok line bos eos) lines).
Proof.
  intros H. unfold Dataset.load_data. rewrite H. simpl.
  by destruct verbose.
Qed.

(** C7, as amended: whenever both tokenizers load and both corpus files
    open, [WMTDataset.__init__] succeeds, whatever the two line counts are,
    and keeps one token sequence per line on either side; the two counts are
    compared by [__len__] only, which raises [AssertionError] exactly when
    they differ and answers the common count otherwise. *)
Theorem init_ok_len_asserts (from_path to_path from_tok_path to_tok_path : string)
    (verbose : bool) (from_tok to_tok : SentencePieceProcessor)
    (from_lines to_lines : list string) :
  new_processor from_tok_path = Ok from_tok ->
  new_processor to_tok_path = Ok to_tok ->
  open_lines from_path = Ok from_lines ->
  open_lines to_path = Ok to_lines ->
  exists d,
    init from_path to_path from_tok_path to_tok_path verbose = Ok d
    /\ length (Dataset.from_lang_list d) = length from_lines
    /\ length (Dataset.to_lang_list d) = length to_lines
    /\ Dataset.len d = if bool_decide (length from_lines = length to_lines)
               then Ok (length from_lines)
               else Raise AssertionError.
Proof.
  intros H1 H2 H3 H4. unfold Dataset.init. rewrite H1, H2. simpl.
  rewrite (load_data_ok _ _ _ _ _ _ H3). simpl.
  rewrite (load_data_ok _ _ _ _ _ _ H4). simpl.
  eexists. split; [reflexivity|]. simpl.
  unfold Dataset.len. simpl. rewrite !length_map. done.
Qed.

(** *** Items and contents of a dataset *)

Local Abbreviation WMTDataset := (@Dataset.WMTDataset SentencePieceProcessor).

Lemma py_getitem_ok_iff {A : Type} (l : list A) (idx : Z) :
  is_ok (Py.getitem l idx) = true
  <-> - Z.of_nat (length l) <= idx < Z.of_nat (length l).
Proof.
  unfold Py.getitem.
  destruct (idx <? 0) eqn:Hneg;
    [apply Z.ltb_lt in Hneg|apply Z.ltb_ge in Hneg].
  - destruct ((idx + Z.of_nat (length l) <? 0)
              || (Z.of_nat (length l) <=? idx + Z.of_nat (length l))) eqn:Hout.
    + simpl. split; [done|]. intros Hr.
      apply orb_true_iff in Hout as [H|H];
        [apply Z.ltb_lt in H|apply Z.leb_le in H]; lia.
    + apply orb_false_iff in Hout as [H1 H2].
      apply Z.ltb_ge in H1. apply Z.leb_gt in H2.
      destruct (l !! Z.to_nat (idx + Z.of_nat (length l))) as [a|] eqn:Hl.
      * simpl. split; [lia|done].
      * apply lookup_ge_None in Hl. lia.
  - destruct ((idx <? 0) || (Z.of_nat (length l) <=? idx)) eqn:Hout.
    + simpl. split; [done|]. intros Hr.
      apply orb_true_iff in Hout as [H|H];
        [apply Z.ltb_lt in H|apply Z.leb_le in H]; lia.
    + apply orb_false_iff in Hout as [H1 H2].
      apply Z.ltb_ge in H1. apply Z.leb_gt in H2.
      destruct (l !! Z.to_nat idx) as [a|] eqn:Hl.
      * simpl. split; [lia|done].
      * apply lookup_ge_None in Hl. lia.
Qed.

Lemma py_getitem_position {A : Type} (l : list A) (idx : Z) (a : A) :
  Py.getitem l idx = Ok a ->
  l !! Z.to_nat (if idx <? 0 then idx + Z.of_nat (length l) else idx) = Some a.
Proof.
  unfold Py.getitem. destruct (idx <? 0); repeat case_match; congruence.
Qed.

Lemma py_getitem_nonneg {A : Type} (l : list A) (i : nat) (a : A) :
  l !! i = Some a -> Py.getitem l (Z.of_nat i) = Ok a.
Proof.
  intros Hl. pose proof (lookup_lt_Some _ _ _ Hl) as Hlt.
  assert (Hneg : (Z.of_nat i <? 0) = false) by (apply Z.ltb_ge; lia).
  assert (Hge : (Z.of_nat (length l) <=? Z.of_nat i) = false)
    by (apply Z.leb_gt; lia).
  unfold Py.getitem. cbv zeta. rewrite Hneg, Hneg, Hge.
  cbn [orb]. by rewrite Nat2Z.id, Hl.
Qed.

(** What a constructed dataset holds: the two tokenizers loaded from the
    two model files, the source lines encoded with neither begin nor end
    marker and the target lines encoded with both, line by line in the
    order of the files. *)
Theorem init_encodes_both_sides
    (from_path to_path from_tok_path to_tok_path : string) (verbose : bool)
    (d : WMTDataset) :
  init from_path to_path from_tok_path to_tok_path verbose = Ok d ->
  new_processor from_tok_path = Ok (Dataset.from_lang_tokenizer d)
  /\ new_processor to_tok_path = Ok (Dataset.to_lang_tokenizer d)
  /\ exists from_lines to_lines,
       open_lines from_path = Ok from_lines
       /\ open_lines to_path = Ok to_lines
       /\ Dataset.from_lang_list d
          = map (fun line => encode (Dataset.from_lang_tokenizer d) line
                                    false false) from_lines
       /\ Dataset.to_lang_list d
          = map (fun line => encode (Dataset.to_lang_tokenizer d) line
                                    true true) to_lines.
Proof.
  unfold Dataset.init, Dataset.load_data. intros H.
  destruct (new_processor from_tok_path) as [ft|e]; [|done]. simpl in H.
  destruct (new_processor to_tok_path) as [tt|e]; [|done]. simpl in H.
  destruct (open_lines from_path) as [fl|e]; [|done]. simpl in H.
  destruct (open_lines to_path) as [tl|e]; [|done]. simpl in H.
  injection H as <-. simpl. split; [done|]. split; [done|].
  exists fl, tl. by destruct verbose.
Qed.

(** [dataset[idx]] returns exactly for the indices within the shorter of
    the two lists, counted from the front or, when negative, from the
    back; what it returns is the source sequence at that index of the
    source list and the target sequence at that index of the target list,
    a negative index counting from the end of each list on its own. *)
Theorem getitem_bounds_positions (d : WMTDataset) (idx : Z) :
  let nf := length (Dataset.from_lang_list d) in
  let nt := length (Dataset.to_lang_list d) in
  (is_ok (Dataset.getitem d idx) = true
   <-> - Z.of_nat (nf `min` nt) <= idx < Z.of_nat (nf `min` nt))
  /\ (forall e, Dataset.getitem d idx = Raise e -> e = IndexError)
  /\ (forall a b,
        Dataset.getitem d idx = Ok (a, b) ->
        Dataset.from_lang_list d
          !! Z.to_nat (if idx <? 0 then idx + Z.of_nat nf else idx) = Some a
        /\ Dataset.to_lang_list d
             !! Z.to_nat (if idx <? 0 then idx + Z.of_nat nt else idx)
           = Some b).
Proof.
  intros nf nt. unfold Dataset.getitem.
  pose proof (py_getitem_ok_iff (Dataset.from_lang_list d) idx) as Hf.
  pose proof (py_getitem_ok_iff (Dataset.to_lang_list d) idx) as Ht.
  fold nf in Hf. fold nt in Ht.
  destruct (Py.getitem (Dataset.from_lang_list d) idx) as [a|e] eqn:Ha;
    simpl in *.
  - destruct (Py.getitem (Dataset.to_lang_list d) idx) as [b|e] eqn:Hb;
      simpl in *.
    + pose proof (proj1 Hf eq_refl) as Hf'.
      pose proof (proj1 Ht eq_refl) as Ht'.
      split; [split; [lia|done]|]. split; [done|].
      intros a' b' [= <- <-].
      split; by apply py_getitem_position.
    + split; [split; [done|]; intros Hr; apply Ht; lia|].
      split; [|done]. intros e' [= <-]. clear -Hb.
      unfold Py.getitem in Hb. repeat case_match; congruence.
  - split; [split; [done|]; intros Hr; apply Hf; lia|].
    split; [|done]. intros e' [= <-]. clear -Ha.
    unfold Py.getitem in Ha. repeat case_match; congruence.
Qed.

(** When [len(dataset)] answers [n], the items [0] to [n - 1] are the
    pairs of the source and target sequences of the same line, in order:
    reading the dataset front to back gives the two lists zipped. *)
Theorem items_are_aligned_pairs (d : WMTDataset) (n : nat) :
  Dataset.len d = Ok n ->
  mapM (Dataset.getitem d) (map Z.of_nat (seq 0 n))
  = Ok (zip (Dataset.from_lang_list d) (Dataset.to_lang_list d)).
Proof.
  unfold Dataset.len, Dataset.getitem.
  destruct d as [? ? ? ? ? ? fl tl]. simpl.
  case_bool_decide as Hlen; [|done]. intros [= <-].
  assert (Hgen : forall (k : nat) (l1 l2 : list (list Z)) (pre1 pre2 : list (list Z)),
            length pre1 = k -> length pre2 = k -> length l1 = length l2 ->
            mapM (fun idx =>
                    let? a := Py.getitem (pre1 ++ l1) idx in
                    let? b := Py.getitem (pre2 ++ l2) idx in Ok (a, b))
                 (map Z.of_nat (seq k (length l1)))
            = Ok (zip l1 l2)).
  { intros k l1. revert k.
    induction l1 as [|x l1 IH]; intros k l2 pre1 pre2 H1 H2 Hl;
      destruct l2 as [|y l2]; try done.
    simpl in Hl. cbn [length seq map mapM].
    rewrite (py_getitem_nonneg (pre1 ++ x :: l1) k x)
      by (by rewrite lookup_app_r, H1, Nat.sub_diag by lia).
    rewrite (py_getitem_nonneg (pre2 ++ y :: l2) k y)
      by (by rewrite lookup_app_r, H2, Nat.sub_diag by lia).
    simpl.
    specialize (IH (S k) l2 (pre1 ++ [x]) (pre2 ++ [y])).
    rewrite <- !app_assoc in IH. simpl in IH.
    rewrite IH; [done| | |lia]; rewrite length_app; simpl; lia. }
  exact (Hgen 0%nat fl tl [] [] eq_refl eq_refl Hlen).
Qed.

End DatasetFacts.

(** C7, witness: two source lines against one target line. *)
Lemma init_ok_len_asserts_witness :
  exists d,
    Dataset.init Demo.new_processor Demo.encode Demo.open_lines
                 "train.de" "train.en" "de.model" "en.model" false = Ok d
    /\ length (Dataset.from_lang_list d) = 2%nat
    /\ length (Dataset.to_lang_list d) = 1%nat
    /\ Dataset.len d = Raise AssertionError.
Proof.
  exact (init_ok_len_asserts Demo.new_processor Demo.encode
           Demo.open_lines "train.de" "train.en" "de.model" "en.model" false
           tt tt _ _ eq_refl eq_refl eq_refl eq_refl).
Defined.

(** C7, as stated, fails: a dataset of two source sequences and one target
    sequence is constructed without any failure. *)
Lemma init_mismatch_succeeds :
  ~ (forall d,
       Dataset.init Demo.new_processor Demo.encode Demo.open_lines
                    "train.de" "train.en" "de.model" "en.model" false = Ok d ->
       length (Dataset.from_lang_list d) = length (Dataset.to_lang_list d)).
Proof.
  intros H. specialize (H _ eq_refl). simpl in H. discriminate H.
Qed.

(** ** utils.py: the inferred length *)

Lemma infer_length_row_le (pad : Z) (row : list Z) :
  (Utils.infer_length_row pad row <= length row)%nat.
Proof.
  induction row as [|t row IH]; simpl; [lia|].
  destruct (t =? pad); simpl; lia.
Qed.

Lemma infer_length_row_before (pad : Z) (row : list Z) (j : nat) :
  (j < Utils.infer_length_row pad row)%nat ->
  exists t, row !! j = Some t /\ t <> pad.
Proof.
  revert j. induction row as [|t row IH]; intros j Hj; simpl in Hj; [lia|].
  destruct (t =? pad) eqn:Ht; [lia|]. apply Z.eqb_neq in Ht.
  destruct j as [|j]; simpl.
  - by exists t.
  - apply IH. lia.
Qed.

Lemma infer_length_row_at (pad : Z) (row : list Z) :
  (Utils.infer_length_row pad row < length row)%nat ->
  row !! Utils.infer_length_row pad row = Some pad.
Proof.
  induction row as [|t row IH]; simpl; [lia|].
  destruct (t =? pad) eqn:Ht; simpl.
  - apply Z.eqb_eq in Ht. by subst.
  - intros H. apply IH. lia.
Qed.

Lemma infer_length_row_no_pad (pad : Z) (row : list Z) :
  pad ∉ row -> Utils.infer_length_row pad row = length row.
Proof.
  induction row as [|t row IH]; intros Hn; simpl; [done|].
  apply not_elem_of_cons in Hn as [Hne Hn].
  destruct (t =? pad) eqn:Ht.
  - apply Z.eqb_eq in Ht. congruence.
  - f_equal. by apply IH.
Qed.

Lemma infer_length_row_padded (pad : Z) (content : list Z) (k : nat) :
  pad ∉ content ->
  Utils.infer_length_row pad (content ++ replicate k pad) = length content.
Proof.
  induction content as [|t content IH]; intros Hn; simpl.
  - destruct k; simpl; [done|]. by rewrite Z.eqb_refl.
  - apply not_elem_of_cons in Hn as [Hne Hn].
    destruct (t =? pad) eqn:Ht.
    + apply Z.eqb_eq in Ht. congruence.
    + f_equal. by apply IH.
Qed.

(** ** network.py *)

Section NetworkFacts.

Context {scalar : Type} (szero : scalar) (sadd : scalar -> scalar -> scalar).
Context {Generator prob GRUWeights LinearWeights : Type}.
Variable normal_ : nat -> nat -> scalar.
Variable gru_init : Z -> Z -> Z -> GRUWeights.
Variable vf_gru :
  GRUWeights -> Z -> prob -> bool -> Generator ->
  list (list (list scalar)) -> list (list (list scalar)) ->
  list (list (list scalar)) * list (list (list scalar)) * Generator.
Variable linear_init : Z -> Z -> LinearWeights.
Variable F_linear : LinearWeights -> list scalar -> list scalar.

Local Abbreviation zeros := (Network.zeros szero).
Local Abbreviation nn_Embedding := (Network.nn_Embedding szero normal_).
Local Abbreviation Embedding_backward := (Network.Embedding_backward szero sadd).
Local Abbreviation Encoder := (@Network.Seq2SeqRNNEncoder scalar prob GRUWeights).
Local Abbreviation Decoder :=
  (@Network.Seq2SeqRNNDecoder scalar prob GRUWeights LinearWeights).
Local Abbreviation Seq2SeqRNN :=
  (@Network.Seq2SeqRNN scalar prob GRUWeights LinearWeights).
Local Abbreviation Encoder_init :=
  (Network.Seq2SeqRNNEncoder_init (prob := prob) szero normal_ gru_init).
Local Abbreviation Decoder_init :=
  (Network.Seq2SeqRNNDecoder_init (prob := prob) szero normal_ gru_init
     linear_init).
Local Abbreviation Seq2SeqRNN_init :=
  (Network.Seq2SeqRNN_init (prob := prob) szero normal_ gru_init linear_init).
Local Abbreviation Encoder_forward :=
  (Network.Seq2SeqRNNEncoder_forward szero vf_gru).
Local Abbreviation Decoder_forward :=
  (Network.Seq2SeqRNNDecoder_forward vf_gru F_linear).
Local Abbreviation Seq2SeqRNN_forward :=
  (Network.Seq2SeqRNN_forward szero vf_gru F_linear).

(** C1: for every row of a source batch, the length the encoder infers is
    at most the row's length, no id before it is the pad id 3, the id at it
    is 3 when it falls inside the row, and it is the full length when 3 does
    not occur; and when the encoder's forward pass returns, the recurrent
    network has been run on the embedded rows cut to these lengths. *)
Theorem encoder_lengths_first_pad (x : list (list Z)) (i : nat)
    (row : list Z) :
  x !! i = Some row ->
  (exists n,
     Network.Seq2SeqRNNEncoder_lengths x !! i = Some n
     /\ (n <= length row)%nat
     /\ (forall j, (j < n)%nat -> exists t, row !! j = Some t /\ t <> 3)
     /\ ((n < length row)%nat -> row !! n = Some 3)
     /\ (3 ∉ row -> n = length row))
  /\ (forall self g context_vector g',
        Encoder_forward self g x = Ok (context_vector, g') ->
        exists enc_emb out,
          Network.Embedding_forward (Network.encoder_embedding self) x
          = Ok enc_emb
          /\ Network.GRU_forward_packed szero vf_gru (Network.encoder self) g
               (zip_with take (Network.Seq2SeqRNNEncoder_lengths x) enc_emb)
             = (out, context_vector, g')).
Proof.
  intros Hrow. split.
  - exists (Utils.infer_length_row 3 row).
    unfold Network.Seq2SeqRNNEncoder_lengths, Utils.infer_length.
    rewrite list_lookup_fmap, Hrow. simpl.
    split; [done|]. split; [apply infer_length_row_le|].
    split; [apply infer_length_row_before|].
    split; [apply infer_length_row_at|apply infer_length_row_no_pad].
  - intros self g ctx g' Hf. unfold Network.Seq2SeqRNNEncoder_forward in Hf.
    destruct (Network.Embedding_forward _ x) as [enc_emb|e]; [|done].
    simpl in Hf. exists enc_emb.
    unfold Network.pack_padded_sequence in Hf.
    repeat case_match; simpl in Hf; try done.
    destruct (Network.GRU_forward_packed _ _ _ _ _) as [[out c] g1].
    exists out. by simplify_eq.
Qed.

(** C3: the model's forward pass is the decoder's run on the target-input
    batch with the context vector the encoder's run on the source batch
    gives, an exception of the encoder being the model's.  When it
    returns, the logits are the linear layer applied to the outputs of the
    decoder's recurrent network, run on the embedded target input from
    the final hidden state the encoder's recurrent network reached on the
    embedded source rows cut to their lengths; that hidden state is all
    the decoder gets from the encoder.  Nothing is kept from one call to
    the next: the model, put in inference mode, where the recurrent kernel
    draws nothing from the generator of random numbers, answers a call the
    same way whatever happened before it, and leaves the generator as it
    found it. *)
Theorem Seq2SeqRNN_forward_compose (self : Seq2SeqRNN)
    (g : Generator) (from_seq to_seq : list (list Z)) :
  Seq2SeqRNN_forward self g from_seq to_seq
  = match Encoder_forward (Network.s2s_encoder self) g from_seq with
    | Ok (context_vector, g1) =>
        Decoder_forward (Network.s2s_decoder self) g1 to_seq context_vector
    | Raise e => Raise e
    end
  /\ (forall logits g2,
        Seq2SeqRNN_forward self g from_seq to_seq = Ok (logits, g2) ->
        exists enc_emb enc_out context_vector g1 dec_emb dec_out h_n,
          Network.Embedding_forward
            (Network.encoder_embedding (Network.s2s_encoder self)) from_seq
          = Ok enc_emb
          /\ Network.GRU_forward_packed szero vf_gru
               (Network.encoder (Network.s2s_encoder self)) g
               (zip_with take (Network.Seq2SeqRNNEncoder_lengths from_seq)
                         enc_emb)
             = (enc_out, context_vector, g1)
          /\ Network.Embedding_forward
               (Network.decoder_embedding (Network.s2s_decoder self)) to_seq
             = Ok dec_emb
          /\ vf_gru
               (Network.gru_weights (Network.decoder (Network.s2s_decoder self)))
               (Network.num_layers (Network.decoder (Network.s2s_decoder self)))
               (Network.dropout (Network.decoder (Network.s2s_decoder self)))
               (Network.gru_training
                  (Network.decoder (Network.s2s_decoder self)))
               g1 dec_emb context_vector
             = (dec_out, h_n, g2)
          /\ logits
             = map (map (F_linear
                           (Network.linear_weights
                              (Network.linear (Network.s2s_decoder self)))))
                   dec_out)
  /\ ((forall w layers p g0 g0' input h0,
         (vf_gru w layers p false g0 input h0).1
         = (vf_gru w layers p false g0' input h0).1
         /\ (vf_gru w layers p false g0 input h0).2 = g0) ->
      forall g' : Generator,
        (forall logits g2,
           Seq2SeqRNN_forward (Network.Seq2SeqRNN_train false self) g
                              from_seq to_seq = Ok (logits, g2) ->
           g2 = g
           /\ Seq2SeqRNN_forward (Network.Seq2SeqRNN_train false self) g'
                                 from_seq to_seq = Ok (logits, g'))
        /\ (forall e,
              Seq2SeqRNN_forward (Network.Seq2SeqRNN_train false self) g
                                 from_seq to_seq = Raise e ->
              Seq2SeqRNN_forward (Network.Seq2SeqRNN_train false self) g'
                                 from_seq to_seq = Raise e)).
Proof.
  split; [|split].
  - unfold Network.Seq2SeqRNN_forward.
    destruct (Encoder_forward _ g from_seq) as [[ctx g1]|e]; simpl; [|done].
    by destruct (Decoder_forward _ g1 to_seq ctx) as [[logits g2]|e].
  - intros logits g2 Hf. unfold Network.Seq2SeqRNN_forward,
      Network.Seq2SeqRNNEncoder_forward, Network.Seq2SeqRNNDecoder_forward
      in Hf.
    destruct (Network.Embedding_forward _ from_seq) as [enc_emb|]; [|done].
    simpl in Hf.
    unfold Network.pack_padded_sequence in Hf.
    destruct (Network.no_element enc_emb); [done|].
    destruct (existsb _ _); [done|]. simpl in Hf.
    destruct (Network.GRU_forward_packed _ _ _ _ _) as [[enc_out ctx] g1]
      eqn:Henc.
    simpl in Hf.
    destruct (Network.Embedding_forward _ to_seq) as [dec_emb|]; [|done].
    simpl in Hf. unfold Network.GRU_forward in Hf.
    destruct (Network.hidden_shape_ok ctx _ _ _); [|done].
    destruct (existsb _ dec_emb); [done|]. simpl in Hf.
    destruct (vf_gru _ _ _ _ g1 dec_emb ctx) as [[dec_out h_n] g2'] eqn:Hdec.
    simpl in Hf. injection Hf as <- <-.
    by exists enc_emb, enc_out, ctx, g1, dec_emb, dec_out, h_n.
  - intros Hkernel g'.
    assert (Hrun : forall g0,
              Seq2SeqRNN_forward (Network.Seq2SeqRNN_train false self) g0
                                 from_seq to_seq
              = match Seq2SeqRNN_forward (Network.Seq2SeqRNN_train false self)
                        g from_seq to_seq with
                | Ok (logits, _) => Ok (logits, g0)
                | Raise e => Raise e
                end).
    { intros g0. unfold Network.Seq2SeqRNN_forward,
        Network.Seq2SeqRNNEncoder_forward, Network.Seq2SeqRNNDecoder_forward,
        Network.GRU_forward_packed, Network.GRU_forward. simpl.
      destruct (Network.Embedding_forward _ from_seq) as [enc_emb|]; [|done].
      simpl. destruct (Network.pack_padded_sequence enc_emb _) as [packed|];
        [|done].
      simpl.
      match goal with
      | |- context [vf_gru ?w ?l ?p false g0 ?inp ?h0] =>
          destruct (Hkernel w l p g0 g inp h0) as [Hout Hgen];
          destruct (Hkernel w l p g g0 inp h0) as [_ Hgen'];
          destruct (vf_gru w l p false g0 inp h0) as [[out c] g1];
          destruct (vf_gru w l p false g inp h0) as [[out' c'] g1']
      end.
      simpl in Hout, Hgen, Hgen'. injection Hout as -> ->. subst g1 g1'.
      simpl.
      destruct (Network.Embedding_forward _ to_seq) as [dec_emb|]; [|done].
      simpl. destruct (Network.hidden_shape_ok c' _ _ _); [|done].
      destruct (existsb _ dec_emb); [done|]. simpl.
      match goal with
      | |- context [vf_gru ?w ?l ?p false g0 ?inp ?h0] =>
          destruct (Hkernel w l p g0 g inp h0) as [Hout Hgen];
          destruct (Hkernel w l p g g0 inp h0) as [_ Hgen'];
          destruct (vf_gru w l p false g0 inp h0) as [[out1 c1] g1];
          destruct (vf_gru w l p false g inp h0) as [[out1' c1'] g1']
      end.
      simpl in Hout, Hgen, Hgen'. injection Hout as -> ->. by subst g1 g1'. }
    split.
    + intros logits g2 Hf. rewrite (Hrun g'), Hf. split; [|done].
      pose proof (Hrun g) as Hg. rewrite Hf in Hg. by injection Hg.
    + intros e Hf. by rewrite (Hrun g'), Hf.
Qed.

(** *** The padding row of an embedding *)

Lemma nn_Embedding_pad3 (num dim : Z) (emb : Network.Embedding) :
  nn_Embedding num dim (Some 3) = Ok emb ->
  3 < num /\ 0 <= dim
  /\ Network.num_embeddings emb = num
  /\ Network.embedding_dim emb = dim
  /\ Network.padding_idx emb = Some 3
  /\ Network.weight emb !! 3%nat = Some (zeros (Z.to_nat dim)).
Proof.
  unfold Network.nn_Embedding. simpl.
  destruct (3 <? num) eqn:Hnum; simpl; [|done]. apply Z.ltb_lt in Hnum.
  destruct ((num <? 0) || (dim <? 0)) eqn:Hneg; [done|].
  apply orb_false_iff in Hneg as [_ Hdim]. apply Z.ltb_ge in Hdim.
  intros [= <-]. simpl. repeat split; try done.
  by rewrite list_lookup_fmap, lookup_seq_lt by lia.
Qed.

Lemma alter_keeps_other {A : Type} (f : A -> A) (l : list A) (i j : nat) :
  i <> j -> alter f i l !! j = l !! j.
Proof. intros H. by apply list_lookup_alter_ne. Qed.

Lemma Embedding_backward_pad_row (emb : Network.Embedding) (x : list (list Z))
    (gout : list (list (list scalar))) (p : Z) :
  Network.padding_idx emb = Some p -> 0 < p < Network.num_embeddings emb ->
  Embedding_backward emb x gout !! Z.to_nat p
  = Some (zeros (Z.to_nat (Network.embedding_dim emb))).
Proof.
  intros Hp Hr. unfold Network.Embedding_backward.
  generalize (zip (concat x) (concat gout)). intros l.
  assert (Hinit : replicate (Z.to_nat (Network.num_embeddings emb))
                    (zeros (Z.to_nat (Network.embedding_dim emb)))
                  !! Z.to_nat p
                  = Some (zeros (Z.to_nat (Network.embedding_dim emb)))).
  { apply lookup_replicate_2. lia. }
  revert Hinit. generalize (replicate (Z.to_nat (Network.num_embeddings emb))
                    (zeros (Z.to_nat (Network.embedding_dim emb)))).
  induction l as [|[id g] l IH]; intros gw Hgw; simpl; [done|].
  apply IH. case_bool_decide as Hid; [done|].
  rewrite alter_keeps_other; [done|].
  intros Heq. apply Hid. rewrite Hp. f_equal.
  lia.
Qed.

(** *** What the constructors build *)

Lemma Encoder_init_inv (en ed eh el : Z) (ep : prob) (enc : Encoder) :
  Encoder_init en ed eh el ep = Ok enc ->
  nn_Embedding en ed (Some 3) = Ok (Network.encoder_embedding enc)
  /\ 0 < eh /\ 0 < el
  /\ Network.hidden_size (Network.encoder enc) = eh
  /\ Network.num_layers (Network.encoder enc) = el.
Proof.
  unfold Network.Seq2SeqRNNEncoder_init, Network.nn_GRU.
  destruct (nn_Embedding en ed (Some 3)) as [emb|]; [|done]. simpl.
  destruct (eh <=? 0) eqn:Hh; [done|]. apply Z.leb_gt in Hh.
  destruct (el <=? 0) eqn:Hl; [done|]. apply Z.leb_gt in Hl.
  simpl. by intros [= <-].
Qed.

Lemma Decoder_init_inv (dn dd dh dl : Z) (dp : prob) (dec : Decoder) :
  Decoder_init dn dd dh dl dp = Ok dec ->
  nn_Embedding dn dd (Some 3) = Ok (Network.decoder_embedding dec)
  /\ 0 < dh /\ 0 < dl
  /\ Network.hidden_size (Network.decoder dec) = dh
  /\ Network.num_layers (Network.decoder dec) = dl
  /\ Network.linear dec = Network.nn_Linear linear_init dh dn.
Proof.
  unfold Network.Seq2SeqRNNDecoder_init, Network.nn_GRU.
  destruct (nn_Embedding dn dd (Some 3)) as [emb|]; [|done]. simpl.
  destruct (dh <=? 0) eqn:Hh; [done|]. apply Z.leb_gt in Hh.
  destruct (dl <=? 0) eqn:Hl; [done|]. apply Z.leb_gt in Hl.
  simpl. by intros [= <-].
Qed.

Lemma Seq2SeqRNN_init_inv (en ed eh el : Z) (ep : prob) (dn dd dh dl : Z)
    (dp : prob) (model : Seq2SeqRNN) :
  Seq2SeqRNN_init en ed eh el ep dn dd dh dl dp = Ok model ->
  Encoder_init en ed eh el ep = Ok (Network.s2s_encoder model)
  /\ Decoder_init dn dd dh dl dp = Ok (Network.s2s_decoder model).
Proof.
  unfold Network.Seq2SeqRNN_init.
  destruct (Encoder_init en ed eh el ep) as [enc|]; [|done].
  destruct (Decoder_init dn dd dh dl dp) as [dec|]; [|done].
  simpl. by intros [= <-].
Qed.

(** C4: the embeddings the encoder and the decoder are constructed with
    both have padding index 3; in either, the row of id 3 is the zero
    vector, so every input position holding 3 is embedded as the zero
    vector, and whatever the upstream gradient, the gradient of that row is
    the zero vector. *)
Theorem embeddings_share_pad_id
    (en ed eh el : Z) (ep : prob) (dn dd dh dl : Z) (dp : prob)
    (enc : Encoder)
    (dec : Decoder) :
  Encoder_init en ed eh el ep = Ok enc ->
  Decoder_init dn dd dh dl dp = Ok dec ->
  Forall (fun emb : Network.Embedding =>
    Network.padding_idx emb = Some 3
    /\ (forall x e b t row,
          Network.Embedding_forward emb x = Ok e ->
          x !! b = Some row -> row !! t = Some 3 ->
          exists erow, e !! b = Some erow
            /\ erow !! t = Some (zeros (Z.to_nat (Network.embedding_dim emb))))
    /\ (forall x gout,
          Embedding_backward emb x gout !! 3%nat
          = Some (zeros (Z.to_nat (Network.embedding_dim emb)))))
    [Network.encoder_embedding enc; Network.decoder_embedding dec].
Proof.
  intros He Hd.
  assert (Hall : forall num dim emb,
            nn_Embedding num dim (Some 3) = Ok emb ->
            Network.padding_idx emb = Some 3
            /\ (forall x e b t row,
                  Network.Embedding_forward emb x = Ok e ->
                  x !! b = Some row -> row !! t = Some 3 ->
                  exists erow, e !! b = Some erow
                    /\ erow !! t
                       = Some (zeros (Z.to_nat (Network.embedding_dim emb))))
            /\ (forall x gout,
                  Embedding_backward emb x gout !! 3%nat
                  = Some (zeros (Z.to_nat (Network.embedding_dim emb))))).
  { intros num dim emb Hemb.
    destruct (nn_Embedding_pad3 _ _ _ Hemb) as (Hn & Hd' & En & Ed & Ep & Ew).
    split; [done|]. split.
    - intros x e b t row Hfw Hb Ht. unfold Network.Embedding_forward in Hfw.
      destruct (mapM_lookup _ _ _ _ _ Hfw Hb) as (erow & Herow & Hm).
      exists erow. split; [done|].
      destruct (mapM_lookup _ _ _ _ _ Hm Ht) as (v & Hv & Hl).
      rewrite Hv. f_equal. unfold Network.embedding_lookup in Hl.
      simpl in Hl. change (Z.to_nat 3) with 3%nat in Hl.
      rewrite Ew in Hl. rewrite Ed. congruence.
    - intros x gout.
      apply (Embedding_backward_pad_row emb x gout 3); [done|lia]. }
  apply Encoder_init_inv in He as (H1 & _).
  apply Decoder_init_inv in Hd as (H2 & _).
  apply Forall_cons. split; [by eapply Hall|].
  apply Forall_cons. split; [by eapply Hall|]. constructor.
Qed.

(** *** The initial state of the decoder *)

Lemma hidden_shape_layers (hx : list (list (list scalar))) (layers batch hsize : Z) :
  Network.hidden_shape_ok hx layers batch hsize = true ->
  Z.of_nat (length hx) = layers.
Proof.
  unfold Network.hidden_shape_ok. intros H.
  apply andb_true_iff in H as [H _]. by apply Z.eqb_eq in H.
Qed.

(** Documented shape of the recurrent kernel's final hidden state: one
    entry per layer. *)
Hypothesis vf_gru_layers :
  forall w layers p t g input h0,
    0 <= layers ->
    Z.of_nat (length (vf_gru w layers p t g input h0).1.2) = layers.

(** C8: a decoder handed a context vector whose layer count is not the
    layer count of its recurrent network never returns logits: once the
    inputs are embedded it raises [RuntimeError]; the context vector goes to
    the recurrent network as it is.  So a model constructed with different
    encoder and decoder layer counts (the constructor accepts them) fails on
    every forward pass. *)
Theorem layer_mismatch_is_fatal :
  (forall (dec : Decoder)
          g x context_vector,
     Z.of_nat (length context_vector)
     <> Network.num_layers (Network.decoder dec) ->
     is_ok (Decoder_forward dec g x context_vector) = false
     /\ (forall dec_emb,
           Network.Embedding_forward (Network.decoder_embedding dec) x
           = Ok dec_emb ->
           Decoder_forward dec g x context_vector = Raise RuntimeError))
  /\ (forall en ed eh el ep dn dd dh dl dp model g from_seq to_seq,
        0 <= el -> el <> dl ->
        Seq2SeqRNN_init en ed eh el ep dn dd dh dl dp = Ok model ->
        is_ok (Seq2SeqRNN_forward model g from_seq to_seq) = false).
Proof.
  assert (Hdec : forall (dec : Decoder)
          g x context_vector,
     Z.of_nat (length context_vector)
     <> Network.num_layers (Network.decoder dec) ->
     is_ok (Decoder_forward dec g x context_vector) = false
     /\ (forall dec_emb,
           Network.Embedding_forward (Network.decoder_embedding dec) x
           = Ok dec_emb ->
           Decoder_forward dec g x context_vector = Raise RuntimeError)).
  { intros dec g x ctx Hne.
    assert (Hgru : forall dec_emb,
              Network.GRU_forward vf_gru (Network.decoder dec) g dec_emb ctx
              = Raise RuntimeError).
    { intros dec_emb. unfold Network.GRU_forward.
      destruct (Network.hidden_shape_ok ctx _ _ _) eqn:Hs; [|done].
      apply hidden_shape_layers in Hs. congruence. }
    unfold Network.Seq2SeqRNNDecoder_forward. split.
    - destruct (Network.Embedding_forward _ x) as [dec_emb|e]; [|done].
      simpl. by rewrite Hgru.
    - intros dec_emb ->. simpl. by rewrite Hgru. }
  split; [exact Hdec|].
  intros en ed eh el ep dn dd dh dl dp model g from_seq to_seq Hel Hne Hinit.
  assert (Hcomp :
            Seq2SeqRNN_forward model g from_seq to_seq
            = match Encoder_forward (Network.s2s_encoder model) g from_seq with
              | Ok (context_vector, g1) =>
                  Decoder_forward (Network.s2s_decoder model) g1 to_seq
                                  context_vector
              | Raise e => Raise e
              end).
  { unfold Network.Seq2SeqRNN_forward.
    destruct (Encoder_forward _ g from_seq) as [[ctx g1]|e]; simpl; [|done].
    by destruct (Decoder_forward _ g1 to_seq ctx) as [[logits g2]|e]. }
  rewrite Hcomp. clear Hcomp.
  destruct (Encoder_forward _ g from_seq) as [[ctx g1]|e] eqn:Henc; [|done].
  apply Hdec.
  apply Seq2SeqRNN_init_inv in Hinit as (He & Hd).
  apply Encoder_init_inv in He as (_ & _ & _ & _ & Hle).
  apply Decoder_init_inv in Hd as (_ & _ & _ & _ & Hld & _).
  rewrite Hld.
  unfold Network.Seq2SeqRNNEncoder_forward in Henc.
  destruct (Network.Embedding_forward _ from_seq) as [enc_emb|]; [|done].
  simpl in Henc.
  destruct (Network.pack_padded_sequence enc_emb _) as [packed|]; [|done].
  simpl in Henc. unfold Network.GRU_forward_packed in Henc.
  rewrite Hle in Henc.
  match type of Henc with
  | context [vf_gru ?w ?l ?p ?t ?g0 ?inp ?h0] =>
      pose proof (vf_gru_layers w l p t g0 inp h0 Hel) as Hl;
      destruct (vf_gru w l p t g0 inp h0) as [[out c] g2]
  end.
  simpl in Hl. injection Henc as -> ->. lia.
Qed.

(** *** Construction and edge cases of the forward pass *)

Local Abbreviation Embedding := (@Network.Embedding scalar).

Lemma mapM_only_raises {A B : Type} (f : A -> result B) (l : list A)
    (E e : exn) :
  (forall a e', f a = Raise e' -> e' = E) ->
  mapM f l = Raise e -> e = E.
Proof.
  intros Hf. induction l as [|a l IH]; simpl; [done|].
  destruct (f a) as [b|e'] eqn:Ha; simpl.
  - destruct (mapM f l) as [bs|e'']; simpl; [done|].
    intros [= <-]. by apply IH.
  - intros [= <-]. by eapply Hf.
Qed.

Lemma mapM_fails {A B : Type} (f : A -> result B) (l : list A) (a : A) :
  a ∈ l -> is_ok (f a) = false -> is_ok (mapM f l) = false.
Proof.
  intros Hin Ha. induction l as [|x l IH]; [by apply elem_of_nil in Hin|].
  apply elem_of_cons in Hin as [<-|Hin]; simpl.
  - by destruct (f a).
  - destruct (f x); simpl; [|done].
    specialize (IH Hin). by destruct (mapM f l).
Qed.

Lemma mapM_take {A B : Type} (f : A -> result B) (l : list A) (l' : list B)
    (n : nat) :
  mapM f l = Ok l' -> mapM f (take n l) = Ok (take n l').
Proof.
  revert l' n. induction l as [|a l IH]; intros l' n Hm; simpl in Hm.
  - injection Hm as <-. by destruct n.
  - destruct (f a) as [b|e] eqn:Ha; [|done]. simpl in Hm.
    destruct (mapM f l) as [bs|e] eqn:Hl; [|done]. simpl in Hm.
    injection Hm as <-. destruct n as [|n]; simpl; [done|].
    by rewrite Ha, (IH bs n).
Qed.

Lemma Embedding_forward_only_IndexError (emb : Embedding)
    (x : list (list Z)) (e : exn) :
  Network.Embedding_forward emb x = Raise e -> e = IndexError.
Proof.
  unfold Network.Embedding_forward. apply mapM_only_raises.
  intros row e'. apply mapM_only_raises.
  intros id e''. unfold Network.embedding_lookup.
  repeat case_match; congruence.
Qed.

Lemma Embedding_forward_out_of_range (emb : Embedding)
    (x : list (list Z)) (row : list Z) (id : Z) :
  row ∈ x -> id ∈ row ->
  id < 0 \/ Z.of_nat (length (Network.weight emb)) <= id ->
  Network.Embedding_forward emb x = Raise IndexError.
Proof.
  intros Hrow Hid Hout.
  assert (Hfail : is_ok (Network.Embedding_forward emb x) = false).
  { unfold Network.Embedding_forward. apply (mapM_fails _ _ row); [done|].
    apply (mapM_fails _ _ id); [done|]. unfold Network.embedding_lookup.
    destruct (id <? 0) eqn:Hneg; [done|]. apply Z.ltb_ge in Hneg.
    destruct (Network.weight emb !! Z.to_nat id) eqn:Hl; [|done].
    apply lookup_lt_Some in Hl. lia. }
  destruct (Network.Embedding_forward emb x) as [v|e] eqn:Hfw; [done|].
  by rewrite (Embedding_forward_only_IndexError _ _ _ Hfw).
Qed.

Lemma nn_Embedding_rows (num dim : Z) (pad : option Z)
    (emb : Embedding) :
  nn_Embedding num dim pad = Ok emb ->
  Z.of_nat (length (Network.weight emb)) = num.
Proof.
  unfold Network.nn_Embedding.
  destruct (match pad with Some _ => _ | None => _ end) as [pad'|e];
    simpl; [|done].
  destruct ((num <? 0) || (dim <? 0)) eqn:Hneg; [done|].
  apply orb_false_iff in Hneg as [Hnum _]. apply Z.ltb_ge in Hnum.
  intros [= <-]. simpl. rewrite length_map, length_seq. lia.
Qed.

(** The hardcoded padding index 3 bounds the vocabulary from below: a
    model whose encoder vocabulary has at most 3 entries fails to construct
    with [AssertionError], and a constructed model has more than 3 entries
    in both vocabularies, as many embedding rows as entries, and padding
    index 3 on both sides. *)
Theorem vocabulary_must_exceed_pad_id
    (en ed eh el : Z) (ep : prob) (dn dd dh dl : Z) (dp : prob) :
  (en <= 3 ->
   Seq2SeqRNN_init en ed eh el ep dn dd dh dl dp = Raise AssertionError)
  /\ (forall model,
        Seq2SeqRNN_init en ed eh el ep dn dd dh dl dp = Ok model ->
        3 < en /\ 3 < dn
        /\ Z.of_nat (length (Network.weight
             (Network.encoder_embedding (Network.s2s_encoder model)))) = en
        /\ Z.of_nat (length (Network.weight
             (Network.decoder_embedding (Network.s2s_decoder model)))) = dn).
Proof.
  split.
  - intros Hen. unfold Network.Seq2SeqRNN_init,
      Network.Seq2SeqRNNEncoder_init, Network.nn_Embedding. simpl.
    by replace (3 <? en) with false by (symmetry; apply Z.ltb_ge; lia).
  - intros model Hinit.
    apply Seq2SeqRNN_init_inv in Hinit as (He & Hd).
    apply Encoder_init_inv in He as (H1 & _).
    apply Decoder_init_inv in Hd as (H2 & _).
    destruct (nn_Embedding_pad3 _ _ _ H1) as (? & _).
    destruct (nn_Embedding_pad3 _ _ _ H2) as (? & _).
    split; [done|]. split; [done|].
    split; by eapply nn_Embedding_rows.
Qed.

Lemma vocabulary_rows
    (en ed eh el : Z) (ep : prob) (dn dd dh dl : Z) (dp : prob)
    (model : Seq2SeqRNN) :
  Seq2SeqRNN_init en ed eh el ep dn dd dh dl dp = Ok model ->
  Z.of_nat (length (Network.weight
    (Network.encoder_embedding (Network.s2s_encoder model)))) = en
  /\ Z.of_nat (length (Network.weight
       (Network.decoder_embedding (Network.s2s_decoder model)))) = dn.
Proof.
  intros Hinit.
  apply Seq2SeqRNN_init_inv in Hinit as (He & Hd).
  apply Encoder_init_inv in He as (H1 & _).
  apply Decoder_init_inv in Hd as (H2 & _).
  split; by eapply nn_Embedding_rows.
Qed.

(** A token id outside the vocabulary stops the forward pass: a negative
    source id or one not below the encoder's vocabulary size makes the
    model raise [IndexError] before the recurrent network runs, and such an
    id in the target input keeps the model from returning logits. *)
Theorem out_of_vocabulary_id_raises
    (en ed eh el : Z) (ep : prob) (dn dd dh dl : Z) (dp : prob)
    (model : Seq2SeqRNN) (g : Generator) (from_seq to_seq : list (list Z))
    (row : list Z) (id : Z) :
  Seq2SeqRNN_init en ed eh el ep dn dd dh dl dp = Ok model ->
  id ∈ row ->
  (row ∈ from_seq -> id < 0 \/ en <= id ->
   Seq2SeqRNN_forward model g from_seq to_seq = Raise IndexError)
  /\ (row ∈ to_seq -> id < 0 \/ dn <= id ->
      is_ok (Seq2SeqRNN_forward model g from_seq to_seq) = false).
Proof.
  intros Hinit Hid.
  destruct (vocabulary_rows en ed eh el ep dn dd dh dl dp model Hinit)
    as (Hen & Hdn).
  unfold Network.Seq2SeqRNN_forward. split.
  - intros Hrow Hout. unfold Network.Seq2SeqRNNEncoder_forward.
    rewrite (Embedding_forward_out_of_range _ from_seq row id); [done..|].
    by rewrite Hen.
  - intros Hrow Hout.
    destruct (Encoder_forward _ g from_seq) as [[ctx g1]|e]; [|done].
    simpl. unfold Network.Seq2SeqRNNDecoder_forward.
    rewrite (Embedding_forward_out_of_range _ to_seq row id); [done..|].
    by rewrite Hdn.
Qed.

Lemma infer_length_row_zero (row : list Z) :
  Utils.infer_length_row 3 row = 0%nat <-> row = [] \/ head row = Some 3.
Proof.
  destruct row as [|t row]; simpl; [by split; [left|]|].
  destruct (t =? 3) eqn:Ht.
  - apply Z.eqb_eq in Ht. subst. split; [by right|done].
  - apply Z.eqb_neq in Ht. split; [done|]. intros [H|[= H]]; done.
Qed.

(** A source row with no token before the padding stops the encoder: when
    some row of the batch is empty or begins with the pad id 3, its
    inferred length is 0, [pack_padded_sequence] rejects it, and the
    encoder raises [RuntimeError] as soon as the batch has been embedded;
    it never returns a context vector for such a batch. *)
Theorem all_pad_row_stops_encoder (self : Encoder) (g : Generator)
    (x : list (list Z)) (row : list Z) :
  row ∈ x ->
  row = [] \/ head row = Some 3 ->
  is_ok (Encoder_forward self g x) = false
  /\ (forall enc_emb,
        Network.Embedding_forward (Network.encoder_embedding self) x
        = Ok enc_emb ->
        Encoder_forward self g x = Raise RuntimeError).
Proof.
  intros Hin Hrow. apply infer_length_row_zero in Hrow.
  assert (Hpack : forall enc_emb : list (list (list scalar)),
            Network.pack_padded_sequence enc_emb
              (Network.Seq2SeqRNNEncoder_lengths x) = Raise RuntimeError).
  { intros enc_emb. unfold Network.pack_padded_sequence.
    destruct (Network.no_element enc_emb); [done|].
    replace (existsb (fun n : nat => bool_decide (n = 0%nat))
               (Network.Seq2SeqRNNEncoder_lengths x)) with true; [done|].
    symmetry. apply existsb_exists. exists 0%nat. split; [|done].
    apply list_elem_of_In. unfold Network.Seq2SeqRNNEncoder_lengths,
      Utils.infer_length. rewrite <- Hrow. by apply list_elem_of_fmap_2. }
  unfold Network.Seq2SeqRNNEncoder_forward. split.
  - destruct (Network.Embedding_forward _ x) as [enc_emb|e]; [|done].
    simpl. by rewrite Hpack.
  - intros enc_emb ->. simpl. by rewrite Hpack.
Qed.

Lemma head_token_embedded (emb : Embedding) (row row' : list Z)
    (erow erow' : list (list scalar)) (n : nat) :
  mapM (Network.embedding_lookup emb) row = Ok erow ->
  mapM (Network.embedding_lookup emb) row' = Ok erow' ->
  (0 < n)%nat -> (n <= length row)%nat -> take n row' = take n row ->
  head erow' = head erow /\ erow <> [].
Proof.
  intros Hrow Hrow' Hn Hle Htake.
  destruct row as [|t row]; simpl in Hle; [lia|].
  destruct n as [|n]; [lia|].
  destruct row' as [|t' row']; [done|]. simpl in Htake.
  injection Htake as -> _. simpl in Hrow, Hrow'.
  destruct (Network.embedding_lookup emb t) as [v|]; [|done].
  simpl in Hrow, Hrow'.
  destruct (mapM _ row) as [r|]; [|done].
  destruct (mapM _ row') as [r'|]; [|done].
  simpl in Hrow, Hrow'. by simplify_eq.
Qed.

(** What follows the first pad id of a source row does not reach the
    recurrent network: two batches whose rows have the same inferred
    lengths and the same tokens before them, both within the vocabulary,
    give the same result of the encoder's forward pass. *)
Theorem padded_tail_is_ignored (self : Encoder) (g : Generator)
    (x x' : list (list Z)) (enc_emb enc_emb' : list (list (list scalar))) :
  Forall2 (fun row row' =>
             Utils.infer_length_row 3 row' = Utils.infer_length_row 3 row
             /\ take (Utils.infer_length_row 3 row) row'
                = take (Utils.infer_length_row 3 row) row) x x' ->
  Network.Embedding_forward (Network.encoder_embedding self) x = Ok enc_emb ->
  Network.Embedding_forward (Network.encoder_embedding self) x'
  = Ok enc_emb' ->
  Encoder_forward self g x' = Encoder_forward self g x.
Proof.
  intros Hrows Hfw Hfw'.
  assert (Hlen : Network.Seq2SeqRNNEncoder_lengths x'
                 = Network.Seq2SeqRNNEncoder_lengths x).
  { unfold Network.Seq2SeqRNNEncoder_lengths, Utils.infer_length.
    clear -Hrows. induction Hrows as [|row row' x x' [Hn _] _ IH]; [done|].
    simpl. by rewrite Hn, IH. }
  assert (Hcut : zip_with take (Network.Seq2SeqRNNEncoder_lengths x) enc_emb'
                 = zip_with take (Network.Seq2SeqRNNEncoder_lengths x)
                     enc_emb).
  { unfold Network.Seq2SeqRNNEncoder_lengths, Utils.infer_length,
      Network.Embedding_forward in *.
    clear Hlen. revert enc_emb enc_emb' Hfw Hfw'.
    induction Hrows as [|row row' x x' [Hn Htake] _ IH];
      intros enc_emb enc_emb' Hfw Hfw'; simpl in *.
    - by simplify_eq.
    - destruct (mapM _ row) as [erow|] eqn:Hrow; [|done]. simpl in Hfw.
      destruct (mapM _ x) as [rest|] eqn:Hx; [|done]. simpl in Hfw.
      destruct (mapM _ row') as [erow'|] eqn:Hrow'; [|done]. simpl in Hfw'.
      destruct (mapM _ x') as [rest'|] eqn:Hx'; [|done]. simpl in Hfw'.
      injection Hfw as <-. injection Hfw' as <-. simpl. f_equal.
      + apply (mapM_take _ _ _ (Utils.infer_length_row 3 row)) in Hrow, Hrow'.
        rewrite Htake in Hrow'. congruence.
      + by apply IH. }
  assert (Hpack : Network.pack_padded_sequence enc_emb'
                    (Network.Seq2SeqRNNEncoder_lengths x)
                  = Network.pack_padded_sequence enc_emb
                      (Network.Seq2SeqRNNEncoder_lengths x)).
  { unfold Network.pack_padded_sequence. rewrite Hcut.
    destruct (existsb _ (Network.Seq2SeqRNNEncoder_lengths x)) eqn:Hzero;
      [by do 2 destruct (Network.no_element _)|].
    replace (Network.no_element enc_emb') with (Network.no_element enc_emb);
      [done|].
    unfold Network.Seq2SeqRNNEncoder_lengths, Utils.infer_length,
      Network.Embedding_forward in *.
    destruct Hrows as [|row row' x x' [Hn Htake] _]; simpl in *.
    - by simplify_eq.
    - apply orb_false_iff in Hzero as [Hzero _].
      apply bool_decide_eq_false_1 in Hzero.
      destruct (mapM _ row) as [erow|] eqn:Hrow; [|done]. simpl in Hfw.
      destruct (mapM _ x) as [rest|]; [|done]. simpl in Hfw.
      destruct (mapM _ row') as [erow'|] eqn:Hrow'; [|done]. simpl in Hfw'.
      destruct (mapM _ x') as [rest'|]; [|done]. simpl in Hfw'.
      injection Hfw as <-. injection Hfw' as <-.
      destruct (head_token_embedded _ _ _ _ _ (Utils.infer_length_row 3 row)
                  Hrow Hrow') as [Hhead Hne];
        [lia|apply infer_length_row_le|done|].
      destruct erow as [|v erow]; [done|].
      destruct erow' as [|v' erow']; [done|].
      simpl in Hhead. by injection Hhead as ->. }
  unfold Network.Seq2SeqRNNEncoder_forward. rewrite Hfw, Hfw'. simpl.
  by rewrite Hlen, Hpack.
Qed.

Lemma Embedding_forward_shape (emb : Embedding) (x : list (list Z))
    (e : list (list (list scalar))) :
  Network.Embedding_forward emb x = Ok e -> map length e = map length x.
Proof.
  unfold Network.Embedding_forward. revert e.
  induction x as [|row x IH]; intros e He; simpl in He.
  - by injection He as <-.
  - destruct (mapM _ row) as [erow|] eqn:Hrow; [|done]. simpl in He.
    destruct (mapM _ x) as [rest|] eqn:Hx; [|done]. simpl in He.
    injection He as <-. simpl.
    by rewrite (mapM_length _ _ _ Hrow), (IH rest).
Qed.

(** Shape of the logits, given the documented shapes of the two numeric
    kernels (the recurrent kernel returns one output vector per input
    position, the linear kernel [out_features] values): when the forward
    pass of a constructed model returns, the logits have one row per row
    of the target input, one position per position of that row, and one
    score per entry of the decoder vocabulary. *)
Theorem logits_shape
    (en ed eh el : Z) (ep : prob) (dn dd dh dl : Z) (dp : prob)
    (model : Seq2SeqRNN) (g g' : Generator) (from_seq to_seq : list (list Z))
    (logits : list (list (list scalar))) :
  (forall w layers p t g0 input h0,
     map length (vf_gru w layers p t g0 input h0).1.1 = map length input) ->
  (forall i o v, length (F_linear (linear_init i o) v) = Z.to_nat o) ->
  Seq2SeqRNN_init en ed eh el ep dn dd dh dl dp = Ok model ->
  Seq2SeqRNN_forward model g from_seq to_seq = Ok (logits, g') ->
  map length logits = map length to_seq
  /\ Forall (Forall (fun scores => length scores = Z.to_nat dn)) logits.
Proof.
  intros Hgru Hlin Hinit Hfw.
  apply Seq2SeqRNN_init_inv in Hinit as (_ & Hd).
  apply Decoder_init_inv in Hd as (_ & _ & _ & _ & _ & Hlinear).
  unfold Network.Seq2SeqRNN_forward in Hfw.
  destruct (Encoder_forward _ g from_seq) as [[ctx g1]|]; [|done].
  simpl in Hfw. unfold Network.Seq2SeqRNNDecoder_forward in Hfw.
  destruct (Network.Embedding_forward _ to_seq) as [dec_emb|] eqn:Hemb;
    [|done].
  simpl in Hfw. unfold Network.GRU_forward in Hfw.
  destruct (Network.hidden_shape_ok ctx _ _ _); [|done].
  destruct (existsb _ dec_emb); [done|]. simpl in Hfw.
  match type of Hfw with
  | context [vf_gru ?w ?l ?p ?t ?g0 ?inp ?h0] =>
      pose proof (Hgru w l p t g0 inp h0) as Hshape;
      destruct (vf_gru w l p t g0 inp h0) as [[dec_out c] g2]
  end.
  simpl in Hfw, Hshape. injection Hfw as <- <-.
  unfold Network.Linear_forward. rewrite Hlinear. simpl. split.
  - rewrite <- (Embedding_forward_shape _ _ _ Hemb), <- Hshape.
    clear. induction dec_out as [|row rest IH]; [done|].
    simpl. by rewrite length_map, <- IH.
  - apply Forall_forall. intros row Hrow.
    apply list_elem_of_fmap in Hrow as (row' & -> & _).
    apply Forall_forall. intros scores Hs.
    apply list_elem_of_fmap in Hs as (v & -> & _). apply Hlin.
Qed.

End NetworkFacts.

(** ** train.py *)

Section TrainFacts.

Context {scalar Params Grad OptState Generator : Type}.
Variable model :
  Params -> bool -> Generator -> list (list Z) -> list (list Z) ->
  result (list (list (list scalar)) * Generator).
Variable transpose_1_2 : list (list (list scalar)) -> list (list (list scalar)).
Variable criterion : list (list (list scalar)) -> list (list Z) -> result scalar.
Variable autograd :
  Params -> bool -> Generator -> list (list Z) * list (list Z) ->
  list (list Z) -> Grad.
Variable accumulate : Grad -> Grad -> Grad.
Variable optimizer_step :
  OptState -> Params -> option Grad -> OptState * Params.
Variable argmax : list scalar -> Z.
Variable tracked : gmap string (scalar -> list Z -> list Z -> scalar).

Local Abbreviation state := (@Train.state scalar Params Grad OptState Generator).
Local Abbreviation event := (@Train.event scalar Grad).
Local Abbreviation train_body :=
  (Train.train_body model transpose_1_2 criterion autograd accumulate
                    optimizer_step argmax tracked).
Local Abbreviation train_loop :=
  (Train.train_loop model transpose_1_2 criterion autograd accumulate
                    optimizer_step argmax tracked).
Local Abbreviation train_epoch :=
  (Train.train_epoch model transpose_1_2 criterion autograd accumulate
                     optimizer_step argmax tracked).
Local Abbreviation validate_body :=
  (Train.validate_body (Params := Params) (Grad := Grad) (OptState := OptState)
                       model transpose_1_2 criterion argmax tracked).
Local Abbreviation validate_loop :=
  (Train.validate_loop (Params := Params) (Grad := Grad) (OptState := OptState)
                       model transpose_1_2 criterion argmax tracked).
Local Abbreviation validate_epoch :=
  (Train.validate_epoch (Params := Params) (Grad := Grad) (OptState := OptState)
                        model transpose_1_2 criterion argmax tracked).
Local Abbreviation calculate_metrics := (Train.calculate_metrics tracked).
Local Abbreviation replay := (Train.replay tracked).


Lemma omap_app_events {X : Type} (f : event -> option X) (l1 l2 : list event) :
  omap f (l1 ++ l2) = omap f l1 ++ omap f l2.
Proof. apply omap_app. Qed.

(** *** One loop body, case by case *)

Ltac after_zero_grad Hm Hc Ho :=
  simpl; eexists; rewrite <- !app_assoc; split; [reflexivity|];
  split; [done|]; right; right; eexists _, _, _; simpl;
  split; [first [exact Hm|reflexivity]|];
  split; [first [exact Hc|reflexivity]|];
  split; [first [exact Ho|reflexivity]|];
  split; [reflexivity|]; split; [done|].

(** Every run of the body of [train_epoch]'s loop is one of: the model
    raised and nothing happened; the criterion raised after the forward
    pass; or the forward pass, the loss, backward, step and zero_grad all
    happened, followed by an [IndexError] of the label extraction, or by the
    metrics call and a [ZeroDivisionError] of the report test, or by the
    metrics call and the report when it is due. *)
Lemma train_body_run (N : Z) (v : bool) (i : Z)
    (b : list (list Z) * list (list Z)) (m : gmap string (list scalar))
    (s s1 : state) (r : result (gmap string (list scalar))) :
  train_body N v i b m s = (r, s1) ->
  exists evs,
    Train.trace s1 = Train.trace s ++ evs
    /\ Train.training s1 = Train.training s
    /\ ((exists e,
           model (Train.params s) (Train.training s) (Train.gen s) b.1
                 (map Py.all_but_last b.2) = Raise e
           /\ evs = [] /\ s1 = s /\ r = Raise e)
        \/ (exists outputs e,
              model (Train.params s) (Train.training s) (Train.gen s) b.1
                    (map Py.all_but_last b.2) = Ok (outputs, Train.gen s1)
              /\ criterion (transpose_1_2 outputs) (Train.teacher_targets b)
                 = Raise e
              /\ evs = [Train.EvForward true (Train.training s) b.1
                          (map Py.all_but_last b.2) outputs]
              /\ r = Raise e
              /\ Train.params s1 = Train.params s
              /\ Train.grads s1 = Train.grads s
              /\ Train.opt_state s1 = Train.opt_state s)
        \/ (exists outputs loss tail,
              let g := autograd (Train.params s) (Train.training s)
                         (Train.gen s) (Train.teacher_inputs b)
                         (Train.teacher_targets b) in
              let stored := match Train.grads s with
                            | None => g
                            | Some g0 => accumulate g0 g
                            end in
              model (Train.params s) (Train.training s) (Train.gen s) b.1
                    (map Py.all_but_last b.2) = Ok (outputs, Train.gen s1)
              /\ criterion (transpose_1_2 outputs) (Train.teacher_targets b)
                 = Ok loss
              /\ optimizer_step (Train.opt_state s) (Train.params s)
                                (Some stored)
                 = (Train.opt_state s1, Train.params s1)
              /\ evs = [Train.EvForward true (Train.training s) b.1
                          (map Py.all_but_last b.2) outputs;
                        Train.EvCriterion true (transpose_1_2 outputs)
                          (Train.teacher_targets b) loss;
                        Train.EvBackward g;
                        Train.EvStep (Some stored);
                        Train.EvZeroGrad] ++ tail
              /\ Train.grads s1 = None
              /\ ((tail = [] /\ r = Raise IndexError
                   /\ (head (Train.teacher_targets b) = None
                       \/ head (Train.argmax_last argmax outputs) = None))
                  \/ (exists y_true y_pred,
                        head (Train.teacher_targets b) = Some y_true
                        /\ head (Train.argmax_last argmax outputs) = Some y_pred
                        /\ ((tail = [Train.EvMetrics loss y_true y_pred]
                             /\ r = Raise ZeroDivisionError
                             /\ v = true /\ N = 0)
                            \/ (r = Ok (calculate_metrics m loss y_true y_pred)
                                /\ (v = true -> N <> 0)
                                /\ tail
                                   = Train.EvMetrics loss y_true y_pred
                                     :: (if v && (i mod N =? 0)
                                         then [Train.EvPrintMean
                                                 (Train.report_windows N
                                                    (calculate_metrics m loss
                                                       y_true y_pred))]
                                         else []))))))).
Proof.
  destruct b as [from_seq to_seq]. unfold Train.teacher_inputs,
    Train.teacher_targets. simpl.
  unfold Train.train_body, Train.to_device, Utils.to_numpy.
  unfold Train.bind at 1. unfold Train.call_model. simpl.
  destruct (model _ _ _ _ _) as [[outputs g']|e] eqn:Hm.
  2:{ intros [= <- <-]. exists []. rewrite app_nil_r.
      split; [done|]. split; [done|]. left. by exists e. }
  unfold Train.bind at 1. unfold Train.call_criterion, Train.lift.
  unfold Train.bind at 1. simpl.
  destruct (criterion _ _) as [loss|e] eqn:Hc.
  2:{ intros [= <- <-]. simpl. eexists. split; [reflexivity|].
      split; [done|]. right. left. by exists outputs, e. }
  unfold Train.bind at 1. unfold Train.emit, Train.ret. simpl.
  unfold Train.bind at 1. unfold Train.loss_backward. simpl.
  unfold Train.bind at 1. unfold Train.optimizer_step_. simpl.
  destruct (optimizer_step _ _ _) as [o p] eqn:Ho.
  unfold Train.bind at 1. unfold Train.optimizer_zero_grad. simpl.
  unfold Train.bind at 1. rewrite getitem_0. simpl.
  destruct (map Py.all_but_first to_seq) as [|y_true rest] eqn:Ht.
  { intros [= <- <-]. after_zero_grad Hm Hc Ho. left. auto. }
  unfold Train.bind at 1. rewrite getitem_0. simpl.
  destruct (Train.argmax_last argmax outputs) as [|y_pred rest'] eqn:Ha.
  { intros [= <- <-]. after_zero_grad Hm Hc Ho. left. rewrite Ha. auto. }
  unfold Train.bind at 1. unfold Train.call_metrics.
  unfold Train.bind at 1. unfold Train.emit, Train.ret. simpl.
  destruct v; simpl.
  - unfold Train.bind at 1. unfold Train.bind at 1. unfold Train.lift, Py.mod_.
    destruct (N =? 0) eqn:HN; simpl.
    + apply Z.eqb_eq in HN. intros [= <- <-]. after_zero_grad Hm Hc Ho.
      right. exists y_true, y_pred. rewrite Ha.
      split; [done|]. split; [done|]. by left.
    + apply Z.eqb_neq in HN. destruct (i mod N =? 0) eqn:Hmod; simpl.
      * intros [= <- <-]. after_zero_grad Hm Hc Ho.
        right. exists y_true, y_pred. rewrite Ha.
        split; [done|]. split; [done|]. by right.
      * intros [= <- <-]. after_zero_grad Hm Hc Ho.
        right. exists y_true, y_pred. rewrite Ha.
        split; [done|]. split; [done|]. by right.
  - unfold Train.bind at 1. intros [= <- <-]. after_zero_grad Hm Hc Ho.
    right. exists y_true, y_pred. rewrite Ha.
    split; [done|]. split; [done|]. by right.
Qed.

(** The same for the body of [validate_epoch]'s loop: no backward, step
    or zero_grad, no report, and nothing but the generator and the trace
    changes. *)
Lemma validate_body_run (b : list (list Z) * list (list Z))
    (m : gmap string (list scalar)) (s s1 : state)
    (r : result (gmap string (list scalar))) :
  validate_body b m s = (r, s1) ->
  Train.params s1 = Train.params s
  /\ Train.grads s1 = Train.grads s
  /\ Train.opt_state s1 = Train.opt_state s
  /\ Train.training s1 = Train.training s
  /\ exists evs,
       Train.trace s1 = Train.trace s ++ evs
       /\ ((exists e,
              model (Train.params s) (Train.training s) (Train.gen s) b.1
                    (map Py.all_but_last b.2) = Raise e
              /\ evs = [] /\ s1 = s /\ r = Raise e)
           \/ (exists outputs e,
                 model (Train.params s) (Train.training s) (Train.gen s) b.1
                       (map Py.all_but_last b.2) = Ok (outputs, Train.gen s1)
                 /\ criterion (transpose_1_2 outputs) (Train.teacher_targets b)
                    = Raise e
                 /\ evs = [Train.EvForward false (Train.training s) b.1
                             (map Py.all_but_last b.2) outputs]
                 /\ r = Raise e)
           \/ (exists outputs loss tail,
                 model (Train.params s) (Train.training s) (Train.gen s) b.1
                       (map Py.all_but_last b.2) = Ok (outputs, Train.gen s1)
                 /\ criterion (transpose_1_2 outputs) (Train.teacher_targets b)
                    = Ok loss
                 /\ evs = [Train.EvForward false (Train.training s) b.1
                             (map Py.all_but_last b.2) outputs;
                           Train.EvCriterion false (transpose_1_2 outputs)
                             (Train.teacher_targets b) loss] ++ tail
                 /\ ((tail = [] /\ r = Raise IndexError
                      /\ (head (Train.teacher_targets b) = None
                          \/ head (Train.argmax_last argmax outputs) = None))
                     \/ (exists y_true y_pred,
                           head (Train.teacher_targets b) = Some y_true
                           /\ head (Train.argmax_last argmax outputs)
                              = Some y_pred
                           /\ r = Ok (calculate_metrics m loss y_true y_pred)
                           /\ tail = [Train.EvMetrics loss y_true y_pred])))).
Proof.
  destruct b as [from_seq to_seq]. unfold Train.teacher_inputs,
    Train.teacher_targets. simpl.
  unfold Train.validate_body, Train.to_device, Utils.to_numpy.
  unfold Train.bind at 1. unfold Train.call_model. simpl.
  destruct (model _ _ _ _ _) as [[outputs g']|e] eqn:Hm.
  2:{ intros [= <- <-]. repeat (split; [done|]). exists [].
      rewrite app_nil_r. split; [done|]. left. by exists e. }
  unfold Train.bind at 1. unfold Train.call_criterion, Train.lift.
  unfold Train.bind at 1. simpl.
  destruct (criterion _ _) as [loss|e] eqn:Hc.
  2:{ intros [= <- <-]. simpl. repeat (split; [done|]). eexists.
      split; [reflexivity|]. right. left. by exists outputs, e. }
  unfold Train.bind at 1. unfold Train.emit, Train.ret. simpl.
  unfold Train.bind at 1. rewrite getitem_0. simpl.
  destruct (map Py.all_but_first to_seq) as [|y_true rest] eqn:Ht.
  { intros [= <- <-]. simpl. repeat (split; [done|]). eexists.
    rewrite <- !app_assoc. split; [reflexivity|]. right. right.
    exists outputs, loss, []. repeat (split; [done|]). left. auto. }
  unfold Train.bind at 1. rewrite getitem_0. simpl.
  destruct (Train.argmax_last argmax outputs) as [|y_pred rest'] eqn:Ha.
  { intros [= <- <-]. simpl. repeat (split; [done|]). eexists.
    rewrite <- !app_assoc. split; [reflexivity|]. right. right.
    exists outputs, loss, []. repeat (split; [done|]). left.
    rewrite Ha. auto. }
  unfold Train.call_metrics.
  unfold Train.bind at 1. unfold Train.emit, Train.ret. simpl.
  intros [= <- <-]. simpl. repeat (split; [done|]). eexists.
  rewrite <- !app_assoc. split; [reflexivity|]. right. right.
  eexists outputs, loss, _. repeat (split; [done|]). right.
  exists y_true, y_pred. by rewrite Ha.
Qed.

(** *** The loops *)

Lemma train_loop_cons (N : Z) (v : bool) (i : Z)
    (b : list (list Z) * list (list Z))
    (rest : list (list (list Z) * list (list Z)))
    (m : gmap string (list scalar)) (s : state) :
  train_loop N v i (b :: rest) m s
  = match train_body N v i b m s with
    | (Ok m1, s1) => train_loop N v (i + 1) rest m1 s1
    | (Raise e, s1) => (Raise e, s1)
    end.
Proof. reflexivity. Qed.

Lemma validate_loop_cons (b : list (list Z) * list (list Z))
    (rest : list (list (list Z) * list (list Z)))
    (m : gmap string (list scalar)) (s : state) :
  validate_loop (b :: rest) m s
  = match validate_body b m s with
    | (Ok m1, s1) => validate_loop rest m1 s1
    | (Raise e, s1) => (Raise e, s1)
    end.
Proof. reflexivity. Qed.

Lemma train_epoch_unfold (bs : list (list (list Z) * list (list Z)))
    (N : Z) (v : bool) (s : state) :
  train_epoch bs N v s
  = train_loop N v 0 bs ∅
      {| Train.params := Train.params s; Train.grads := Train.grads s;
         Train.opt_state := Train.opt_state s; Train.training := true;
         Train.gen := Train.gen s;
         Train.trace := Train.trace s ++ [Train.EvMode true] |}.
Proof. unfold Train.train_epoch, Py.tqdm. by destruct v. Qed.

Lemma validate_epoch_unfold (bs : list (list (list Z) * list (list Z)))
    (v : bool) (s : state) :
  validate_epoch bs v s
  = validate_loop bs ∅
      {| Train.params := Train.params s; Train.grads := Train.grads s;
         Train.opt_state := Train.opt_state s; Train.training := false;
         Train.gen := Train.gen s;
         Train.trace := Train.trace s ++ [Train.EvMode false] |}.
Proof. unfold Train.validate_epoch, Py.tqdm. by destruct v. Qed.

(** Gradient events of the training loop. *)
Lemma train_loop_grads (bs : list (list (list Z) * list (list Z))) :
  forall (N : Z) (v : bool) (i : Z) (m : gmap string (list scalar))
         (s s' : state) (r : result (gmap string (list scalar))),
    train_loop N v i bs m s = (r, s') ->
    exists evs gs,
      Train.trace s' = Train.trace s ++ evs
      /\ Train.grad_events evs = Train.grad_blocks accumulate (Train.grads s) gs
      /\ (length gs <= length bs)%nat
      /\ (is_ok r = true -> length gs = length bs)
      /\ (gs <> [] -> Train.grads s' = None)
      /\ (gs = [] -> Train.grads s' = Train.grads s).
Proof.
  induction bs as [|b rest IH]; intros N v i m s s' r Hrun.
  - injection Hrun as <- <-. exists [], []. rewrite app_nil_r. simpl.
    repeat split; auto. done.
  - rewrite train_loop_cons in Hrun.
    destruct (train_body N v i b m s) as [r1 s1] eqn:Hb.
    destruct (train_body_run _ _ _ _ _ _ _ _ Hb)
      as (evs & Htr & _ & [Hc|[Hc|Hc]]).
    + destruct Hc as (e & _ & -> & -> & ->). injection Hrun as <- <-.
      exists [], []. rewrite app_nil_r. simpl. repeat split; auto; [lia|done..].
    + destruct Hc as (o & e & _ & _ & -> & -> & _ & Hg & _).
      injection Hrun as <- <-. eexists _, []. split; [exact Htr|]. simpl.
      repeat split; auto; [lia|done..].
    + destruct Hc as (o & loss & tail & _ & _ & _ & -> & Hg & Htail).
      assert (Hge : Train.grad_events tail = []).
      { destruct Htail as [(-> & _)|(yt & yp & _ & _ & [(-> & _)|(_ & _ & ->)])];
          try done. by destruct (v && (i mod N =? 0)). }
      destruct r1 as [m1|e].
      * destruct (IH _ _ _ _ _ _ _ Hrun) as (evs' & gs' & Htr' & Hge' & Hl & Hok & Hne & Hnil).
        eexists _, (_ :: gs'). split.
        { rewrite Htr', Htr, <- app_assoc. reflexivity. }
        unfold Train.grad_events in *. rewrite !omap_app. simpl.
        rewrite Hge. simpl. rewrite Hge', Hg. simpl.
        repeat split; auto; [lia| |done].
        intros _. destruct gs' as [|g gs']; [by rewrite Hnil|by apply Hne].
      * injection Hrun as <- <-. eexists _, [_]. split; [exact Htr|].
        unfold Train.grad_events in *. rewrite !omap_app. simpl.
        rewrite Hge. simpl. repeat split; auto; [lia|done..].
Qed.

(** C5: in every run of [train_epoch], whether it returns or raises, the
    gradient events are, batch after batch, backward, step, zero_grad in
    that order; the step of every batch but the first acts on the gradient
    of its own backward pass alone (the first adds it to whatever gradient
    was stored on entry), and once a batch went through them the stored
    gradient is cleared. *)
Theorem backward_step_zero_grad_order
    (bs : list (list (list Z) * list (list Z))) (N : Z) (v : bool)
    (s s' : state) (r : result (gmap string (list scalar))) :
  train_epoch bs N v s = (r, s') ->
  exists evs gs,
    Train.trace s' = Train.trace s ++ evs
    /\ Train.grad_events evs = Train.grad_blocks accumulate (Train.grads s) gs
    /\ (length gs <= length bs)%nat
    /\ (is_ok r = true -> length gs = length bs)
    /\ (gs <> [] -> Train.grads s' = None).
Proof.
  rewrite train_epoch_unfold. intros Hrun.
  destruct (train_loop_grads _ _ _ _ _ _ _ _ Hrun)
    as (evs & gs & Htr & Hge & Hl & Hok & Hne & _).
  simpl in *. exists (Train.EvMode true :: evs), gs.
  rewrite Htr, <- app_assoc. auto.
Qed.

(** Frame and events of the validation loop. *)
Lemma validate_loop_frame (bs : list (list (list Z) * list (list Z))) :
  forall (m : gmap string (list scalar)) (s s' : state)
         (r : result (gmap string (list scalar))),
    validate_loop bs m s = (r, s') ->
    Train.training s = false ->
    Train.params s' = Train.params s
    /\ Train.grads s' = Train.grads s
    /\ Train.opt_state s' = Train.opt_state s
    /\ Train.training s' = false
    /\ exists evs,
         Train.trace s' = Train.trace s ++ evs
         /\ Forall Train.inference_only evs.
Proof.
  induction bs as [|b rest IH]; intros m s s' r Hrun Hmode.
  - injection Hrun as <- <-. repeat (split; [done|]). exists [].
    by rewrite app_nil_r.
  - rewrite validate_loop_cons in Hrun.
    destruct (validate_body b m s) as [r1 s1] eqn:Hb.
    destruct (validate_body_run _ _ _ _ _ Hb)
      as (Hp & Hg & Ho & Ht & evs & Htr & Hc).
    assert (Hevs : Forall Train.inference_only evs).
    { destruct Hc as [Hc|[Hc|Hc]].
      - by destruct Hc as (e & _ & -> & _).
      - destruct Hc as (o & e & _ & _ & -> & _). by repeat constructor.
      - destruct Hc as (o & loss & tail & _ & _ & -> & Htail).
        destruct Htail as [(-> & _)|(yt & yp & _ & _ & _ & ->)];
          by repeat constructor. }
    destruct r1 as [m1|e].
    + destruct (IH _ _ _ _ Hrun) as (Hp' & Hg' & Ho' & Ht' & evs' & Htr' & He');
        [congruence|].
      repeat (split; [congruence|]). exists (evs ++ evs'). split.
      * by rewrite Htr', Htr, <- app_assoc.
      * by apply Forall_app.
    + injection Hrun as <- <-. repeat (split; [congruence|]). by exists evs.
Qed.

(** C6: [validate_epoch] leaves the parameters, the stored gradient and the
    optimizer's state as they were, whether it returns or raises; it leaves
    the model in inference mode; and each of its events is the switch to
    inference mode, a forward pass or a loss computed with the training flag
    off and without autograd recording, or a metrics call: no backward, no
    step, no zero_grad. *)
Theorem validate_epoch_frame
    (bs : list (list (list Z) * list (list Z))) (v : bool)
    (s s' : state) (r : result (gmap string (list scalar))) :
  validate_epoch bs v s = (r, s') ->
  Train.params s' = Train.params s
  /\ Train.grads s' = Train.grads s
  /\ Train.opt_state s' = Train.opt_state s
  /\ Train.training s' = false
  /\ exists evs,
       Train.trace s' = Train.trace s ++ evs
       /\ Forall Train.inference_only evs
       /\ Train.grad_events evs = [].
Proof.
  rewrite validate_epoch_unfold. intros Hrun.
  destruct (validate_loop_frame _ _ _ _ _ Hrun eq_refl)
    as (Hp & Hg & Ho & Ht & evs & Htr & He).
  simpl in *. repeat (split; [done|]).
  exists (Train.EvMode false :: evs). rewrite Htr, <- app_assoc.
  split; [done|]. split; [by constructor|].
  clear -He. induction He as [|e evs He _ IH]; [done|].
  unfold Train.grad_events in *. simpl.
  destruct e; simpl in *; try done.
Qed.

(** *** The events of one batch *)

Lemma head_map {A B : Type} (f : A -> B) (l : list A) (y : B) :
  head (map f l) = Some y -> exists x, head l = Some x /\ y = f x.
Proof. destruct l as [|x l]; [done|]. intros [= <-]. by exists x. Qed.

(** The two slices of the drivers, [row[:-1]] and [row[1:]], in terms of
    the positions kept. *)
Lemma all_but_last_take {A : Type} (l : list A) :
  Py.all_but_last l = take (length l - 1) l.
Proof.
  unfold Py.all_but_last. rewrite removelast_firstn_len.
  by rewrite Nat.sub_1_r.
Qed.

Lemma all_but_first_drop {A : Type} (l : list A) :
  Py.all_but_first l = drop 1 l.
Proof. by destruct l. Qed.

Lemma teacher_inputs_take (to_seq : list (list Z)) :
  map Py.all_but_last to_seq = map (fun row => take (length row - 1) row) to_seq.
Proof. apply map_ext. intros row. apply all_but_last_take. Qed.

Lemma teacher_targets_drop (to_seq : list (list Z)) :
  map Py.all_but_first to_seq = map (drop 1) to_seq.
Proof. apply map_ext. intros row. apply all_but_first_drop. Qed.

Ltac invert_mem H :=
  repeat first
    [ apply elem_of_nil in H; destruct H
    | apply elem_of_cons in H; destruct H as [H|H]; [try discriminate H|] ].

Lemma labels_intro (b : list (list Z) * list (list Z)) (evs : list event)
    (outputs : list (list (list scalar))) (loss : scalar)
    (y_true y_pred : list Z) (grad_enabled : bool) :
  (forall l y p, Train.EvMetrics l y p ∈ evs ->
                 l = loss /\ y = y_true /\ p = y_pred) ->
  Train.forward_returns evs = [outputs] ->
  head (Train.teacher_targets b) = Some y_true ->
  head (Train.argmax_last argmax outputs) = Some y_pred ->
  criterion (transpose_1_2 outputs) (Train.teacher_targets b) = Ok loss ->
  Train.EvCriterion grad_enabled (transpose_1_2 outputs)
    (Train.teacher_targets b) loss ∈ evs ->
  Train.labels_from_first_row transpose_1_2 criterion argmax b evs.
Proof.
  intros Honly Hfr Hyt Hyp Hloss Hcrit l y p Hin.
  destruct (Honly _ _ _ Hin) as (-> & -> & ->). split.
  - apply head_map in Hyt as (row0 & ? & ?). by exists row0.
  - apply head_map in Hyp as (out0 & ? & ?). exists outputs, out0.
    repeat split; try done. by exists grad_enabled.
Qed.

Lemma labels_vacuous (b : list (list Z) * list (list Z)) (evs : list event) :
  (forall l y p, Train.EvMetrics l y p ∉ evs) ->
  Train.labels_from_first_row transpose_1_2 criterion argmax b evs.
Proof. intros Hno l y p Hin. by destruct (Hno l y p). Qed.

Ltac teacher_forced_events b :=
  repeat (apply Forall_cons; split; [by destruct b|]); apply Forall_nil_2.

Lemma train_body_block (N : Z) (v : bool) (i : Z)
    (b : list (list Z) * list (list Z)) (m : gmap string (list scalar))
    (s s1 : state) (r : result (gmap string (list scalar))) :
  train_body N v i b m s = (r, s1) ->
  exists evs,
    Train.trace s1 = Train.trace s ++ evs
    /\ Forall (Train.teacher_forced b) evs
    /\ Train.labels_from_first_row transpose_1_2 criterion argmax b evs
    /\ (is_ok r = true ->
        length (Train.forward_calls evs) = 1%nat
        /\ length (Train.criterion_calls evs) = 1%nat
        /\ length (Train.metric_calls evs) = 1%nat).
Proof.
  intros Hb.
  destruct (train_body_run _ _ _ _ _ _ _ _ Hb) as (evs & Htr & _ & Hc).
  exists evs. split; [done|].
  destruct Hc as [Hc|[Hc|Hc]].
  - destruct Hc as (e & _ & -> & _ & ->). split_and!; try done.
    apply labels_vacuous. intros l y p Hin. invert_mem Hin.
  - destruct Hc as (o & e & _ & _ & -> & -> & _). split_and!; try done.
    + teacher_forced_events b.
    + apply labels_vacuous. intros l y p Hin. invert_mem Hin.
  - destruct Hc as (o & loss & tail & _ & Hloss & _ & -> & _ & Htail).
    destruct Htail as [(-> & -> & _)|(yt & yp & Hyt & Hyp & Htail)].
    + split_and!; try done.
      * teacher_forced_events b.
      * apply labels_vacuous. intros l y p Hin. invert_mem Hin.
    + destruct Htail as [(-> & -> & _)|(-> & _ & ->)].
      * split_and!; try done.
        -- simpl. teacher_forced_events b.
        -- eapply (labels_intro _ _ o loss yt yp true); try done.
           ++ intros l y p Hin. simpl in Hin. invert_mem Hin. by simplify_eq.
           ++ simpl. set_solver.
      * destruct (v && (i mod N =? 0)); split_and!; try done.
        -- simpl. teacher_forced_events b.
        -- eapply (labels_intro _ _ o loss yt yp true); try done.
           ++ intros l y p Hin. simpl in Hin. invert_mem Hin. by simplify_eq.
           ++ simpl. set_solver.
        -- simpl. teacher_forced_events b.
        -- eapply (labels_intro _ _ o loss yt yp true); try done.
           ++ intros l y p Hin. simpl in Hin. invert_mem Hin. by simplify_eq.
           ++ simpl. set_solver.
Qed.

Lemma validate_body_block (b : list (list Z) * list (list Z))
    (m : gmap string (list scalar)) (s s1 : state)
    (r : result (gmap string (list scalar))) :
  validate_body b m s = (r, s1) ->
  exists evs,
    Train.trace s1 = Train.trace s ++ evs
    /\ Forall (Train.teacher_forced b) evs
    /\ Train.labels_from_first_row transpose_1_2 criterion argmax b evs
    /\ (is_ok r = true ->
        length (Train.forward_calls evs) = 1%nat
        /\ length (Train.criterion_calls evs) = 1%nat
        /\ length (Train.metric_calls evs) = 1%nat).
Proof.
  intros Hb.
  destruct (validate_body_run _ _ _ _ _ Hb)
    as (_ & _ & _ & _ & evs & Htr & Hc).
  exists evs. split; [done|].
  destruct Hc as [Hc|[Hc|Hc]].
  - destruct Hc as (e & _ & -> & _ & ->). split_and!; try done.
    apply labels_vacuous. intros l y p Hin. invert_mem Hin.
  - destruct Hc as (o & e & _ & _ & -> & ->). split_and!; try done.
    + teacher_forced_events b.
    + apply labels_vacuous. intros l y p Hin. invert_mem Hin.
  - destruct Hc as (o & loss & tail & _ & Hloss & -> & Htail).
    destruct Htail as [(-> & -> & _)|(yt & yp & Hyt & Hyp & -> & ->)].
    + split_and!; try done.
      * teacher_forced_events b.
      * apply labels_vacuous. intros l y p Hin. invert_mem Hin.
    + split_and!; try done.
      * simpl. teacher_forced_events b.
      * eapply (labels_intro _ _ o loss yt yp false); try done.
        -- intros l y p Hin. simpl in Hin. invert_mem Hin. by simplify_eq.
        -- simpl. set_solver.
Qed.

(** *** The events of an epoch, batch by batch *)

Lemma train_loop_blocks (bs : list (list (list Z) * list (list Z))) :
  forall (N : Z) (v : bool) (i : Z) (m : gmap string (list scalar))
         (s s' : state) (r : result (gmap string (list scalar))),
    train_loop N v i bs m s = (r, s') ->
    exists blocks : list (list event),
      Train.trace s' = Train.trace s ++ concat blocks
      /\ (length blocks <= length bs)%nat
      /\ (is_ok r = true ->
          length blocks = length bs
          /\ Forall (fun evs =>
                       length (Train.forward_calls evs) = 1%nat
                       /\ length (Train.criterion_calls evs) = 1%nat
                       /\ length (Train.metric_calls evs) = 1%nat) blocks)
      /\ Forall2 (fun b evs =>
                    Forall (Train.teacher_forced b) evs
                    /\ Train.labels_from_first_row transpose_1_2 criterion argmax b evs)
                 (take (length blocks) bs) blocks.
Proof.
  induction bs as [|b rest IH]; intros N v i m s s' r Hrun.
  - injection Hrun as <- <-. exists []. simpl. rewrite app_nil_r.
    split_and!; try done.
  - rewrite train_loop_cons in Hrun.
    destruct (train_body N v i b m s) as [r1 s1] eqn:Hb.
    destruct (train_body_block _ _ _ _ _ _ _ _ Hb)
      as (evs & Htr & Htf & Hlab & Hone).
    destruct r1 as [m1|e].
    + destruct (IH _ _ _ _ _ _ _ Hrun) as (blocks & Htr' & Hle & Hok & Hall).
      exists (evs :: blocks). simpl. split_and!.
      * by rewrite Htr', Htr, <- app_assoc.
      * lia.
      * intros Hr. destruct (Hok Hr) as [Hlen Hcalls]. split; [by f_equal|].
        constructor; [by apply Hone|done].
      * by constructor.
    + injection Hrun as <- <-. exists [evs]. simpl. rewrite app_nil_r.
      split_and!; try done; [lia|]. constructor; [done|constructor].
Qed.

Lemma validate_loop_blocks (bs : list (list (list Z) * list (list Z))) :
  forall (m : gmap string (list scalar)) (s s' : state)
         (r : result (gmap string (list scalar))),
    validate_loop bs m s = (r, s') ->
    exists blocks : list (list event),
      Train.trace s' = Train.trace s ++ concat blocks
      /\ (length blocks <= length bs)%nat
      /\ (is_ok r = true ->
          length blocks = length bs
          /\ Forall (fun evs =>
                       length (Train.forward_calls evs) = 1%nat
                       /\ length (Train.criterion_calls evs) = 1%nat
                       /\ length (Train.metric_calls evs) = 1%nat) blocks)
      /\ Forall2 (fun b evs =>
                    Forall (Train.teacher_forced b) evs
                    /\ Train.labels_from_first_row transpose_1_2 criterion argmax b evs)
                 (take (length blocks) bs) blocks.
Proof.
  induction bs as [|b rest IH]; intros m s s' r Hrun.
  - injection Hrun as <- <-. exists []. simpl. rewrite app_nil_r.
    split_and!; try done.
  - rewrite validate_loop_cons in Hrun.
    destruct (validate_body b m s) as [r1 s1] eqn:Hb.
    destruct (validate_body_block _ _ _ _ _ Hb)
      as (evs & Htr & Htf & Hlab & Hone).
    destruct r1 as [m1|e].
    + destruct (IH _ _ _ _ Hrun) as (blocks & Htr' & Hle & Hok & Hall).
      exists (evs :: blocks). simpl. split_and!.
      * by rewrite Htr', Htr, <- app_assoc.
      * lia.
      * intros Hr. destruct (Hok Hr) as [Hlen Hcalls]. split; [by f_equal|].
        constructor; [by apply Hone|done].
      * by constructor.
    + injection Hrun as <- <-. exists [evs]. simpl. rewrite app_nil_r.
      split_and!; try done; [lia|]. constructor; [done|constructor].
Qed.

(** The events of either driver: the switch of mode, then one block of
    events per batch, in the order of the batches. *)
Lemma epoch_blocks (bs : list (list (list Z) * list (list Z))) (N : Z)
    (v mode : bool) (s s' : state) (r : result (gmap string (list scalar))) :
  (mode = true /\ train_epoch bs N v s = (r, s'))
  \/ (mode = false /\ validate_epoch bs v s = (r, s')) ->
  exists blocks : list (list event),
    Train.trace s' = Train.trace s ++ Train.EvMode mode :: concat blocks
    /\ (length blocks <= length bs)%nat
    /\ (is_ok r = true ->
        length blocks = length bs
        /\ Forall (fun evs =>
                     length (Train.forward_calls evs) = 1%nat
                     /\ length (Train.criterion_calls evs) = 1%nat
                     /\ length (Train.metric_calls evs) = 1%nat) blocks)
    /\ Forall2 (fun b evs =>
                  Forall (Train.teacher_forced b) evs
                  /\ Train.labels_from_first_row transpose_1_2 criterion argmax b evs)
               (take (length blocks) bs) blocks.
Proof.
  intros [[-> Hrun]|[-> Hrun]].
  - rewrite train_epoch_unfold in Hrun.
    destruct (train_loop_blocks _ _ _ _ _ _ _ _ Hrun)
      as (blocks & Htr & Hrest). simpl in Htr.
    exists blocks. split; [|done]. by rewrite Htr, <- app_assoc.
  - rewrite validate_epoch_unfold in Hrun.
    destruct (validate_loop_blocks _ _ _ _ _ Hrun)
      as (blocks & Htr & Hrest). simpl in Htr.
    exists blocks. split; [|done]. by rewrite Htr, <- app_assoc.
Qed.

(** C2: in a run of [train_epoch] ([mode = true]) as in a run of
    [validate_epoch] ([mode = false]), the events after the switch of mode
    come in one block per batch, in order, and within the block of the
    batch [(from_seq, to_seq)]: every call of the model gets [from_seq]
    and the rows of [to_seq] cut to all their positions but the last one;
    every call of the criterion gets the rows of [to_seq] without their
    first position; and the true labels of every metrics call are the
    first row of that same target.  When the run returns, every batch has
    its block, with exactly one call of each. *)
Theorem teacher_forcing_split
    (bs : list (list (list Z) * list (list Z))) (N : Z) (v mode : bool)
    (s s' : state) (r : result (gmap string (list scalar))) :
  (mode = true /\ train_epoch bs N v s = (r, s'))
  \/ (mode = false /\ validate_epoch bs v s = (r, s')) ->
  exists blocks : list (list event),
    Train.trace s' = Train.trace s ++ Train.EvMode mode :: concat blocks
    /\ (length blocks <= length bs)%nat
    /\ (is_ok r = true ->
        length blocks = length bs
        /\ Forall (fun evs =>
                     length (Train.forward_calls evs) = 1%nat
                     /\ length (Train.criterion_calls evs) = 1%nat
                     /\ length (Train.metric_calls evs) = 1%nat) blocks)
    /\ Forall2 (fun b evs =>
                  forall e, e ∈ evs ->
                    match e with
                    | Train.EvForward _ _ from_seq to_seq _ =>
                        from_seq = b.1
                        /\ to_seq
                           = map (fun row => take (length row - 1) row) b.2
                    | Train.EvCriterion _ _ targets _ =>
                        targets = map (drop 1) b.2
                    | Train.EvMetrics _ y_true _ =>
                        head (map (drop 1) b.2) = Some y_true
                    | _ => True
                    end)
               (take (length blocks) bs) blocks.
Proof.
  intros Hrun.
  destruct (epoch_blocks _ _ _ _ _ _ _ Hrun) as (blocks & Htr & Hle & Hok & Hall).
  exists blocks. split_and!; try done.
  eapply Forall2_impl; [exact Hall|].
  intros b evs [Htf _] e He. rewrite Forall_forall in Htf.
  specialize (Htf e He).
  unfold Train.teacher_forced, Train.teacher_inputs, Train.teacher_targets
    in Htf.
  destruct e; try done;
    [injection Htf as -> ->; by rewrite teacher_inputs_take
    |by rewrite <- teacher_targets_drop..].
Qed.

(** *** The accumulator and the periodic report *)

Lemma calculate_metrics_lookup (m : gmap string (list scalar)) (loss : scalar)
    (y_true y_pred : list Z) (k : string) :
  calculate_metrics m loss y_true y_pred !! k
  = match tracked !! k with
    | Some f => Some (default [] (m !! k) ++ [f loss y_true y_pred])
    | None => m !! k
    end.
Proof.
  unfold Train.calculate_metrics. rewrite lookup_union_with, lookup_fmap.
  by destruct (m !! k), (tracked !! k).
Qed.


Lemma replay_lookup (calls : list (scalar * list Z * list Z)) :
  forall (m : gmap string (list scalar)) (k : string),
    calls <> [] ->
    replay calls m !! k
    = match tracked !! k with
      | Some f => Some (default [] (m !! k) ++ Train.raw_values f calls)
      | None => m !! k
      end.
Proof.
  induction calls as [|[[l yt] yp] rest IH]; intros m k Hne; [done|].
  change (replay ((l, yt, yp) :: rest) m)
    with (replay rest (calculate_metrics m l yt yp)).
  destruct rest as [|c rest'].
  - simpl. apply calculate_metrics_lookup.
  - rewrite IH by done. rewrite calculate_metrics_lookup.
    destruct (tracked !! k) as [f|]; [|done]. simpl.
    by rewrite <- app_assoc.
Qed.




Lemma omap_ext_in {X Y : Type} (f g : X -> option Y) (l : list X) :
  (forall x, x ∈ l -> f x = g x) -> omap f l = omap g l.
Proof.
  induction l as [|x l IH]; intros Hfg; [done|].
  cbn [omap list_omap]. rewrite (Hfg x) by (apply elem_of_cons; by left).
  rewrite IH; [done|]. intros y Hy. apply Hfg. apply elem_of_cons. by right.
Qed.

Lemma omap_seq_S {Y : Type} (f : nat -> option Y) (n : nat) :
  omap f (seq 0 (S n))
  = match f 0%nat with Some y => [y] | None => [] end
    ++ omap (fun j => f (S j)) (seq 0 n).
Proof.
  rewrite <- cons_seq, <- seq_shift.
  assert (Hmap : forall l : list nat,
            omap f (map S l) = omap (fun j => f (S j)) l).
  { induction l as [|x l IH]; [done|]. csimpl. by rewrite IH. }
  csimpl. rewrite Hmap. by destruct (f 0%nat).
Qed.

(** A run of the loop that returns called the metrics collaborator once per
    batch, returns the accumulator these calls build, and reported, at the
    batches whose index is a multiple of the frequency, the windows of the
    accumulator of that moment. *)
Lemma train_loop_metrics (bs : list (list (list Z) * list (list Z))) :
  forall (N : Z) (v : bool) (i : Z) (m m' : gmap string (list scalar))
         (s s' : state),
    train_loop N v i bs m s = (Ok m', s') ->
    exists evs,
      Train.trace s' = Train.trace s ++ evs
      /\ length (Train.metric_calls evs) = length bs
      /\ m' = replay (Train.metric_calls evs) m
      /\ (v = true -> bs <> [] -> N <> 0)
      /\ Train.printed evs
         = if v
           then omap (fun j : nat =>
                        if (i + Z.of_nat j) mod N =? 0
                        then Some (Train.report_windows N
                                     (replay (take (S j) (Train.metric_calls evs))
                                             m))
                        else None) (seq 0 (length bs))
           else [].
Proof.
  induction bs as [|b rest IH]; intros N v i m m' s s' Hrun.
  - injection Hrun as <- <-. exists []. rewrite app_nil_r. simpl.
    split_and!; try done. by destruct v.
  - rewrite train_loop_cons in Hrun.
    destruct (train_body N v i b m s) as [r1 s1] eqn:Hb.
    destruct r1 as [m1|e]; [|done].
    destruct (train_body_run _ _ _ _ _ _ _ _ Hb)
      as (evs & Htr & _ & [Hc|[Hc|Hc]]).
    { by destruct Hc as (e & _ & _ & _ & ?). }
    { by destruct Hc as (o & e & _ & _ & _ & ? & _). }
    destruct Hc as (o & loss & tail & _ & _ & _ & -> & _ & Htail).
    destruct Htail as [(_ & ? & _)|(yt & yp & _ & _ & Htail)]; [done|].
    destruct Htail as [(_ & ? & _)|(Hm1 & HN & ->)]; [done|].
    injection Hm1 as ->.
    destruct (IH _ _ _ _ _ _ _ Hrun) as (evs' & Htr' & Hlen & -> & _ & Hpr).
    exists (([Train.EvForward true (Train.training s) b.1
               (map Py.all_but_last b.2) o;
             Train.EvCriterion true (transpose_1_2 o)
               (Train.teacher_targets b) loss;
             Train.EvBackward
               (autograd (Train.params s) (Train.training s) (Train.gen s)
                  (Train.teacher_inputs b) (Train.teacher_targets b));
             Train.EvStep
               (Some match Train.grads s with
                     | Some g0 =>
                         accumulate g0
                           (autograd (Train.params s) (Train.training s)
                              (Train.gen s) (Train.teacher_inputs b)
                              (Train.teacher_targets b))
                     | None =>
                         autograd (Train.params s) (Train.training s)
                           (Train.gen s) (Train.teacher_inputs b)
                           (Train.teacher_targets b)
                     end);
             Train.EvZeroGrad]
            ++ Train.EvMetrics loss yt yp
               :: (if v && (i mod N =? 0)
                   then [Train.EvPrintMean
                           (Train.report_windows N
                              (calculate_metrics m loss yt yp))]
                   else [])) ++ evs').
    split; [by rewrite Htr', Htr, <- app_assoc|].
    assert (Hcalls : forall rest',
              Train.metric_calls
                (([Train.EvForward true (Train.training s) b.1
                     (map Py.all_but_last b.2) o;
                   Train.EvCriterion true (transpose_1_2 o)
                     (Train.teacher_targets b) loss;
                   Train.EvBackward
                     (autograd (Train.params s) (Train.training s)
                        (Train.gen s) (Train.teacher_inputs b)
                        (Train.teacher_targets b));
                   Train.EvStep
                     (Some match Train.grads s with
                           | Some g0 =>
                               accumulate g0
                                 (autograd (Train.params s) (Train.training s)
                                    (Train.gen s) (Train.teacher_inputs b)
                                    (Train.teacher_targets b))
                           | None =>
                               autograd (Train.params s) (Train.training s)
                                 (Train.gen s) (Train.teacher_inputs b)
                                 (Train.teacher_targets b)
                           end);
                   Train.EvZeroGrad]
                  ++ Train.EvMetrics loss yt yp
                     :: (if v && (i mod N =? 0)
                         then [Train.EvPrintMean
                                 (Train.report_windows N
                                    (calculate_metrics m loss yt yp))]
                         else [])) ++ rest')
              = (loss, yt, yp) :: Train.metric_calls rest').
    { intros rest'. unfold Train.metric_calls.
      by destruct (v && (i mod N =? 0)). }
    rewrite Hcalls. clear Hcalls. split_and!; try done.
    + simpl. by rewrite Hlen.
    + intros Hv _. by apply HN.
    + unfold Train.printed in *. rewrite omap_app, Hpr. destruct v.
      * change (length (b :: rest)) with (S (length rest)).
        rewrite omap_seq_S. change (Z.of_nat 0) with 0. rewrite Z.add_0_r.
        rewrite andb_true_l.
        f_equal; [by destruct (i mod N =? 0)|].
        apply omap_ext_in. intros j _.
        by replace (i + 1 + Z.of_nat j) with (i + Z.of_nat (S j)) by lia.
      * done.
Qed.






(** *** Shape of the events of the two drivers *)

Ltac shape_done :=
  split_and!; try done; try (by repeat constructor); try (simpl; lia).

Lemma train_body_shape (N : Z) (v : bool) (i : Z)
    (b : list (list Z) * list (list Z)) (m : gmap string (list scalar))
    (s s1 : state) (r : result (gmap string (list scalar))) :
  train_body N v i b m s = (r, s1) ->
  Train.training s = true ->
  exists evs,
    Train.trace s1 = Train.trace s ++ evs
    /\ Train.training s1 = true
    /\ Train.mode_switches evs = []
    /\ Forall Train.in_training_mode evs
    /\ (length (Train.optimizer_steps evs) <= 1)%nat
    /\ (is_ok r = true -> length (Train.optimizer_steps evs) = 1%nat)
    /\ (v = false -> Train.printed evs = []).
Proof.
  intros Hb Hmode.
  destruct (train_body_run _ _ _ _ _ _ _ _ Hb) as (evs & Htr & Ht & Hc).
  exists evs. split; [done|]. split; [congruence|].
  destruct Hc as [Hc|[Hc|Hc]].
  - destruct Hc as (e & _ & -> & _ & ->). shape_done.
  - destruct Hc as (o & e & _ & _ & -> & -> & _). rewrite Hmode. shape_done.
  - destruct Hc as (o & loss & tail & _ & _ & _ & -> & _ & Htail).
    rewrite Hmode.
    destruct Htail as [(-> & -> & _)|(yt & yp & _ & _ & Htail)].
    + shape_done.
    + destruct Htail as [(-> & -> & Hv & _)|(-> & _ & ->)].
      * shape_done.
      * destruct v; [destruct (i mod N =? 0)|]; shape_done.
Qed.

Lemma train_loop_shape (bs : list (list (list Z) * list (list Z))) :
  forall (N : Z) (v : bool) (i : Z) (m : gmap string (list scalar))
         (s s' : state) (r : result (gmap string (list scalar))),
    train_loop N v i bs m s = (r, s') ->
    Train.training s = true ->
    exists evs,
      Train.trace s' = Train.trace s ++ evs
      /\ Train.training s' = true
      /\ Train.mode_switches evs = []
      /\ Forall Train.in_training_mode evs
      /\ (length (Train.optimizer_steps evs) <= length bs)%nat
      /\ (is_ok r = true -> length (Train.optimizer_steps evs) = length bs)
      /\ (v = false -> Train.printed evs = []).
Proof.
  induction bs as [|b rest IH]; intros N v i m s s' r Hrun Hmode.
  - injection Hrun as <- <-. exists []. rewrite app_nil_r.
    split_and!; try done.
  - rewrite train_loop_cons in Hrun.
    destruct (train_body N v i b m s) as [r1 s1] eqn:Hb.
    destruct (train_body_shape _ _ _ _ _ _ _ _ Hb Hmode)
      as (evs & Htr & Ht & Hms & Hall & Hle & Hok & Hq).
    destruct r1 as [m1|e].
    + destruct (IH _ _ _ _ _ _ _ Hrun Ht)
        as (evs' & Htr' & Ht' & Hms' & Hall' & Hle' & Hok' & Hq').
      exists (evs ++ evs'). unfold Train.mode_switches, Train.optimizer_steps,
        Train.printed in *. rewrite !omap_app, !length_app.
      split; [by rewrite Htr', Htr, <- app_assoc|]. split; [done|].
      split; [by rewrite Hms, Hms'|]. split; [by apply Forall_app|].
      specialize (Hok eq_refl). simpl. split; [lia|].
      split; [intros Hr; specialize (Hok' Hr); lia|].
      intros Hv. by rewrite Hq, Hq'.
    + injection Hrun as <- <-. exists evs. simpl.
      split_and!; try done. lia.
Qed.

Lemma validate_loop_shape (bs : list (list (list Z) * list (list Z))) :
  forall (m : gmap string (list scalar)) (s s' : state)
         (r : result (gmap string (list scalar))),
    validate_loop bs m s = (r, s') ->
    exists evs,
      Train.trace s' = Train.trace s ++ evs
      /\ Train.mode_switches evs = []
      /\ Train.optimizer_steps evs = []
      /\ Train.printed evs = []
      /\ (length (Train.metric_calls evs) <= length bs)%nat
      /\ (forall m', r = Ok m' ->
            length (Train.metric_calls evs) = length bs
            /\ m' = replay (Train.metric_calls evs) m).
Proof.
  induction bs as [|b rest IH]; intros m s s' r Hrun.
  - injection Hrun as <- <-. exists []. rewrite app_nil_r.
    split_and!; try done. by intros m' [= <-].
  - rewrite validate_loop_cons in Hrun.
    destruct (validate_body b m s) as [r1 s1] eqn:Hb.
    destruct (validate_body_run _ _ _ _ _ Hb)
      as (_ & _ & _ & _ & evs & Htr & Hc).
    destruct Hc as [Hc|[Hc|Hc]].
    + destruct Hc as (e & _ & -> & -> & ->). injection Hrun as <- <-.
      exists []. rewrite app_nil_r. shape_done.
    + destruct Hc as (o & e & _ & _ & -> & ->). injection Hrun as <- <-.
      eexists. split; [exact Htr|]. shape_done.
    + destruct Hc as (o & loss & tail & _ & _ & -> & Htail).
      destruct Htail as [(-> & -> & _)|(yt & yp & _ & _ & -> & ->)].
      * injection Hrun as <- <-. eexists. split; [exact Htr|].
        shape_done.
      * destruct (IH _ _ _ _ Hrun)
          as (evs' & Htr' & Hms' & Hst' & Hpr' & Hle' & Hok').
        eexists. split; [by rewrite Htr', Htr, <- app_assoc|].
        unfold Train.mode_switches, Train.optimizer_steps, Train.printed,
          Train.metric_calls in *.
        rewrite !omap_app. simpl. rewrite Hms', Hst', Hpr'.
        split_and!; try done; [simpl; lia|].
        intros m' Hr. destruct (Hok' m' Hr) as [Hl ->]. by rewrite Hl.
Qed.

Lemma train_epoch_shape (bs : list (list (list Z) * list (list Z)))
    (N : Z) (v : bool) (s s' : state)
    (r : result (gmap string (list scalar))) :
  train_epoch bs N v s = (r, s') ->
  exists evs,
    Train.trace s' = Train.trace s ++ Train.EvMode true :: evs
    /\ Train.training s' = true
    /\ Train.mode_switches evs = []
    /\ Forall Train.in_training_mode evs
    /\ (length (Train.optimizer_steps evs) <= length bs)%nat
    /\ (is_ok r = true -> length (Train.optimizer_steps evs) = length bs)
    /\ (v = false -> Train.printed evs = []).
Proof.
  rewrite train_epoch_unfold. intros Hrun.
  destruct (train_loop_shape _ _ _ _ _ _ _ _ Hrun eq_refl)
    as (evs & Htr & Hrest). simpl in Htr.
  exists evs. split; [|done]. by rewrite Htr, <- app_assoc.
Qed.

Lemma validate_epoch_shape (bs : list (list (list Z) * list (list Z)))
    (v : bool) (s s' : state) (r : result (gmap string (list scalar))) :
  validate_epoch bs v s = (r, s') ->
  Train.params s' = Train.params s
  /\ Train.grads s' = Train.grads s
  /\ Train.opt_state s' = Train.opt_state s
  /\ Train.training s' = false
  /\ exists evs,
       Train.trace s' = Train.trace s ++ Train.EvMode false :: evs
       /\ Train.mode_switches evs = []
       /\ Train.optimizer_steps evs = []
       /\ Train.printed evs = []
       /\ (forall m', r = Ok m' ->
             length (Train.metric_calls evs) = length bs
             /\ m' = replay (Train.metric_calls evs) ∅).
Proof.
  rewrite validate_epoch_unfold. intros Hrun.
  destruct (validate_loop_frame _ _ _ _ _ Hrun eq_refl)
    as (Hp & Hg & Ho & Ht & _).
  destruct (validate_loop_shape _ _ _ _ _ Hrun)
    as (evs & Htr & Hms & Hst & Hpr & _ & Hok).
  simpl in *. split_and!; try done.
  exists evs. split; [by rewrite Htr, <- app_assoc|]. done.
Qed.



(** *** Modes, failures and accumulation of the drivers *)

(** [train_epoch] switches the model to training mode once, before the
    first batch, and leaves it there, whether it returns or raises: every
    forward pass runs with the training flag on, and the forward passes
    and the losses are recorded by autograd. *)
Theorem train_epoch_in_training_mode
    (bs : list (list (list Z) * list (list Z))) (N : Z) (v : bool)
    (s s' : state) (r : result (gmap string (list scalar))) :
  train_epoch bs N v s = (r, s') ->
  Train.training s' = true
  /\ exists evs,
       Train.trace s' = Train.trace s ++ evs
       /\ Train.mode_switches evs = [true]
       /\ head evs = Some (Train.EvMode true)
       /\ Forall Train.in_training_mode evs.
Proof.
  intros Hrun.
  destruct (train_epoch_shape _ _ _ _ _ _ Hrun)
    as (evs & Htr & Ht & Hms & Hall & _).
  split; [done|]. exists (Train.EvMode true :: evs).
  split; [done|].
  change (Train.mode_switches (Train.EvMode true :: evs))
    with (true :: Train.mode_switches evs). rewrite Hms.
  split; [done|]. split; [done|]. by constructor.
Qed.

(** A run of [validate_epoch] that returns called the metrics collaborator
    exactly once per batch and returns the accumulator these calls build
    from the empty one, in the order of the batches; it reports nothing
    and takes no optimizer step. *)
Theorem validate_epoch_accumulates
    (bs : list (list (list Z) * list (list Z))) (v : bool)
    (s s' : state) (m' : gmap string (list scalar)) :
  validate_epoch bs v s = (Ok m', s') ->
  exists evs,
    Train.trace s' = Train.trace s ++ Train.EvMode false :: evs
    /\ length (Train.metric_calls evs) = length bs
    /\ m' = replay (Train.metric_calls evs) ∅
    /\ Train.printed evs = []
    /\ Train.optimizer_steps evs = [].
Proof.
  intros Hrun.
  destruct (validate_epoch_shape _ _ _ _ _ Hrun)
    as (_ & _ & _ & _ & evs & Htr & _ & Hst & Hpr & Hok).
  destruct (Hok m' eq_refl) as [Hlen Hm].
  exists evs. by split_and!.
Qed.

Lemma train_loop_frequency_unused
    (bs : list (list (list Z) * list (list Z))) :
  forall (N N' : Z) (i : Z) (m : gmap string (list scalar)) (s : state),
    train_loop N false i bs m s = train_loop N' false i bs m s.
Proof.
  induction bs as [|b rest IH]; intros N N' i m s; [done|].
  rewrite !train_loop_cons.
  assert (Hbody : train_body N false i b m s = train_body N' false i b m s).
  { by destruct b. }
  rewrite Hbody. destruct (train_body N' false i b m s) as [[m1|e] s1];
    [apply IH|done].
Qed.

(** With [verbose] off the report frequency is never looked at: any two
    values of [train_eval_freq], zero included, give the same run of
    [train_epoch]; and [verbose] makes no difference to a run of
    [validate_epoch]. *)
Theorem verbose_off_ignores_frequency
    (bs : list (list (list Z) * list (list Z))) (N N' : Z) (s : state) :
  train_epoch bs N false s = train_epoch bs N' false s
  /\ validate_epoch bs true s = validate_epoch bs false s.
Proof.
  split.
  - rewrite !train_epoch_unfold. apply train_loop_frequency_unused.
  - by rewrite !validate_epoch_unfold.
Qed.


(** *** train *)

Local Abbreviation train_epochs :=
  (Train.train_epochs model transpose_1_2 criterion autograd accumulate
     optimizer_step argmax tracked).
Local Abbreviation train :=
  (Train.train model transpose_1_2 criterion autograd accumulate
     optimizer_step argmax tracked).

Lemma range_length (n : Z) : length (Py.range n) = Z.to_nat n.
Proof. unfold Py.range. by rewrite length_map, length_seq. Qed.

Lemma mode_switches_app (l1 l2 : list event) :
  Train.mode_switches (l1 ++ l2)
  = Train.mode_switches l1 ++ Train.mode_switches l2.
Proof. apply omap_app. Qed.

Lemma optimizer_steps_app (l1 l2 : list event) :
  Train.optimizer_steps (l1 ++ l2)
  = Train.optimizer_steps l1 ++ Train.optimizer_steps l2.
Proof. apply omap_app. Qed.

Lemma printed_app (l1 l2 : list event) :
  Train.printed (l1 ++ l2) = Train.printed l1 ++ Train.printed l2.
Proof. apply omap_app. Qed.

(** The epochs of [train]: what they leave in the trace and in the log. *)
Lemma train_epochs_shape (epochs : list Z) :
  forall (n_epoch : Z) (tl vl : list (list (list Z) * list (list Z)))
         (N : Z) (v : bool) (log log' : list Train.report) (s s' : state)
         (r : result unit),
    train_epochs epochs n_epoch tl vl N v log s = (r, log', s') ->
    exists evs,
      Train.trace s' = Train.trace s ++ evs
      /\ Train.mode_switches evs
         `prefix_of` concat (replicate (length epochs) [true; false])
      /\ (is_ok r = true ->
          Train.mode_switches evs
          = concat (replicate (length epochs) [true; false])
          /\ length (Train.optimizer_steps evs)
             = (length epochs * length tl)%nat
          /\ (epochs <> [] -> Train.training s' = false))
      /\ (epochs = [] -> s' = s)
      /\ log `prefix_of` log'
      /\ (v = false -> log' = log /\ Train.printed evs = []).
Proof.
  induction epochs as [|epoch rest IH];
    intros n_epoch tl vl N v log log' s s' r Hrun.
  - injection Hrun as <- <- <-. exists []. rewrite app_nil_r.
    split_and!; done.
  - simpl in Hrun.
    destruct (train_epoch tl N v s) as [r1 s1] eqn:H1.
    destruct (train_epoch_shape _ _ _ _ _ _ H1)
      as (evs1 & Htr1 & Ht1 & Hms1 & _ & Hle1 & Hok1 & Hq1).
    destruct r1 as [m1|e].
    2:{ injection Hrun as <- <- <-. exists (Train.EvMode true :: evs1).
        split; [done|].
        change (Train.mode_switches (Train.EvMode true :: evs1))
          with (true :: Train.mode_switches evs1).
        change (Train.printed (Train.EvMode true :: evs1))
          with (Train.printed evs1).
        rewrite Hms1. simpl.
        split; [apply prefix_cons, prefix_nil|]. split; [done|].
        split; [done|]. split.
        - destruct v; [by apply prefix_app_r|done].
        - intros ->. split; [done|]. by apply Hq1. }
    destruct (validate_epoch vl v s1) as [r2 s2] eqn:H2.
    destruct (validate_epoch_shape _ _ _ _ _ H2)
      as (_ & _ & _ & Ht2 & evs2 & Htr2 & Hms2 & Hst2 & Hpr2 & _).
    destruct r2 as [m2|e].
    2:{ injection Hrun as <- <- <-.
        exists ((Train.EvMode true :: evs1) ++ Train.EvMode false :: evs2).
        split; [by rewrite Htr2, Htr1, <- app_assoc|].
        rewrite mode_switches_app, printed_app.
        change (Train.mode_switches (Train.EvMode true :: evs1))
          with (true :: Train.mode_switches evs1).
        change (Train.mode_switches (Train.EvMode false :: evs2))
          with (false :: Train.mode_switches evs2).
        change (Train.printed (Train.EvMode true :: evs1))
          with (Train.printed evs1).
        change (Train.printed (Train.EvMode false :: evs2))
          with (Train.printed evs2).
        rewrite Hms1, Hms2, Hpr2. simpl.
        split; [apply prefix_cons, prefix_cons, prefix_nil|].
        split; [done|]. split; [done|]. split.
        - destruct v; [|done].
          rewrite <- app_assoc. by apply prefix_app_r.
        - intros ->. split; [done|]. by rewrite Hq1. }
    destruct (IH _ _ _ _ _ _ _ _ _ _ Hrun)
      as (evs3 & Htr3 & Hpre3 & Hok3 & Hnil3 & Hlog3 & Hq3).
    exists ((Train.EvMode true :: evs1) ++ (Train.EvMode false :: evs2)
            ++ evs3).
    split; [by rewrite Htr3, Htr2, Htr1, <- !app_assoc|].
    rewrite !mode_switches_app, !optimizer_steps_app, !printed_app.
    change (Train.mode_switches (Train.EvMode true :: evs1))
      with (true :: Train.mode_switches evs1).
    change (Train.mode_switches (Train.EvMode false :: evs2))
      with (false :: Train.mode_switches evs2).
    change (Train.optimizer_steps (Train.EvMode true :: evs1))
      with (Train.optimizer_steps evs1).
    change (Train.optimizer_steps (Train.EvMode false :: evs2))
      with (Train.optimizer_steps evs2).
    change (Train.printed (Train.EvMode true :: evs1))
      with (Train.printed evs1).
    change (Train.printed (Train.EvMode false :: evs2))
      with (Train.printed evs2).
    rewrite Hms1, Hms2, Hst2, Hpr2. simpl.
    split; [by apply prefix_cons, prefix_cons|]. split.
    { intros Hr. destruct (Hok3 Hr) as (-> & Hsteps & Htrain).
      split; [done|]. rewrite length_app, Hsteps, (Hok1 eq_refl).
      split; [lia|]. intros _. destruct rest as [|e' rest'].
      - by rewrite (Hnil3 eq_refl).
      - by apply Htrain. }
    split; [done|]. split.
    { etrans; [|exact Hlog3]. destruct v; [|done].
      rewrite <- !app_assoc. by apply prefix_app_r. }
    intros ->. destruct (Hq3 eq_refl) as [-> Hp3].
    split; [done|]. by rewrite Hq1, Hp3.
Qed.

Lemma train_shape (tl vl : list (list (list Z) * list (list Z)))
    (n_epoch : Z) (test : option (list (list (list Z) * list (list Z))))
    (N : Z) (v : bool) (s s' : state) (log : list Train.report)
    (r : result unit) :
  train tl vl n_epoch test N v s = (r, log, s') ->
  exists evs,
    Train.trace s' = Train.trace s ++ evs
    /\ Train.mode_switches evs
       `prefix_of` concat (replicate (Z.to_nat n_epoch) [true; false])
                   ++ match test with Some _ => [false] | None => [] end
    /\ (is_ok r = true ->
        Train.mode_switches evs
        = concat (replicate (Z.to_nat n_epoch) [true; false])
          ++ match test with Some _ => [false] | None => [] end
        /\ length (Train.optimizer_steps evs)
           = (Z.to_nat n_epoch * length tl)%nat
        /\ (0 < n_epoch \/ is_Some test -> Train.training s' = false))
    /\ (v = false -> log = [] /\ Train.printed evs = []).
Proof.
  unfold Train.train. intros Hrun.
  destruct (train_epochs (Py.range n_epoch) n_epoch tl vl N v [] s)
    as [[r1 log1] s1] eqn:H1.
  destruct (train_epochs_shape _ _ _ _ _ _ _ _ _ _ _ H1)
    as (evs1 & Htr1 & Hpre1 & Hok1 & _ & _ & Hq1).
  rewrite range_length in Hpre1, Hok1.
  assert (Hne : 0 < n_epoch -> Py.range n_epoch <> []).
  { intros Hn Hnil. apply (f_equal length) in Hnil.
    rewrite range_length in Hnil. simpl in Hnil. lia. }
  destruct r1 as [[]|e].
  2:{ injection Hrun as <- <- <-. exists evs1. split; [done|].
      split; [by apply prefix_app_r|]. split; [done|]. exact Hq1. }
  destruct (Hok1 eq_refl) as (Hms1 & Hst1 & Htrain1).
  destruct test as [test|].
  - destruct (validate_epoch test v s1) as [r2 s2] eqn:H2.
    destruct (validate_epoch_shape _ _ _ _ _ H2)
      as (_ & _ & _ & Ht2 & evs2 & Htr2 & Hms2 & Hst2 & Hpr2 & _).
    assert (Hshape :
              Train.trace s2
              = Train.trace s ++ evs1 ++ Train.EvMode false :: evs2).
    { by rewrite Htr2, Htr1, <- app_assoc. }
    assert (Hmodes :
              Train.mode_switches (evs1 ++ Train.EvMode false :: evs2)
              = concat (replicate (Z.to_nat n_epoch) [true; false])
                ++ [false]).
    { rewrite mode_switches_app, Hms1.
      change (Train.mode_switches (Train.EvMode false :: evs2))
        with (false :: Train.mode_switches evs2). by rewrite Hms2. }
    assert (Hsteps :
              length (Train.optimizer_steps
                        (evs1 ++ Train.EvMode false :: evs2))
              = (Z.to_nat n_epoch * length tl)%nat).
    { rewrite optimizer_steps_app, length_app, Hst1.
      change (Train.optimizer_steps (Train.EvMode false :: evs2))
        with (Train.optimizer_steps evs2). rewrite Hst2. simpl. lia. }
    assert (Hquiet :
              v = false ->
              log1 = []
              /\ Train.printed (evs1 ++ Train.EvMode false :: evs2) = []).
    { intros Hv. destruct (Hq1 Hv) as [-> Hp1]. split; [done|].
      rewrite printed_app, Hp1.
      change (Train.printed (Train.EvMode false :: evs2))
        with (Train.printed evs2). by rewrite Hpr2. }
    destruct r2 as [m2|e]; injection Hrun as <- <- <-;
      exists (evs1 ++ Train.EvMode false :: evs2);
      (split; [done|]); rewrite Hmodes; (split; [done|]).
    + split; [done|]. intros Hv. destruct (Hquiet Hv) as [-> ?].
      by rewrite Hv.
    + split; [done|]. exact Hquiet.
  - injection Hrun as <- <- <-. exists evs1. rewrite app_nil_r.
    split; [done|]. split; [by rewrite Hms1|]. split; [|exact Hq1].
    intros _. split; [done|]. split; [done|].
    intros [Hn|[? [=]]]. apply Htrain1. by apply Hne.
Qed.

(** [train] runs the training pass and then the validation pass, once per
    epoch for [n_epoch] epochs (none when [n_epoch] is not positive), and
    after them one more validation pass when a test loader is given: the
    switches of mode of a returning run are training, inference, repeated
    [n_epoch] times, then inference once for the test loader; a run that
    raises has got through a prefix of them.  After a returning run that
    made any pass the model is in inference mode. *)
Theorem train_mode_sequence
    (tl vl : list (list (list Z) * list (list Z)))
    (n_epoch : Z) (test : option (list (list (list Z) * list (list Z))))
    (N : Z) (v : bool) (s s' : state) (log : list Train.report)
    (r : result unit) :
  train tl vl n_epoch test N v s = (r, log, s') ->
  exists evs,
    Train.trace s' = Train.trace s ++ evs
    /\ Train.mode_switches evs
       `prefix_of` concat (replicate (Z.to_nat n_epoch) [true; false])
                   ++ match test with Some _ => [false] | None => [] end
    /\ (is_ok r = true ->
        Train.mode_switches evs
        = concat (replicate (Z.to_nat n_epoch) [true; false])
          ++ match test with Some _ => [false] | None => [] end
        /\ (0 < n_epoch \/ is_Some test -> Train.training s' = false)).
Proof.
  intros Hrun.
  destruct (train_shape _ _ _ _ _ _ _ _ _ _ Hrun)
    as (evs & Htr & Hpre & Hok & _).
  exists evs. split; [done|]. split; [done|].
  intros Hr. destruct (Hok Hr) as (? & _ & ?). done.
Qed.

(** A returning run of [train] has taken exactly one optimizer step per
    batch of the training loader per epoch; the validation and test
    loaders add none. *)
Theorem train_step_count
    (tl vl : list (list (list Z) * list (list Z)))
    (n_epoch : Z) (test : option (list (list (list Z) * list (list Z))))
    (N : Z) (v : bool) (s s' : state) (log : list Train.report) :
  train tl vl n_epoch test N v s = (Ok tt, log, s') ->
  exists evs,
    Train.trace s' = Train.trace s ++ evs
    /\ length (Train.optimizer_steps evs)
       = (Z.to_nat n_epoch * length tl)%nat.
Proof.
  intros Hrun.
  destruct (train_shape _ _ _ _ _ _ _ _ _ _ Hrun)
    as (evs & Htr & _ & Hok & _).
  exists evs. split; [done|]. by destruct (Hok eq_refl) as (_ & ? & _).
Qed.

(** With [verbose] off [train] reports nothing: no epoch header, no mean
    of an epoch, and no periodic report inside an epoch, whether the run
    returns or raises. *)
Theorem train_quiet
    (tl vl : list (list (list Z) * list (list Z)))
    (n_epoch : Z) (test : option (list (list (list Z) * list (list Z))))
    (N : Z) (s s' : state) (log : list Train.report) (r : result unit) :
  train tl vl n_epoch test N false s = (r, log, s') ->
  log = []
  /\ exists evs,
       Train.trace s' = Train.trace s ++ evs /\ Train.printed evs = [].
Proof.
  intros Hrun.
  destruct (train_shape _ _ _ _ _ _ _ _ _ _ Hrun)
    as (evs & Htr & _ & _ & Hq).
  destruct (Hq eq_refl) as [-> Hp]. split; [done|]. by exists evs.
Qed.

(** The test loader has no part in the training: a run of [train] with a
    test loader ends with the parameters, the stored gradient and the
    optimizer state of the run without it, and adds to its log at the end
    only; when the epochs raise, the two runs are the same. *)
Theorem test_loader_leaves_tensors
    (tl vl test : list (list (list Z) * list (list Z)))
    (n_epoch N : Z) (v : bool) (s s1 s2 : state)
    (log1 log2 : list Train.report) (r1 r2 : result unit) :
  train tl vl n_epoch None N v s = (r1, log1, s1) ->
  train tl vl n_epoch (Some test) N v s = (r2, log2, s2) ->
  Train.params s2 = Train.params s1
  /\ Train.grads s2 = Train.grads s1
  /\ Train.opt_state s2 = Train.opt_state s1
  /\ log1 `prefix_of` log2
  /\ Train.trace s1 `prefix_of` Train.trace s2
  /\ (is_ok r1 = false -> r2 = r1 /\ log2 = log1 /\ s2 = s1).
Proof.
  unfold Train.train. intros H1 H2.
  destruct (train_epochs (Py.range n_epoch) n_epoch tl vl N v [] s)
    as [[[[]|e] log0] s0]. 
  - injection H1 as <- <- <-.
    destruct (validate_epoch test v s0) as [r s3] eqn:Hv.
    destruct (validate_epoch_shape _ _ _ _ _ Hv)
      as (Hp & Hg & Ho & _ & evs & Htr & _).
    assert (Hpre : Train.trace s0 `prefix_of` Train.trace s3).
    { rewrite Htr. by apply prefix_app_r. }
    destruct r as [m|e]; injection H2 as <- <- <-; split_and!; try done.
    destruct v; [by apply prefix_app_r|done].
  - injection H1 as <- <- <-. injection H2 as <- <- <-. done.
Qed.

(** Every list of an accumulator returned for a loader has one value per
    batch of the loader. *)
Lemma replay_full (calls : list (scalar * list Z * list Z)) (k : string)
    (l : list scalar) :
  replay calls ∅ !! k = Some l -> length l = length calls.
Proof.
  destruct calls as [|c calls];
    [unfold Train.replay; simpl; by rewrite lookup_empty|].
  rewrite replay_lookup by done. rewrite lookup_empty.
  destruct (tracked !! k) as [f|]; [|done]. intros [= <-].
  simpl. f_equal. apply length_map.
Qed.

Lemma train_epoch_full (bs : list (list (list Z) * list (list Z)))
    (N : Z) (v : bool) (s s' : state) (m' : gmap string (list scalar)) :
  train_epoch bs N v s = (Ok m', s') ->
  map_Forall (fun _ l => length l = length bs) m'.
Proof.
  rewrite train_epoch_unfold. intros Hrun.
  destruct (train_loop_metrics _ _ _ _ _ _ _ _ Hrun)
    as (evs & _ & Hlen & -> & _).
  intros k l Hl. rewrite <- Hlen. by eapply replay_full.
Qed.

Lemma validate_epoch_full (bs : list (list (list Z) * list (list Z)))
    (v : bool) (s s' : state) (m' : gmap string (list scalar)) :
  validate_epoch bs v s = (Ok m', s') ->
  map_Forall (fun _ l => length l = length bs) m'.
Proof.
  intros Hrun.
  destruct (validate_epoch_shape _ _ _ _ _ Hrun)
    as (_ & _ & _ & _ & evs & _ & _ & _ & _ & Hok).
  destruct (Hok m' eq_refl) as [Hlen ->].
  intros k l Hl. rewrite <- Hlen. by eapply replay_full.
Qed.

Lemma train_epochs_log (epochs : list Z) :
  forall (n_epoch : Z) (tl vl : list (list (list Z) * list (list Z)))
         (N : Z) (log log' : list Train.report) (s s' : state),
    train_epochs epochs n_epoch tl vl N true log s = (Ok tt, log', s') ->
    exists new,
      log' = log ++ new
      /\ map Train.report_stage new
         = concat (replicate (length epochs)
                             ["epoch"; "train"; "val"]%string)
      /\ Train.report_headers new
         = map (fun epoch => (epoch + 1, n_epoch)) epochs
      /\ Forall (fun '(stage, m) =>
                   (stage = "train"%string
                    /\ map_Forall (fun _ l => length l = length tl) m)
                   \/ (stage = "val"%string
                       /\ map_Forall (fun _ l => length l = length vl) m))
                (Train.reported_means new).
Proof.
  induction epochs as [|epoch rest IH];
    intros n_epoch tl vl N log log' s s' Hrun.
  - injection Hrun as <- <-. exists []. by rewrite app_nil_r.
  - simpl in Hrun.
    destruct (train_epoch tl N true s) as [[m1|e] s1] eqn:H1; [|done].
    destruct (validate_epoch vl true s1) as [[m2|e] s2] eqn:H2; [|done].
    destruct (IH _ _ _ _ _ _ _ _ Hrun) as (new & -> & Hst & Hh & Hall).
    exists ([Train.ReportEpoch (epoch + 1) n_epoch;
             Train.ReportMeans "train" m1; Train.ReportMeans "val" m2]
            ++ new).
    split; [by rewrite <- !app_assoc|].
    unfold Train.report_headers, Train.reported_means in *.
    rewrite map_app, !omap_app. simpl. rewrite Hst, Hh.
    split; [done|]. split; [done|].
    apply Forall_cons. split.
    { left. split; [done|]. by eapply train_epoch_full. }
    apply Forall_cons. split; [|done].
    right. split; [done|]. by eapply validate_epoch_full.
Qed.

(** What [train] reports when [verbose] is on and the run returns: for
    every epoch its header numbered from 1 to [n_epoch], then the means of
    the training pass and of the validation pass, and at the very end the
    means of the test pass when a test loader is given; every mean is taken
    over one value per batch of the loader of its pass. *)
Theorem train_reports
    (tl vl : list (list (list Z) * list (list Z)))
    (n_epoch : Z) (test : option (list (list (list Z) * list (list Z))))
    (N : Z) (s s' : state) (log : list Train.report) :
  train tl vl n_epoch test N true s = (Ok tt, log, s') ->
  map Train.report_stage log
  = concat (replicate (Z.to_nat n_epoch) ["epoch"; "train"; "val"]%string)
    ++ match test with Some _ => ["test"%string] | None => [] end
  /\ Train.report_headers log
     = map (fun epoch => (epoch + 1, n_epoch)) (Py.range n_epoch)
  /\ Forall (fun '(stage, m) =>
               exists loader,
                 (stage = "train"%string /\ loader = tl
                  \/ stage = "val"%string /\ loader = vl
                  \/ stage = "test"%string /\ Some loader = test)
                 /\ map_Forall (fun _ l => length l = length loader) m)
            (Train.reported_means log).
Proof.
  unfold Train.train. intros Hrun.
  destruct (train_epochs (Py.range n_epoch) n_epoch tl vl N true [] s)
    as [[[[]|e] log1] s1] eqn:H1; [|done].
  destruct (train_epochs_log _ _ _ _ _ _ _ _ _ H1)
    as (new & -> & Hst & Hh & Hall).
  rewrite range_length in Hst. simpl in *.
  assert (Hall' :
            Forall (fun '(stage, m) =>
               exists loader,
                 (stage = "train"%string /\ loader = tl
                  \/ stage = "val"%string /\ loader = vl
                  \/ stage = "test"%string /\ Some loader = test)
                 /\ map_Forall (fun _ l => length l = length loader) m)
              (Train.reported_means new)).
  { eapply Forall_impl; [exact Hall|]. intros [stage m] [[-> Hm]|[-> Hm]].
    - exists tl. split; [by left|done].
    - exists vl. split; [by right; left|done]. }
  destruct test as [test|].
  - destruct (validate_epoch test true s1) as [[m2|e] s2] eqn:H2; [|done].
    injection Hrun as <- <-.
    unfold Train.report_headers, Train.reported_means in *.
    rewrite map_app, !omap_app. simpl. rewrite Hst, Hh, app_nil_r.
    split; [done|]. split; [done|].
    apply Forall_app. split; [done|]. apply Forall_cons. split; [|done].
    exists test. split; [by right; right|]. by eapply validate_epoch_full.
  - injection Hrun as <- <-. rewrite app_nil_r. by rewrite Hst.
Qed.

(** *** Gradients over the whole of train *)

Lemma grad_blocks_app (gs1 gs2 : list Grad) :
  Train.grad_blocks accumulate None (gs1 ++ gs2)
  = Train.grad_blocks accumulate None gs1
    ++ Train.grad_blocks accumulate None gs2.
Proof.
  destruct gs1 as [|g gs1]; [done|]. simpl. do 3 f_equal.
  induction gs1 as [|g' gs1 IH]; [done|]. simpl. by rewrite IH.
Qed.

Lemma grad_events_app (l1 l2 : list event) :
  Train.grad_events (l1 ++ l2)
  = Train.grad_events l1 ++ Train.grad_events l2.
Proof. apply omap_app. Qed.

Lemma inference_only_no_grad_events (evs : list event) :
  Forall Train.inference_only evs -> Train.grad_events evs = [].
Proof.
  induction 1 as [|e evs He _ IH]; [done|].
  destruct e; first [exact IH|by destruct He].
Qed.

Lemma train_epoch_grads (bs : list (list (list Z) * list (list Z)))
    (N : Z) (v : bool) (s s' : state)
    (r : result (gmap string (list scalar))) :
  train_epoch bs N v s = (r, s') ->
  Train.grads s = None ->
  exists evs gs,
    Train.trace s' = Train.trace s ++ evs
    /\ Train.grad_events evs = Train.grad_blocks accumulate None gs
    /\ Train.grads s' = None
    /\ (is_ok r = true -> length gs = length bs).
Proof.
  rewrite train_epoch_unfold. intros Hrun Hg.
  destruct (train_loop_grads _ _ _ _ _ _ _ _ Hrun)
    as (evs & gs & Htr & Hge & _ & Hok & Hne & Hnil).
  simpl in *. rewrite Hg in *.
  exists (Train.EvMode true :: evs), gs.
  split; [by rewrite Htr, <- app_assoc|]. split; [done|].
  split; [|done]. destruct gs as [|g gs]; [by apply Hnil|by apply Hne].
Qed.

Lemma validate_epoch_grads (bs : list (list (list Z) * list (list Z)))
    (v : bool) (s s' : state) (r : result (gmap string (list scalar))) :
  validate_epoch bs v s = (r, s') ->
  Train.grads s' = Train.grads s
  /\ exists evs,
       Train.trace s' = Train.trace s ++ evs /\ Train.grad_events evs = [].
Proof.
  rewrite validate_epoch_unfold. intros Hrun.
  destruct (validate_loop_frame _ _ _ _ _ Hrun eq_refl)
    as (_ & Hg & _ & _ & evs & Htr & Hall).
  simpl in *. split; [done|]. exists (Train.EvMode false :: evs).
  split; [by rewrite Htr, <- app_assoc|].
  change (Train.grad_events (Train.EvMode false :: evs))
    with (Train.grad_events evs).
  by apply inference_only_no_grad_events.
Qed.

Lemma train_epochs_grads (epochs : list Z) :
  forall (n_epoch : Z) (tl vl : list (list (list Z) * list (list Z)))
         (N : Z) (v : bool) (log log' : list Train.report) (s s' : state)
         (r : result unit),
    train_epochs epochs n_epoch tl vl N v log s = (r, log', s') ->
    Train.grads s = None ->
    exists evs gs,
      Train.trace s' = Train.trace s ++ evs
      /\ Train.grad_events evs = Train.grad_blocks accumulate None gs
      /\ Train.grads s' = None
      /\ (is_ok r = true -> length gs = (length epochs * length tl)%nat).
Proof.
  induction epochs as [|epoch rest IH];
    intros n_epoch tl vl N v log log' s s' r Hrun Hg.
  - injection Hrun as <- <- <-. exists [], []. by rewrite app_nil_r.
  - simpl in Hrun.
    destruct (train_epoch tl N v s) as [r1 s1] eqn:H1.
    destruct (train_epoch_grads _ _ _ _ _ _ H1 Hg)
      as (evs1 & gs1 & Htr1 & Hge1 & Hg1 & Hok1).
    destruct r1 as [m1|e].
    2:{ injection Hrun as <- <- <-. by exists evs1, gs1. }
    destruct (validate_epoch vl v s1) as [r2 s2] eqn:H2.
    destruct (validate_epoch_grads _ _ _ _ _ H2)
      as (Hg2 & evs2 & Htr2 & Hge2).
    rewrite Hg1 in Hg2.
    destruct r2 as [m2|e].
    2:{ injection Hrun as <- <- <-. exists (evs1 ++ evs2), gs1.
        rewrite grad_events_app, Hge1, Hge2, app_nil_r.
        split; [by rewrite Htr2, Htr1, <- app_assoc|]. done. }
    destruct (IH _ _ _ _ _ _ _ _ _ _ Hrun Hg2)
      as (evs3 & gs3 & Htr3 & Hge3 & Hg3 & Hok3).
    exists (evs1 ++ evs2 ++ evs3), (gs1 ++ gs3).
    rewrite !grad_events_app, Hge1, Hge2, Hge3, grad_blocks_app.
    split; [by rewrite Htr3, Htr2, Htr1, <- !app_assoc|].
    split; [done|]. split; [done|].
    intros Hr. rewrite length_app, (Hok1 eq_refl), (Hok3 Hr). simpl. lia.
Qed.

(** No gradient outlives its batch in a run of [train] that returns:
    started with no stored gradient, the gradient events of the whole run,
    epochs, validation and test passes together, are blocks backward,
    step, zero_grad, one per training batch per epoch, in which every step
    acts on the gradient of the backward pass just before it and on
    nothing older; and the run ends with no stored gradient. *)
Theorem train_gradients_never_accumulate
    (tl vl : list (list (list Z) * list (list Z)))
    (n_epoch : Z) (test : option (list (list (list Z) * list (list Z))))
    (N : Z) (v : bool) (s s' : state) (log : list Train.report) :
  train tl vl n_epoch test N v s = (Ok tt, log, s') ->
  Train.grads s = None ->
  exists evs gs,
    Train.trace s' = Train.trace s ++ evs
    /\ Train.grad_events evs = Train.grad_blocks accumulate None gs
    /\ length gs = (Z.to_nat n_epoch * length tl)%nat
    /\ Train.grads s' = None.
Proof.
  unfold Train.train. intros Hrun Hg.
  destruct (train_epochs (Py.range n_epoch) n_epoch tl vl N v [] s)
    as [[r1 log1] s1] eqn:H1.
  destruct (train_epochs_grads _ _ _ _ _ _ _ _ _ _ _ H1 Hg)
    as (evs1 & gs & Htr1 & Hge1 & Hg1 & Hok1).
  rewrite range_length in Hok1.
  destruct r1 as [[]|e]; [|done]. specialize (Hok1 eq_refl).
  destruct test as [test|].
  - destruct (validate_epoch test v s1) as [r2 s2] eqn:H2.
    destruct (validate_epoch_grads _ _ _ _ _ H2)
      as (Hg2 & evs2 & Htr2 & Hge2).
    rewrite Hg1 in Hg2.
    destruct r2 as [m2|e]; [|done]. injection Hrun as <- <-.
    exists (evs1 ++ evs2), gs. split_and!; try done.
    + by rewrite Htr2, Htr1, <- app_assoc.
    + by rewrite grad_events_app, Hge1, Hge2, app_nil_r.
  - injection Hrun as <- <-. by exists evs1, gs.
Qed.

End TrainFacts.
(** ** The theorems at concrete inputs *)

(** C1, witness: the source [4,5,6,3,3,3] has inferred length 3. *)
Lemma encoder_lengths_first_pad_witness :
  exists n : nat,
    Network.Seq2SeqRNNEncoder_lengths [[4; 5; 6; 3; 3; 3]] !! 0%nat = Some n
    /\ (n <= length [4; 5; 6; 3; 3; 3])%nat
    /\ (forall j : nat,
          (j < n)%nat ->
          exists t : Z, [4; 5; 6; 3; 3; 3] !! j = Some t /\ t <> 3)
    /\ ((n < length [4; 5; 6; 3; 3; 3])%nat ->
        [4; 5; 6; 3; 3; 3] !! n = Some 3)
    /\ (3 ∉ [4; 5; 6; 3; 3; 3] -> n = length [4; 5; 6; 3; 3; 3]).
Proof.
  exact (proj1 (encoder_lengths_first_pad 0 Demo.vf_gru
                  [[4; 5; 6; 3; 3; 3]] 0 [4; 5; 6; 3; 3; 3] eq_refl)).
Defined.

(** C4, witness: an encoder and a decoder over ten tokens. *)
Lemma embeddings_share_pad_id_witness :
  exists enc dec,
    Network.Seq2SeqRNNEncoder_init 0 Demo.normal_ Demo.gru_init 10 2 2 1 0
    = Ok enc
    /\ Network.Seq2SeqRNNDecoder_init 0 Demo.normal_ Demo.gru_init
         Demo.linear_init 10 2 2 1 0 = Ok dec
    /\ Forall (fun emb => Network.padding_idx emb = Some 3)
              [Network.encoder_embedding enc; Network.decoder_embedding dec].
Proof.
  eexists _, _. split; [reflexivity|]. split; [reflexivity|].
  eapply Forall_impl.
  - exact (embeddings_share_pad_id 0 Z.add Demo.normal_ Demo.gru_init
             Demo.linear_init 10 2 2 1 0 10 2 2 1 0 _ _ eq_refl eq_refl).
  - intros emb H. exact (proj1 H).
Defined.

(** C8, witness: a two-layer encoder with a one-layer decoder never
    returns, where the same model with one layer on both sides does. *)
Lemma layer_mismatch_is_fatal_witness :
  exists model matched,
    Network.Seq2SeqRNN_init 0 Demo.normal_ Demo.gru_init Demo.linear_init
      10 2 1 2 0 10 2 1 1 0 = Ok model
    /\ is_ok (Network.Seq2SeqRNN_forward 0 Demo.vf_gru Demo.F_linear model
                0%nat [[4; 5; 6; 3; 3; 3]] [[1; 7; 8; 9]]) = false
    /\ Network.Seq2SeqRNN_init 0 Demo.normal_ Demo.gru_init Demo.linear_init
         10 2 1 1 0 10 2 1 1 0 = Ok matched
    /\ is_ok (Network.Seq2SeqRNN_forward 0 Demo.vf_gru Demo.F_linear matched
                0%nat [[4; 5; 6; 3; 3; 3]] [[1; 7; 8; 9]]) = true.
Proof.
  assert (Hlayers :
            forall (w : unit) (layers p : Z) (t : bool) (g : nat)
                   (input h0 : list (list (list Z))),
              0 <= layers ->
              Z.of_nat (length (Demo.vf_gru w layers p t g input h0).1.2)
              = layers).
  { intros w layers p t g input h0 Hl. simpl. rewrite length_replicate. lia. }
  eexists _, _. split; [reflexivity|]. split.
  - eapply (proj2 (layer_mismatch_is_fatal 0 Demo.normal_ Demo.gru_init
                     Demo.vf_gru Demo.linear_init Demo.F_linear Hlayers))
      with (en := 10) (ed := 2) (eh := 1) (el := 2) (ep := 0)
           (dn := 10) (dd := 2) (dh := 1) (dl := 1) (dp := 0);
      [lia|lia|reflexivity].
  - split; reflexivity.
Defined.

Ltac run_train bs N v r s' Hrun :=
  unfold Demo.train_epoch;
  destruct (Train.train_epoch Demo.model Demo.transpose_1_2 Demo.criterion
              Demo.autograd Z.add Demo.optimizer_step Demo.argmax
              Demo.tracked bs N v Demo.initial_state) as [r s'] eqn:Hrun.

Ltac run_validate bs v r s' Hrun :=
  unfold Demo.validate_epoch;
  destruct (Train.validate_epoch (Grad := Z) (OptState := unit) Demo.model
              Demo.transpose_1_2 Demo.criterion Demo.argmax Demo.tracked
              bs v Demo.initial_state) as [r s'] eqn:Hrun.

(** C5, witness: an epoch of two batches. *)
Lemma backward_step_zero_grad_order_witness :
  exists r s',
    Demo.train_epoch [Demo.batch1; Demo.batch2] 2 true Demo.initial_state
    = (r, s')
    /\ exists evs gs,
         Train.trace s' = Train.trace Demo.initial_state ++ evs
         /\ Train.grad_events evs
            = Train.grad_blocks Z.add (Train.grads Demo.initial_state) gs
         /\ (length gs <= 2)%nat
         /\ (is_ok r = true -> length gs = 2%nat)
         /\ (gs <> [] -> Train.grads s' = None).
Proof.
  run_train [Demo.batch1; Demo.batch2] 2 true r s' Hrun.
  exists r, s'. split; [reflexivity|].
  exact (backward_step_zero_grad_order Demo.model Demo.transpose_1_2
           Demo.criterion Demo.autograd Z.add Demo.optimizer_step
           Demo.argmax Demo.tracked [Demo.batch1; Demo.batch2] 2 true
           Demo.initial_state s' r Hrun).
Defined.

(** C6, witness: validation over two batches. *)
Lemma validate_epoch_frame_witness :
  exists r s',
    Demo.validate_epoch [Demo.batch1; Demo.batch2] true Demo.initial_state
    = (r, s')
    /\ Train.params s' = Train.params Demo.initial_state
    /\ Train.grads s' = Train.grads Demo.initial_state
    /\ Train.opt_state s' = Train.opt_state Demo.initial_state
    /\ Train.training s' = false
    /\ exists evs,
         Train.trace s' = Train.trace Demo.initial_state ++ evs
         /\ Forall Train.inference_only evs
         /\ Train.grad_events evs = [].
Proof.
  run_validate [Demo.batch1; Demo.batch2] true r s' Hrun.
  exists r, s'. split; [reflexivity|].
  exact (validate_epoch_frame Demo.model Demo.transpose_1_2 Demo.criterion
           Demo.argmax Demo.tracked [Demo.batch1; Demo.batch2] true
           Demo.initial_state s' r Hrun).
Defined.

(** C2, witness: a training and a validation epoch of two batches; the
    target row [1,7,8,9,2] reaches the model as [1,7,8,9], the criterion
    and the metrics as [7,8,9,2]. *)
Lemma teacher_forcing_split_witness :
  (exists r s' blocks,
     Demo.train_epoch [Demo.batch1; Demo.batch2] 2 true Demo.initial_state
     = (r, s')
     /\ Train.trace s'
        = Train.trace Demo.initial_state
          ++ Train.EvMode true :: concat blocks
     /\ length blocks = 2%nat
     /\ Forall2 (fun b evs =>
                   forall e, e ∈ evs ->
                     match e with
                     | Train.EvForward _ _ from_seq to_seq _ =>
                         from_seq = b.1
                         /\ to_seq
                            = map (fun row => take (length row - 1) row) b.2
                     | Train.EvCriterion _ _ targets _ =>
                         targets = map (drop 1) b.2
                     | Train.EvMetrics _ y_true _ =>
                         head (map (drop 1) b.2) = Some y_true
                     | _ => True
                     end)
                [Demo.batch1; Demo.batch2] blocks
     /\ Train.forward_calls (Train.trace s')
        = [(true, true, [[4; 5; 6; 3; 3; 3]], [[1; 7; 8; 9]]);
           (true, true, [[4; 5; 6; 3; 3; 3]; [4; 4; 4; 4; 4; 4]],
            [[1; 7; 8; 9]; [1; 5; 5; 5]])]
     /\ map snd (Train.criterion_calls (Train.trace s'))
        = [[[7; 8; 9; 2]]; [[7; 8; 9; 2]; [5; 5; 5; 2]]]
     /\ map (fun c => c.1.2) (Train.metric_calls (Train.trace s'))
        = [[7; 8; 9; 2]; [7; 8; 9; 2]])
  /\ (exists r s' blocks,
        Demo.validate_epoch [Demo.batch1; Demo.batch2] true
          Demo.initial_state = (r, s')
        /\ Train.trace s'
           = Train.trace Demo.initial_state
             ++ Train.EvMode false :: concat blocks
        /\ length blocks = 2%nat
        /\ Forall2 (fun b evs =>
                      forall e, e ∈ evs ->
                        match e with
                        | Train.EvForward _ _ from_seq to_seq _ =>
                            from_seq = b.1
                            /\ to_seq
                               = map (fun row => take (length row - 1) row)
                                     b.2
                        | Train.EvCriterion _ _ targets _ =>
                            targets = map (drop 1) b.2
                        | Train.EvMetrics _ y_true _ =>
                            head (map (drop 1) b.2) = Some y_true
                        | _ => True
                        end)
                   [Demo.batch1; Demo.batch2] blocks
        /\ Train.forward_calls (Train.trace s')
           = [(false, false, [[4; 5; 6; 3; 3; 3]], [[1; 7; 8; 9]]);
              (false, false, [[4; 5; 6; 3; 3; 3]; [4; 4; 4; 4; 4; 4]],
               [[1; 7; 8; 9]; [1; 5; 5; 5]])]
        /\ map snd (Train.criterion_calls (Train.trace s'))
           = [[[7; 8; 9; 2]]; [[7; 8; 9; 2]; [5; 5; 5; 2]]]
        /\ map (fun c => c.1.2) (Train.metric_calls (Train.trace s'))
           = [[7; 8; 9; 2]; [7; 8; 9; 2]]).
Proof.
  split.
  - assert (Hfacts :
      is_ok (Demo.train_epoch [Demo.batch1; Demo.batch2] 2 true
               Demo.initial_state).1 = true
      /\ Train.forward_calls
           (Train.trace (Demo.train_epoch [Demo.batch1; Demo.batch2] 2 true
                           Demo.initial_state).2)
         = [(true, true, [[4; 5; 6; 3; 3; 3]], [[1; 7; 8; 9]]);
            (true, true, [[4; 5; 6; 3; 3; 3]; [4; 4; 4; 4; 4; 4]],
             [[1; 7; 8; 9]; [1; 5; 5; 5]])]
      /\ map snd (Train.criterion_calls
                    (Train.trace (Demo.train_epoch [Demo.batch1; Demo.batch2]
                                    2 true Demo.initial_state).2))
         = [[[7; 8; 9; 2]]; [[7; 8; 9; 2]; [5; 5; 5; 2]]]
      /\ map (fun c => c.1.2)
             (Train.metric_calls
                (Train.trace (Demo.train_epoch [Demo.batch1; Demo.batch2]
                                2 true Demo.initial_state).2))
         = [[7; 8; 9; 2]; [7; 8; 9; 2]])
      by (vm_compute; repeat split; reflexivity).
    revert Hfacts.
    run_train [Demo.batch1; Demo.batch2] 2 true r s' Hrun.
    intros (Hok & Hfw & Hcr & Hmt).
    destruct (teacher_forcing_split Demo.model Demo.transpose_1_2
                Demo.criterion Demo.autograd Z.add Demo.optimizer_step
                Demo.argmax Demo.tracked [Demo.batch1; Demo.batch2] 2 true
                true Demo.initial_state s' r (or_introl (conj eq_refl Hrun)))
      as (blocks & Htr & _ & Hlen & Hall).
    destruct (Hlen Hok) as [Hl _]. rewrite Hl in Hall.
    exists r, s', blocks. split; [reflexivity|]. split; [exact Htr|].
    split; [exact Hl|]. split; [exact Hall|]. split; [exact Hfw|].
    split; [exact Hcr|exact Hmt].
  - assert (Hfacts :
      is_ok (Demo.validate_epoch [Demo.batch1; Demo.batch2] true
               Demo.initial_state).1 = true
      /\ Train.forward_calls
           (Train.trace (Demo.validate_epoch [Demo.batch1; Demo.batch2] true
                           Demo.initial_state).2)
         = [(false, false, [[4; 5; 6; 3; 3; 3]], [[1; 7; 8; 9]]);
            (false, false, [[4; 5; 6; 3; 3; 3]; [4; 4; 4; 4; 4; 4]],
             [[1; 7; 8; 9]; [1; 5; 5; 5]])]
      /\ map snd (Train.criterion_calls
                    (Train.trace (Demo.validate_epoch
                                    [Demo.batch1; Demo.batch2] true
                                    Demo.initial_state).2))
         = [[[7; 8; 9; 2]]; [[7; 8; 9; 2]; [5; 5; 5; 2]]]
      /\ map (fun c => c.1.2)
             (Train.metric_calls
                (Train.trace (Demo.validate_epoch [Demo.batch1; Demo.batch2]
                                true Demo.initial_state).2))
         = [[7; 8; 9; 2]; [7; 8; 9; 2]])
      by (vm_compute; repeat split; reflexivity).
    revert Hfacts.
    run_validate [Demo.batch1; Demo.batch2] true r s' Hrun.
    intros (Hok & Hfw & Hcr & Hmt).
    destruct (teacher_forcing_split Demo.model Demo.transpose_1_2
                Demo.criterion Demo.autograd Z.add Demo.optimizer_step
                Demo.argmax Demo.tracked [Demo.batch1; Demo.batch2] 2 true
                false Demo.initial_state s' r (or_intror (conj eq_refl Hrun)))
      as (blocks & Htr & _ & Hlen & Hall).
    destruct (Hlen Hok) as [Hl _]. rewrite Hl in Hall.
    exists r, s', blocks. split; [reflexivity|]. split; [exact Htr|].
    split; [exact Hl|]. split; [exact Hall|]. split; [exact Hfw|].
    split; [exact Hcr|exact Hmt].
Defined.

(** C3, witness: a model with a kernel that applies dropout in training
    mode only; in inference mode the calls from the generator states 0 and
    7 return the same logits and leave the generator where it was, while in
    training mode the two calls differ. *)
Lemma Seq2SeqRNN_forward_compose_witness :
  exists model logits,
    Network.Seq2SeqRNN_init 0 Demo.normal_ Demo.gru_init Demo.linear_init
      10 2 1 1 0 10 2 1 1 0 = Ok model
    /\ Network.Seq2SeqRNN_forward 0 Demo.vf_gru_dropout Demo.F_linear
         (Network.Seq2SeqRNN_train false model) 0%nat
         [[4; 5; 6; 3; 3; 3]] [[1; 7; 8; 9]] = Ok (logits, 0%nat)
    /\ Network.Seq2SeqRNN_forward 0 Demo.vf_gru_dropout Demo.F_linear
         (Network.Seq2SeqRNN_train false model) 7%nat
         [[4; 5; 6; 3; 3; 3]] [[1; 7; 8; 9]] = Ok (logits, 7%nat)
    /\ map (map (fun scores => head scores)) logits
       = [[Some 44; Some 56; Some 58; Some 60]]
    /\ is_ok (Network.Seq2SeqRNN_forward 0 Demo.vf_gru_dropout Demo.F_linear
                model 0%nat [[4; 5; 6; 3; 3; 3]] [[1; 7; 8; 9]]) = true
    /\ Demo.returned_logits
         (Network.Seq2SeqRNN_forward 0 Demo.vf_gru_dropout Demo.F_linear
            model 0%nat [[4; 5; 6; 3; 3; 3]] [[1; 7; 8; 9]])
       <> Demo.returned_logits
            (Network.Seq2SeqRNN_forward 0 Demo.vf_gru_dropout Demo.F_linear
               model 7%nat [[4; 5; 6; 3; 3; 3]] [[1; 7; 8; 9]]).
Proof.
  eexists _, _. split; [reflexivity|].
  assert (Hkernel :
            forall (w : unit) (layers p : Z) (g0 g0' : nat)
                   (input h0 : list (list (list Z))),
              (Demo.vf_gru_dropout w layers p false g0 input h0).1
              = (Demo.vf_gru_dropout w layers p false g0' input h0).1
              /\ (Demo.vf_gru_dropout w layers p false g0 input h0).2 = g0).
  { intros w layers p g0 g0' input h0. split; reflexivity. }
  match goal with
  | |- ?first /\ _ => assert (Hfirst : first) by reflexivity
  end.
  split; [exact Hfirst|]. split.
  - exact (proj2 (proj1 (proj2 (proj2
             (Seq2SeqRNN_forward_compose 0 Demo.vf_gru_dropout Demo.F_linear
                _ 0%nat [[4; 5; 6; 3; 3; 3]] [[1; 7; 8; 9]]))
             Hkernel 7%nat) _ _ Hfirst)).
  - split; [vm_compute; reflexivity|]. split; [vm_compute; reflexivity|].
    vm_compute. discriminate.
Defined.


(** The loss handed to the metrics collaborator is the criterion's value
    for all the rows: with the metric that records it, two batches with the
    same first rows and different second target rows record 43 and 46, in
    training as in validation. *)
Lemma loss_metric_sees_all_rows :
  head Demo.batch2.1 = head Demo.batch2'.1
  /\ head Demo.batch2.2 = head Demo.batch2'.2
  /\ Demo.recorded "loss"
       (Demo.train_epoch [Demo.batch2] 2 false Demo.initial_state)
     = Some [43]
  /\ Demo.recorded "loss"
       (Demo.train_epoch [Demo.batch2'] 2 false Demo.initial_state)
     = Some [46]
  /\ Demo.recorded "loss"
       (Demo.validate_epoch [Demo.batch2] false Demo.initial_state)
     = Some [43]
  /\ Demo.recorded "loss"
       (Demo.validate_epoch [Demo.batch2'] false Demo.initial_state)
     = Some [46].
Proof. repeat split; vm_compute; reflexivity. Qed.


(** ** The further properties at concrete inputs *)

Lemma init_encodes_both_sides_witness :
  Dataset.init Demo.new_processor Demo.encode Demo.open_lines
               "train.de" "train.en" "de.model" "en.model" false
  = Ok Demo.dataset
  /\ exists from_lines to_lines,
       Demo.open_lines "train.de" = Ok from_lines
       /\ Demo.open_lines "train.en" = Ok to_lines
       /\ [[12]; [8]]
          = map (fun line => Demo.encode tt line false false) from_lines
       /\ [[1; 11; 2]]
          = map (fun line => Demo.encode tt line true true) to_lines.
Proof.
  split; [reflexivity|].
  exact (proj2 (proj2 (init_encodes_both_sides Demo.new_processor Demo.encode
                         Demo.open_lines "train.de" "train.en" "de.model"
                         "en.model" false Demo.dataset eq_refl))).
Defined.

Lemma getitem_bounds_positions_witness :
  (is_ok (Dataset.getitem Demo.dataset (-1)) = true <-> -1 <= -1 < 1)
  /\ Dataset.getitem Demo.dataset (-1) = Ok ([8], [1; 11; 2])
  /\ Dataset.getitem Demo.dataset 1 = Raise IndexError.
Proof.
  split; [|split; reflexivity].
  exact (proj1 (getitem_bounds_positions Demo.dataset (-1))).
Defined.

Lemma items_are_aligned_pairs_witness :
  mapM (Dataset.getitem Demo.paired) [0; 1]
  = Ok [([12], [1; 12; 2]); ([8], [1; 8; 2])].
Proof.
  exact (items_are_aligned_pairs Demo.paired 2 eq_refl).
Defined.

Lemma vocabulary_must_exceed_pad_id_witness :
  Network.Seq2SeqRNN_init 0 Demo.normal_ Demo.gru_init Demo.linear_init
    3 2 2 1 0 10 2 2 1 0 = Raise AssertionError.
Proof.
  apply (proj1 (vocabulary_must_exceed_pad_id 0 Demo.normal_ Demo.gru_init
                  Demo.linear_init 3 2 2 1 0 10 2 2 1 0)).
  lia.
Defined.

Lemma out_of_vocabulary_id_raises_witness :
  exists model,
    Network.Seq2SeqRNN_init 0 Demo.normal_ Demo.gru_init Demo.linear_init
      10 2 2 1 0 10 2 2 1 0 = Ok model
    /\ Network.Seq2SeqRNN_forward 0 Demo.vf_gru Demo.F_linear model 0%nat
         [[4; 5; 10]] [[1; 7]] = Raise IndexError.
Proof.
  eexists. split; [reflexivity|].
  eapply (proj1 (out_of_vocabulary_id_raises 0 Demo.normal_ Demo.gru_init
                   Demo.vf_gru Demo.linear_init Demo.F_linear
                   10 2 2 1 0 10 2 2 1 0 _ 0%nat [[4; 5; 10]] [[1; 7]]
                   [4; 5; 10] 10 eq_refl ltac:(set_solver)));
    [set_solver|lia].
Defined.

Lemma all_pad_row_stops_encoder_witness :
  exists enc,
    Network.Seq2SeqRNNEncoder_init 0 Demo.normal_ Demo.gru_init 10 2 2 1 0
    = Ok enc
    /\ Network.Seq2SeqRNNEncoder_forward 0 Demo.vf_gru enc 0%nat
         [[4; 5]; [3; 3]] = Raise RuntimeError.
Proof.
  eexists. split; [reflexivity|].
  eapply (proj2 (all_pad_row_stops_encoder 0 Demo.vf_gru _ 0%nat
                   [[4; 5]; [3; 3]] [3; 3] ltac:(set_solver)
                   (or_intror eq_refl))).
  reflexivity.
Defined.

Lemma padded_tail_is_ignored_witness :
  exists enc,
    Network.Seq2SeqRNNEncoder_init 0 Demo.normal_ Demo.gru_init 10 2 2 1 0
    = Ok enc
    /\ Network.Seq2SeqRNNEncoder_forward 0 Demo.vf_gru enc 0%nat
         [[4; 5; 3; 7]]
       = Network.Seq2SeqRNNEncoder_forward 0 Demo.vf_gru enc 0%nat
           [[4; 5; 3; 3]].
Proof.
  eexists. split; [reflexivity|].
  eapply (padded_tail_is_ignored 0 Demo.vf_gru _ 0%nat
            [[4; 5; 3; 3]] [[4; 5; 3; 7]]).
  - repeat constructor.
  - reflexivity.
  - reflexivity.
Defined.

Ltac run_train_all tl vl n test N v r log s' Hrun :=
  unfold Demo.train;
  destruct (Train.train Demo.model Demo.transpose_1_2 Demo.criterion
              Demo.autograd Z.add Demo.optimizer_step Demo.argmax
              Demo.tracked tl vl n test N v Demo.initial_state)
    as [[r log] s'] eqn:Hrun.

Lemma train_epoch_in_training_mode_witness :
  exists r s',
    Demo.train_epoch [Demo.batch1; Demo.batch2] 2 true Demo.initial_state
    = (r, s')
    /\ Train.training s' = true
    /\ exists evs,
         Train.trace s' = Train.trace Demo.initial_state ++ evs
         /\ Train.mode_switches evs = [true]
         /\ head evs = Some (Train.EvMode true)
         /\ Forall Train.in_training_mode evs.
Proof.
  run_train [Demo.batch1; Demo.batch2] 2 true r s' Hrun.
  exists r, s'. split; [reflexivity|].
  exact (train_epoch_in_training_mode Demo.model Demo.transpose_1_2
           Demo.criterion Demo.autograd Z.add Demo.optimizer_step
           Demo.argmax Demo.tracked [Demo.batch1; Demo.batch2] 2 true
           Demo.initial_state s' r Hrun).
Defined.

Lemma validate_epoch_accumulates_witness :
  exists m' s' evs,
    Demo.validate_epoch [Demo.batch1; Demo.batch2] true Demo.initial_state
    = (Ok m', s')
    /\ Train.trace s'
       = Train.trace Demo.initial_state ++ Train.EvMode false :: evs
    /\ length (Train.metric_calls evs) = 2%nat
    /\ m' = Train.replay Demo.tracked (Train.metric_calls evs) ∅.
Proof.
  run_validate [Demo.batch1; Demo.batch2] true r s' Hrun.
  destruct r as [m'|e].
  - destruct (validate_epoch_accumulates Demo.model Demo.transpose_1_2
                Demo.criterion Demo.argmax Demo.tracked
                [Demo.batch1; Demo.batch2] true Demo.initial_state s' m'
                Hrun) as (evs & Htr & Hlen & Hm & _).
    exists m', s', evs. split; [reflexivity|]. by split_and!.
  - apply (f_equal (fun p => is_ok p.1)) in Hrun. vm_compute in Hrun.
    discriminate Hrun.
Defined.


Lemma train_mode_sequence_witness :
  exists r log s' evs,
    Demo.train [Demo.batch1; Demo.batch2] [Demo.batch1] 2 (Some [Demo.batch2])
               2 true Demo.initial_state = (r, log, s')
    /\ Train.trace s' = Train.trace Demo.initial_state ++ evs
    /\ Train.mode_switches evs
       `prefix_of` [true; false; true; false; false].
Proof.
  run_train_all [Demo.batch1; Demo.batch2] [Demo.batch1] 2
                (Some [Demo.batch2]) 2 true r log s' Hrun.
  destruct (train_mode_sequence Demo.model Demo.transpose_1_2
              Demo.criterion Demo.autograd Z.add Demo.optimizer_step
              Demo.argmax Demo.tracked _ _ _ _ _ _ _ _ _ _ Hrun)
    as (evs & Htr & Hpre & _).
  exists r, log, s', evs. split; [reflexivity|]. split; [exact Htr|].
  exact Hpre.
Defined.

Lemma train_step_count_witness :
  exists log s' evs,
    Demo.train [Demo.batch1; Demo.batch2] [Demo.batch1] 2 (Some [Demo.batch2])
               2 true Demo.initial_state = (Ok tt, log, s')
    /\ Train.trace s' = Train.trace Demo.initial_state ++ evs
    /\ length (Train.optimizer_steps evs) = 4%nat.
Proof.
  run_train_all [Demo.batch1; Demo.batch2] [Demo.batch1] 2
                (Some [Demo.batch2]) 2 true r log s' Hrun.
  destruct r as [[]|e].
  - destruct (train_step_count Demo.model Demo.transpose_1_2
                Demo.criterion Demo.autograd Z.add Demo.optimizer_step
                Demo.argmax Demo.tracked _ _ _ _ _ _ _ _ _ Hrun)
      as (evs & Htr & Hsteps).
    exists log, s', evs. split; [reflexivity|]. split; [exact Htr|].
    exact Hsteps.
  - apply (f_equal (fun p => is_ok p.1.1)) in Hrun. vm_compute in Hrun.
    discriminate Hrun.
Defined.

Lemma train_quiet_witness :
  exists r s',
    Demo.train [Demo.batch1; Demo.batch2] [Demo.batch1] 2 (Some [Demo.batch2])
               2 false Demo.initial_state = (r, [], s').
Proof.
  run_train_all [Demo.batch1; Demo.batch2] [Demo.batch1] 2
                (Some [Demo.batch2]) 2 false r log s' Hrun.
  destruct (train_quiet Demo.model Demo.transpose_1_2
              Demo.criterion Demo.autograd Z.add Demo.optimizer_step
              Demo.argmax Demo.tracked _ _ _ _ _ _ _ _ _ Hrun)
    as (Hlog & _).
  exists r, s'. by rewrite Hlog.
Defined.

Lemma test_loader_leaves_tensors_witness :
  exists r1 log1 s1 r2 log2 s2,
    Demo.train [Demo.batch1; Demo.batch2] [Demo.batch1] 2 None 2 true
               Demo.initial_state = (r1, log1, s1)
    /\ Demo.train [Demo.batch1; Demo.batch2] [Demo.batch1] 2
                  (Some [Demo.batch2]) 2 true Demo.initial_state
       = (r2, log2, s2)
    /\ Train.params s2 = Train.params s1
    /\ Train.opt_state s2 = Train.opt_state s1.
Proof.
  run_train_all [Demo.batch1; Demo.batch2] [Demo.batch1] 2
                (@None (list (list (list Z) * list (list Z)))) 2 true
                r1 log1 s1 Hrun1.
  run_train_all [Demo.batch1; Demo.batch2] [Demo.batch1] 2
                (Some [Demo.batch2]) 2 true r2 log2 s2 Hrun2.
  destruct (test_loader_leaves_tensors Demo.model Demo.transpose_1_2
              Demo.criterion Demo.autograd Z.add Demo.optimizer_step
              Demo.argmax Demo.tracked [Demo.batch1; Demo.batch2]
              [Demo.batch1] [Demo.batch2] 2 2 true Demo.initial_state
              s1 s2 log1 log2 r1 r2 Hrun1 Hrun2) as (Hp & _ & Ho & _).
  exists r1, log1, s1, r2, log2, s2. by split_and!.
Defined.

Lemma train_reports_witness :
  exists log s',
    Demo.train [Demo.batch1; Demo.batch2] [Demo.batch1] 2 (Some [Demo.batch2])
               2 true Demo.initial_state = (Ok tt, log, s')
    /\ map Train.report_stage log
       = ["epoch"; "train"; "val"; "epoch"; "train"; "val"; "test"]%string
    /\ Train.report_headers log = [(1, 2); (2, 2)].
Proof.
  run_train_all [Demo.batch1; Demo.batch2] [Demo.batch1] 2
                (Some [Demo.batch2]) 2 true r log s' Hrun.
  destruct r as [[]|e].
  - destruct (train_reports Demo.model Demo.transpose_1_2
                Demo.criterion Demo.autograd Z.add Demo.optimizer_step
                Demo.argmax Demo.tracked _ _ _ _ _ _ _ _ Hrun)
      as (Hst & Hh & _).
    exists log, s'. split; [reflexivity|]. split; [exact Hst|exact Hh].
  - apply (f_equal (fun p => is_ok p.1.1)) in Hrun. vm_compute in Hrun.
    discriminate Hrun.
Defined.

Lemma logits_shape_witness :
  exists model logits g',
    Network.Seq2SeqRNN_init 0 Demo.normal_ Demo.gru_init Demo.linear_init
      10 2 1 1 0 10 2 1 1 0 = Ok model
    /\ Network.Seq2SeqRNN_forward 0 Demo.vf_gru Demo.F_linear model 0%nat
         [[4; 5; 6; 3; 3; 3]] [[1; 7; 8; 9]] = Ok (logits, g')
    /\ map length logits = [4%nat]
    /\ Forall (Forall (fun scores : list Z => length scores = 10%nat)) logits.
Proof.
  eexists _, _, _. split; [reflexivity|]. split; [reflexivity|].
  eapply (logits_shape 0 Demo.normal_ Demo.gru_init Demo.vf_gru
            Demo.linear_init Demo.F_linear 10 2 1 1 0 10 2 1 1 0 _
            0%nat _ [[4; 5; 6; 3; 3; 3]] [[1; 7; 8; 9]]).
  - intros w layers p t g0 input h0. simpl. clear.
    induction input as [|row rest IH]; [done|].
    simpl. by rewrite length_map, IH.
  - intros i o v. apply length_replicate.
  - reflexivity.
  - reflexivity.
Defined.

Lemma train_gradients_never_accumulate_witness :
  exists log s' evs gs,
    Demo.train [Demo.batch1; Demo.batch2] [Demo.batch1] 2 (Some [Demo.batch2])
               2 true Demo.initial_state = (Ok tt, log, s')
    /\ Train.trace s' = Train.trace Demo.initial_state ++ evs
    /\ Train.grad_events evs = Train.grad_blocks Z.add None gs
    /\ length gs = 4%nat
    /\ Train.grads s' = None.
Proof.
  run_train_all [Demo.batch1; Demo.batch2] [Demo.batch1] 2
                (Some [Demo.batch2]) 2 true r log s' Hrun.
  destruct r as [[]|e].
  - destruct (train_gradients_never_accumulate Demo.model Demo.transpose_1_2
                Demo.criterion Demo.autograd Z.add Demo.optimizer_step
                Demo.argmax Demo.tracked [Demo.batch1; Demo.batch2]
                [Demo.batch1] 2 (Some [Demo.batch2]) 2 true
                Demo.initial_state s' log Hrun eq_refl)
      as (evs & gs & Htr & Hge & Hlen & Hg).
    exists log, s', evs, gs. split; [reflexivity|]. split; [exact Htr|].
    split; [exact Hge|]. split; [exact Hlen|exact Hg].
  - apply (f_equal (fun p => is_ok p.1.1)) in Hrun. vm_compute in Hrun.
    discriminate Hrun.
Defined.
